(** * Blend973/myconfigs: terminal scripts

    A shallow embedding of

    - [fibonacci.py]: the Fibonacci printer,
    - [yt-browser4.py] and [yt-browser2.py]: the two YouTube browsing
      front-ends, with their shared helpers ([launcher], [run_yt_dlp],
      [send_notification], [byebye]) and their [playlist_explorer]
      navigation loops,

    followed by the properties of the navigation loop that the repository's
    specification states, and by properties of the code around that loop:
    the input loop of [fibonacci.py] and, of the browsers, the start-up
    check, [load_config], the search of [main_menu] with its history,
    [update_json_list], [playlists_explorer], the autoplay loop and the
    preview text.

    Python values are modelled as follows.  Integers are [Z].  A [str] is a
    Rocq [string], one [ascii] per character, so the model covers text in
    the Latin-1 range; the icon glyphs and colour codes that decorate menu
    labels lie outside it and are left out of the labels (they only ever
    reach the selector's standard input).  A JSON object is a record of the
    fields the code reads.  The outside world (the selector, [yt-dlp], the
    player, the file system) answers through an explicit [world] record, one
    per loop iteration, and every effect of the code is logged as an
    [event]. *)

From Stdlib Require Import ZArith List String Ascii Bool Lia DecimalString.
From Stdlib Require Import NArith DecimalPos DecimalZ.
Import ListNotations.
Open Scope list_scope.
Open Scope string_scope.
Open Scope Z_scope.

(** ** Python built-ins used by the scripts *)

Module Py.

Definition nl : string := String (ascii_of_nat 10) "".

(** [str(n)] for an integer. *)
Definition str (z : Z) : string := NilZero.string_of_int (Z.to_int z).

Definition code (c : ascii) : nat := nat_of_ascii c.

Definition in_range (lo hi : nat) (c : ascii) : bool :=
  (Nat.leb lo (code c) && Nat.leb (code c) hi)%bool.

Definition is_digit (c : ascii) : bool := in_range 48 57 c.

(** [c.isspace()] on the code points below 256. *)
Definition is_space (c : ascii) : bool :=
  (in_range 9 13 c || in_range 28 32 c
   || Nat.eqb (code c) 133 || Nat.eqb (code c) 160)%bool.

(** The line boundaries of [str.splitlines] below 256. *)
Definition is_linebreak (c : ascii) : bool :=
  (in_range 10 13 c || in_range 28 30 c || Nat.eqb (code c) 133)%bool.

Definition digit_value (c : ascii) : Z := Z.of_nat (code c) - 48.

Fixpoint rev_onto (s acc : string) : string :=
  match s with
  | EmptyString => acc
  | String c r => rev_onto r (String c acc)
  end.

Definition rev (s : string) : string := rev_onto s "".

Fixpoint lstrip (s : string) : string :=
  match s with
  | EmptyString => ""
  | String c r => if is_space c then lstrip r else s
  end.

Definition rstrip (s : string) : string := rev (lstrip (rev s)).

(** [s.strip()] *)
Definition strip (s : string) : string := rstrip (lstrip s).

(** [s.lower()] *)
Definition lower_char (c : ascii) : ascii :=
  if in_range 65 90 c then ascii_of_nat (code c + 32) else c.

Fixpoint lower (s : string) : string :=
  match s with
  | EmptyString => ""
  | String c r => String (lower_char c) (lower r)
  end.

(** [s.split(sep)] for a one-character separator: never empty. *)
Fixpoint split_on (sep : ascii) (s : string) : list string :=
  match s with
  | EmptyString => [""]
  | String c r =>
      if Ascii.eqb c sep then "" :: split_on sep r
      else match split_on sep r with
           | [] => [String c ""]
           | w :: ws => String c w :: ws
           end
  end.

(** [s.splitlines()]: a carriage return followed by a line feed is one
    boundary, and a final boundary opens no further line. *)
Fixpoint splitlines_from (cur : string) (s : string) : list string :=
  match s with
  | EmptyString => if String.eqb cur "" then [] else [rev cur]
  | String c r =>
      if is_linebreak c then
        match r with
        | String d r' =>
            if (Nat.eqb (code c) 13 && Nat.eqb (code d) 10)%bool
            then rev cur :: splitlines_from "" r'
            else rev cur :: splitlines_from "" r
        | EmptyString => [rev cur]
        end
      else splitlines_from (String c cur) r
  end.

Definition splitlines (s : string) : list string := splitlines_from "" s.

(** [sep.join(parts)] *)
Definition join (sep : string) (parts : list string) : string :=
  String.concat sep parts.

(** [needle in s] *)
Fixpoint contains (needle s : string) : bool :=
  if String.prefix needle s then true
  else match s with
       | EmptyString => false
       | String _ r => contains needle r
       end.

Fixpoint drop (n : nat) (s : string) : string :=
  match n, s with
  | O, _ => s
  | S n', String _ r => drop n' r
  | S _, EmptyString => ""
  end.

(** [s.replace(old, "")] for a two-character [old]. *)
Fixpoint remove2 (a b : ascii) (s : string) : string :=
  match s with
  | String c ((String d r') as r) =>
      if (Ascii.eqb c a && Ascii.eqb d b)%bool then remove2 a b r'
      else String c (remove2 a b r)
  | _ => s
  end.

(** [s.isdecimal()] *)
Fixpoint all_digits (s : string) : bool :=
  match s with
  | EmptyString => true
  | String c r => (is_digit c && all_digits r)%bool
  end.

Definition isdecimal (s : string) : bool :=
  (negb (String.eqb s "") && all_digits s)%bool.

(** The digits of an integer literal: at least one digit, single
    underscores allowed between digits only. *)
Fixpoint digits (acc : Z) (after_digit : bool) (s : string) : option Z :=
  match s with
  | EmptyString => if after_digit then Some acc else None
  | String c r =>
      if is_digit c then digits (10 * acc + digit_value c) true r
      else if (Ascii.eqb c "_" && after_digit)%bool then digits acc false r
      else None
  end.

(** [int(s)]: surrounding whitespace is ignored, one sign may lead.
    [None] stands for [ValueError]. *)
Definition int (s : string) : option Z :=
  match strip s with
  | String "-" r => option_map Z.opp (digits 0 false r)
  | String "+" r => digits 0 false r
  | r => digits 0 false r
  end.

(** [l[i]] with Python's negative indices; [None] stands for
    [IndexError]. *)
Definition index {A} (l : list A) (i : Z) : option A :=
  let n := Z.of_nat (List.length l) in
  if (0 <=? i) && (i <? n) then nth_error l (Z.to_nat i)
  else if (- n <=? i) && (i <? 0) then nth_error l (Z.to_nat (n + i))
  else None.

End Py.

(** ** fibonacci.py *)

Module Fibonacci.

Import Py.

(** The input loop accepts [response] when
    [response.isdecimal() and int(response) != 0]. *)
Definition accepted (response : string) : option Z :=
  if isdecimal response then
    match int response with
    | Some n => if n =? 0 then None else Some n
    | None => None
    end
  else None.

(** The [while True] loop that computes and prints from the third number
    on.  [fuel] bounds the number of iterations; the result is what the
    loop wrote to standard output when it reached its [break]. *)
Fixpoint calculate (fuel : nat)
    (nth secondTolastNumber lastNumber fibNumbeCalculated : Z)
    : option string :=
  match fuel with
  | O => None
  | S fuel' =>
      let nextNumber := secondTolastNumber + lastNumber in
      let fibNumbeCalculated := fibNumbeCalculated + 1 in
      if fibNumbeCalculated =? nth then
        Some (str nextNumber ++ nl ++ nl
              ++ "The #" ++ str fibNumbeCalculated ++ "Fibonacci"
              ++ "number is " ++ str nextNumber ++ nl)
      else
        option_map (fun rest => str nextNumber ++ ", " ++ rest)
          (calculate fuel' nth lastNumber nextNumber fibNumbeCalculated)
  end.

(** What the branch [if nth >= 10000] prints, with the prompt of its
    [input]. *)
Definition notice (nth : Z) : string :=
  if 10000 <=? nth then
    "This will take a while to display on the screen." ++ nl
    ++ "press Enter to begin......."
  else "".

(** Standard output of one round, from the test [nth == 1] on. *)
Definition report (fuel : nat) (nth : Z) : option string :=
  if nth =? 1 then
    Some ("0" ++ nl ++ nl ++ "The #1 Fibonacci number is 0." ++ nl)
  else if nth =? 2 then
    Some ("o, 1" ++ nl ++ nl ++ "The #2 Fibonacci number is 1." ++ nl)
  else
    option_map (fun rest => notice nth ++ "o, 1, " ++ rest)
      (calculate fuel nth 0 1 2).

(** The textbook sequence 0, 1, 1, 2, 3, 5, ... *)
Fixpoint fib_pair (n : nat) : Z * Z :=
  match n with
  | O => (0, 1)
  | S n' => let '(a, b) := fib_pair n' in (b, a + b)
  end.

Definition fib (n : nat) : Z := fst (fib_pair n).

(** The first [n] numbers of the sequence as a comma-separated list. *)
Definition textbook_list (n : nat) : string :=
  join ", " (map (fun i => str (fib i)) (seq 0 n)).

(** The closing lines of the third branch when they name the [n]-th
    number of the sequence. *)
Definition closing (n : nat) : string :=
  nl ++ nl ++ "The #" ++ str (Z.of_nat n) ++ "Fibonacci" ++ "number is "
  ++ str (fib (n - 1)) ++ nl.

End Fibonacci.

(** ** The regular expressions of the browsers *)

Module Re.

Import Py.

Definition is_blank (c : ascii) : bool := Ascii.eqb c " ".

(** The longest prefix without a digit, and the rest. *)
Fixpoint span_nondigits (s : string) : string * string :=
  match s with
  | EmptyString => ("", "")
  | String c r =>
      if is_digit c then ("", s)
      else let '(p, t) := span_nondigits r in (String c p, t)
  end.

(** Walks a reversed prefix up to its first two blanks in a row and returns
    what was walked over, in the original order. *)
Fixpoint after_last_gap (reversed kept : string) : option string :=
  match reversed with
  | String c ((String d _) as r) =>
      if (is_blank c && is_blank d)%bool then Some kept
      else after_last_gap r (String c kept)
  | _ => None
  end.

(** [re.sub(r'^[^0-9]*  ', '', s)]: the greedy match ends at the last two
    blanks in a row that no digit precedes. *)
Definition sub_label (s : string) : string :=
  let '(p, t) := span_nondigits s in
  match after_last_gap (rev p) "" with
  | Some kept => kept ++ t
  | None => s
  end.

(** [re.sub(r'.  ', '', s)]: every character other than a line feed that
    two blanks follow goes, with the blanks, left to right. *)
Fixpoint sub_icons (s : string) : string :=
  match s with
  | String c ((String d1 (String d2 r2)) as r) =>
      if (negb (Nat.eqb (code c) 10) && is_blank d1 && is_blank d2)%bool
      then sub_icons r2
      else String c (sub_icons r)
  | _ => s
  end.

Fixpoint span_digits (s : string) : string * string :=
  match s with
  | EmptyString => ("", "")
  | String c r =>
      if is_digit c then let '(p, t) := span_digits r in (String c p, t)
      else ("", s)
  end.

(** [re.sub(r'^[0-9]+ ', '', s)] *)
Definition sub_number (s : string) : string :=
  match span_digits s with
  | (String _ _, String c t) => if is_blank c then t else s
  | _ => s
  end.

End Re.

(** ** What the two browsers share

    [send_notification], [launcher] and [run_yt_dlp] are the same text in
    [yt-browser4.py] and [yt-browser2.py]. *)

Module Browser.

Import Py.

(** An entry of a fetched page: the fields of the JSON object that the
    navigation loop reads.  An entry that Python treats as false ([null],
    an empty object) is [None] in a [page]. *)
Record entry := { title : string; entry_url : string; entry_id : string }.

Definition page := list (option entry).

(** What [run_yt_dlp] returns: Python's [None], or the decoded JSON object.
    [has_other_keys] tells whether the object has a key besides
    ["entries"]. *)
Inductive results :=
| PyNone
| Dict (has_other_keys : bool) (entries : option page).

(** Truth value of a result: [None] and the empty object are false. *)
Definition truthy (r : results) : bool :=
  match r with
  | PyNone => false
  | Dict k None => k
  | Dict _ (Some _) => true
  end.

(** The entries of a result that passes the loop's guard, which breaks on
    [not search_results or "entries" not in search_results]. *)
Definition listed (r : results) : option page :=
  match r with
  | Dict _ (Some es) => Some es
  | _ => None
  end.

(** The window of the remote list that [run_yt_dlp] asks for: the globals
    [PLAYLIST_START] and [PLAYLIST_END]. *)
Record window := { PLAYLIST_START : Z; PLAYLIST_END : Z }.

(** The [CONFIG] dictionary, with the entries that the code converts on
    every use already converted: [NO_OF_SEARCH_RESULTS] and
    [NOTIFICATION_DURATION] are the values of [int(CONFIG[...])],
    [PREFERRED_BROWSER] is [shlex.split(CONFIG["PREFERRED_BROWSER"])] (empty
    when the entry is empty).  [ROFI_THEME] is [None] when the dictionary
    has no such key, which is how [yt-browser2.py] starts.  [PLATFORM] and
    [USER] are the module-level platform name and the environment's user
    name. *)
Record config := {
  PREFERRED_SELECTOR : string;
  ENABLE_PREVIEW : string;
  PLAYER : string;
  PREFERRED_BROWSER : list string;
  NO_OF_SEARCH_RESULTS : Z;
  NOTIFICATION_DURATION : Z;
  VIDEO_QUALITY : string;
  DISOWN_STREAMING_PROCESS : string;
  DOWNLOAD_DIRECTORY : string;
  UPDATE_RECENT : string;
  NO_OF_RECENT : Z;
  ROFI_THEME : option string;
  PLATFORM : string;
  USER : string
}.

Inductive exn :=
| FileNotFoundError
| KeyError
| TypeError
| AttributeError
| IndexError.

(** Effects, in the order the code performs them. *)
Inductive event :=
| Clear                                     (* os.system('clear') *)
| Print (text : string)                     (* print(text) *)
| Stderr (text : string)                    (* sys.stderr.write(text) *)
| Notify (message : string)                 (* send_notification(message) *)
| Select (tool prompt_text : string) (preview_mode : option string)
         (options : list string)            (* the selector process *)
| Run (argv : list string)                  (* subprocess.run(argv) *)
| Popen (argv : list string) (start_new_session : bool)
| Previews (entries : page)                 (* download_preview_images *)
| UpdateJsonList (filename : string) (video : entry) (add : bool)
                 (limit : option Z)         (* update_json_list *)
| WriteFile (path text : string).

(** The answers of the outside world during one loop iteration.  [which]
    is [shutil.which]: it also decides whether starting a process finds
    its executable.  [yt_dlp_json] is [json.loads] of the standard output
    of [yt-dlp -J], [None] when that raises [JSONDecodeError]. *)
Record world := {
  which : string -> bool;
  selector_stdout : string;
  yt_dlp_returncode : Z;
  yt_dlp_json : option results;
  get_url_stdout : string;
  playlist_cached : bool;
  SHELL : string
}.

(** How a computation stops early: [sys.exit(code)] or an exception that
    nothing catches. *)
Inductive abort :=
| SysExit (code : Z)
| Raise (e : exn).

(** Computations read the world, update the globals [G] and log events. *)
Definition M (G A : Type) : Type :=
  world -> G -> G * list event * (abort + A).

Definition ret {G A} (a : A) : M G A := fun _ g => (g, [], inr a).

Definition bind {G A B} (m : M G A) (k : A -> M G B) : M G B :=
  fun w g =>
    match m w g with
    | (g1, ev1, inl a) => (g1, ev1, inl a)
    | (g1, ev1, inr x) =>
        let '(g2, ev2, r) := k x w g1 in (g2, (ev1 ++ ev2)%list, r)
    end.

Definition emit {G} (e : event) : M G unit := fun _ g => (g, [e], inr tt).
Definition get {G} : M G G := fun _ g => (g, [], inr g).
Definition put {G} (g : G) : M G unit := fun _ _ => (g, [], inr tt).
Definition ask {G} : M G world := fun w g => (g, [], inr w).
Definition stop {G A} (a : abort) : M G A := fun _ g => (g, [], inl a).

Declare Scope py_scope.
Delimit Scope py_scope with py.
Notation "x <- m ;; k" := (bind m (fun x => k))
  (at level 61, m at next level, right associativity) : py_scope.
Notation "m ;; k" := (bind m (fun _ => k))
  (at level 61, right associativity) : py_scope.
Open Scope py_scope.

Definition when {G} (b : bool) (m : M G unit) : M G unit :=
  if b then m else ret tt.

Definition executable (argv : list string) : string := hd "" argv.

(** [subprocess.run(argv)]: raises when the executable is not found. *)
Definition subprocess_run {G} (argv : list string) : M G unit :=
  emit (Run argv) ;;
  w <- ask ;;
  if which w (executable argv) then ret tt else stop (Raise FileNotFoundError).

(** [subprocess.Popen(argv, start_new_session=...)] *)
Definition subprocess_Popen {G} (argv : list string) (start_new_session : bool)
    : M G unit :=
  emit (Popen argv start_new_session) ;;
  w <- ask ;;
  if which w (executable argv) then ret tt else stop (Raise FileNotFoundError).

Definition send_notification {G} (message : string) : M G unit :=
  emit (Notify message).

(** [os.path.join(a, b)] for a relative [b]. *)
Definition path_join (a b : string) : string :=
  if String.eqb a "" then b
  else if String.eqb (Py.drop (String.length a - 1) a) "/" then a ++ b
  else a ++ "/" ++ b.

(** [s in l] *)
Definition member (s : string) (l : list string) : bool :=
  existsb (String.eqb s) l.

Definition first_page (P : Z) : window :=
  {| PLAYLIST_START := 1; PLAYLIST_END := P |}.

(** The two assignments of the [Next] branch. *)
Definition next_page (P : Z) (b : window) : window :=
  {| PLAYLIST_START := PLAYLIST_START b + P;
     PLAYLIST_END := PLAYLIST_END b + P |}.

Section Shared.

Context {G : Type}.
Variable cfg : config.
Variable bounds : G -> window.

Definition mode_given (preview_mode : option string) : bool :=
  match preview_mode with
  | Some m => negb (String.eqb m "")
  | None => false
  end.

(** The selector process: [Popen] then [communicate]. *)
Definition communicate (tool prompt_text : string)
    (preview_mode : option string) (options : list string) : M G string :=
  emit (Select tool prompt_text preview_mode options) ;;
  w <- ask ;;
  if which w tool then ret (selector_stdout w)
  else stop (Raise FileNotFoundError).

Definition launcher (options : list string) (prompt_text : string)
    (preview_mode : option string) : M G string :=
  let selector := lower (PREFERRED_SELECTOR cfg) in
  if String.eqb selector "rofi" then
    match ROFI_THEME cfg with
    | None => stop (Raise KeyError)
    | Some _ =>
        out <- communicate "rofi" prompt_text preview_mode options ;;
        let res := strip out in
        ret (if String.eqb res "" then "Exit" else res)
    end
  else
    out <- communicate "fzf" prompt_text preview_mode options ;;
    match splitlines out with
    | [] => ret ""
    | first :: rest =>
        match rest with
        | second :: _ => ret (if mode_given preview_mode then second else first)
        | [] => ret first
        end
    end.

(** The command line of [run_yt_dlp] without [extra_args], which no caller
    passes. *)
Definition fetch_command (url : string) (b : window) : list string :=
  (["yt-dlp"; url; "-J"; "--flat-playlist";
    "--extractor-args"; "youtubetab:approximate_date";
    "--playlist-start"; str (PLAYLIST_START b);
    "--playlist-end"; str (PLAYLIST_END b)]
   ++ PREFERRED_BROWSER cfg)%list.

Definition spin (cmd : list string) : list string :=
  (["gum"; "spin"; "--show-output"; "--"] ++ cmd)%list.

Definition run_yt_dlp (url : string) : M G results :=
  g <- get ;;
  w <- ask ;;
  let cmd := fetch_command url (bounds g) in
  (if which w "gum" then subprocess_run (spin cmd)
   else emit (Stderr ("Loading..." ++ nl)) ;; subprocess_run cmd) ;;
  if negb (yt_dlp_returncode w =? 0) then
    send_notification "Failed to fetch data : (" ;; ret PyNone
  else
    match yt_dlp_json w with
    | Some r => ret r
    | None => ret PyNone
    end.

(** Titles as the loop numbers them on a batch it has not processed yet:
    [entry["title"] = f"{num} {title}"], entries that are false skipped. *)
Definition num (count : nat) (i : nat) : string :=
  let n := str (Z.of_nat i + 1) in
  if (Nat.ltb count 10 && Nat.ltb (String.length n) 2)%bool then "0" ++ n
  else n.

Fixpoint number_from (count i : nat) (entries : page) : page :=
  match entries with
  | [] => []
  | None :: rest => None :: number_from count (S i) rest
  | Some e :: rest =>
      Some {| title := num count i ++ " " ++ title e;
              entry_url := entry_url e; entry_id := entry_id e |}
      :: number_from count (S i) rest
  end.

Definition number_titles (entries : page) : page :=
  number_from (List.length entries) 0 entries.

(** [titles]: the titles of the entries that are not false. *)
Fixpoint titles_of (entries : page) : list string :=
  match entries with
  | [] => []
  | None :: rest => titles_of rest
  | Some e :: rest => title e :: titles_of rest
  end.

End Shared.

End Browser.

(** ** yt-browser4.py: [playlist_explorer] *)

Module V4.

Import Py Browser.

(** Where a call of [playlist_explorer] stands: at the top of its outer
    loop, or at the top of the action menu of the chosen video. *)
Inductive position :=
| Listing
| ItemActions (video : entry) (clean_title : string).

(** The parameters and local variables of one call. *)
Record frame := {
  search_results : results;
  url : string;
  urlForAll : option string;
  download_images : bool;
  enumerate_playlist : string;
  position_of : position
}.

(** What one turn of a loop does to the call. *)
Inductive control :=
| Continue (f : frame)
| Call (f callee : frame)
| Return (value : option string).

(** The first call of a session: [playlist_explorer(search_results, url)]. *)
Definition enter (search_results : results) (url : string)
    (urlForAll : option string) : frame :=
  {| search_results := search_results; url := url; urlForAll := urlForAll;
     download_images := false; enumerate_playlist := "";
     position_of := Listing |}.

(** The [Previous] branch: both bounds go back by a page, each clamped. *)
Definition previous_page (P : Z) (b : window) : window :=
  let start := PLAYLIST_START b - P in
  let start := if start <=? 0 then 1 else start in
  let end_ := PLAYLIST_END b - P in
  let end_ := if end_ <=? P then P else end_ in
  {| PLAYLIST_START := start; PLAYLIST_END := end_ |}.

Definition controls : list string :=
  ["Next"; "Previous"; "Back"; "Main Menu"; "Exit"].

Definition media_actions : list string :=
  ["Watch"; "Play All"; "Listen"; "Listen To All"; "Mix"; "Save"; "UnSave";
   "Save Playlist"; "Subscribe To Channel"; "Download"; "Download All";
   "Download (Audio Only)"; "Download All (Audio Only)"; "Open in Browser";
   "Toggle Enumerate Downloads"; "Shell"; "Back"; "Exit"].

(** The lines of the cached mix playlist; [entry.get] on a false entry
    raises after the lines before it were written. *)
Fixpoint playlist_lines (entries : page) : string * bool :=
  match entries with
  | [] => ("", true)
  | None :: _ => ("", false)
  | Some e :: rest =>
      let '(text, ok) := playlist_lines rest in
      ("#EXTINF:-1," ++ title e ++ nl ++ entry_url e ++ nl ++ nl ++ text, ok)
  end.

Section Explorer.

Variable cfg : config.

(** [hashlib.sha256(text).hexdigest()] and three module-level constants. *)
Variable generate_sha256 : string -> string.
Variable CLI_AUTO_GEN_PLAYLISTS : string.
Variable CLI_HEADER : string.
Variable CLI_NAME : string.

Definition M (A : Type) : Type := Browser.M window A.

Definition launcher : list string -> string -> option string -> M string :=
  Browser.launcher cfg.

Definition run_yt_dlp : string -> M results :=
  Browser.run_yt_dlp cfg (fun g : window => g).

Definition page_size : Z := NO_OF_SEARCH_RESULTS cfg.

Definition byebye : M unit :=
  emit Clear ;;
  emit (Print ("Have a good day " ++ USER cfg)) ;;
  stop (SysExit 0).

(** The two assignments after the outer loop. *)
Definition leave : M control :=
  put (first_page page_size) ;; ret (Return None).

Definition with_entries (r : results) (entries : page) : results :=
  match r with
  | Dict k (Some _) => Dict k (Some entries)
  | _ => r
  end.

(** One turn of the outer [while True]. *)
Definition listing (f : frame) : M control :=
  match listed (search_results f) with
  | None => leave
  | Some entries =>
      let entries :=
        if download_images f then entries else number_titles entries in
      let titles := titles_of entries in
      let preview := String.eqb (ENABLE_PREVIEW cfg) "true" in
      let fresh :=
        (preview && String.eqb (PREFERRED_SELECTOR cfg) "fzf"
         && negb (download_images f))%bool in
      when fresh (emit (Previews entries)) ;;
      selection <- launcher (titles ++ controls)%list "select video"
                     (if preview then Some "video" else None) ;;
      let selection := Re.sub_label selection in
      emit Clear ;;
      let shown (p : position) (r : results) (d : bool) : frame :=
        {| search_results := r; url := url f; urlForAll := urlForAll f;
           download_images := d;
           enumerate_playlist := enumerate_playlist f;
           position_of := p |} in
      let same := with_entries (search_results f) entries in
      let seen := (download_images f || fresh)%bool in
      if String.eqb selection "Next" then
        b <- get ;;
        put (next_page page_size b) ;;
        r <- run_yt_dlp (url f) ;;
        ret (Continue (shown Listing r false))
      else if String.eqb selection "Previous" then
        b <- get ;;
        put (previous_page page_size b) ;;
        r <- run_yt_dlp (url f) ;;
        ret (Continue (shown Listing r false))
      else if String.eqb selection "Main Menu" then
        ret (Return (Some "Main Menu"))
      else if member selection ["Back"; ""; "Exit"] then
        when (String.eqb selection "Exit") byebye ;;
        leave
      else
        match Py.int (hd "" (split_on " " selection)) with
        | None => ret (Continue (shown Listing same seen))
        | Some sel_id =>
            match Py.index entries (sel_id - 1) with
            | None => ret (Continue (shown Listing same seen))
            | Some None => stop (Raise TypeError)
            | Some (Some video) =>
                ret (Continue
                       (shown (ItemActions video (Re.sub_number (title video)))
                          same seen))
            end
        end
  end.

Definition update_json_list (filename : string) (video : entry) (add : bool)
    (limit : option Z) : M unit :=
  emit (UpdateJsonList filename video add limit).

Definition update_recent (video : entry) : M unit :=
  if negb (String.eqb (UPDATE_RECENT cfg) "true") then ret tt
  else update_json_list "recent.json" video true (Some (NO_OF_RECENT cfg)).

Definition disown : bool := String.eqb (DISOWN_STREAMING_PROCESS cfg) "true".

Definition resolves_first : bool :=
  (negb (String.eqb (PLAYER cfg) "mpv")
   || String.eqb (PLATFORM cfg) "android")%bool.

Definition get_url (vid_url format : string) : list string :=
  ["yt-dlp"; vid_url; "-q"; "--no-warnings"; "--get-url"; "--format"; format].

Definition last_line (s : string) : string :=
  List.last (split_on (ascii_of_nat 10) s) "".

Definition mix_of (vid_id : string) : string :=
  "https://www.youtube.com/watch?v=" ++ vid_id ++ "&list=RD" ++ vid_id.

Definition watch (video : entry) (clean_title : string) : M unit :=
  let vid_url := entry_url video in
  emit (Print ("Now watching: " ++ clean_title)) ;;
  (if contains "list=RD" vid_url then
     let vid_id := remove2 "R" "D" (entry_id video) in
     let mix_url := mix_of vid_id in
     let cached_pl :=
       path_join CLI_AUTO_GEN_PLAYLISTS (generate_sha256 mix_url ++ ".m3u8") in
     w <- ask ;;
     (if playlist_cached w then ret tt
      else
        mix_data <- run_yt_dlp mix_url ;;
        if truthy mix_data then
          let '(text, ok) :=
            playlist_lines (match mix_data with
                            | Dict _ (Some es) => es
                            | _ => []
                            end) in
          emit (WriteFile cached_pl ("#EXTM3U" ++ nl ++ text)) ;;
          if ok then ret tt else stop (Raise AttributeError)
        else ret tt) ;;
     subprocess_Popen ["mpv"; cached_pl] disown
   else
     w <- ask ;;
     vid_url <-
       (if resolves_first then
          subprocess_run
            (get_url vid_url
               ("best[height<=" ++ VIDEO_QUALITY cfg ++ "]/best")) ;;
          let out := strip (get_url_stdout w) in
          ret (if String.eqb out "" then "" else last_line out)
        else ret vid_url) ;;
     if String.eqb (PLAYER cfg) "mpv" then
       subprocess_Popen ["mpv"; vid_url] disown
     else if String.eqb (PLAYER cfg) "vlc" then
       subprocess_Popen ["vlc"; vid_url; "--video-title"; clean_title] disown
     else ret tt) ;;
  update_recent video.

Definition listen (video : entry) (clean_title : string) : M unit :=
  let vid_url := entry_url video in
  emit (Print ("Now Listening to: " ++ clean_title)) ;;
  w <- ask ;;
  vid_url <-
    (if resolves_first then
       subprocess_run (get_url vid_url "bestaudio/best") ;;
       ret (last_line (strip (get_url_stdout w)))
     else ret vid_url) ;;
  when (String.eqb (PLAYER cfg) "mpv")
    (subprocess_Popen ["mpv"; vid_url; "--no-video"; "--force-window=no"]
       disown) ;;
  update_recent video.

Definition download (video : entry) (clean_title folder : string)
    (audio : list string) : M unit :=
  let out_tmpl :=
    path_join (DOWNLOAD_DIRECTORY cfg)
      (folder ++ "/individual/%(channel)s/%(title)s.%(ext)s") in
  let cmd :=
    (["yt-dlp"; entry_url video] ++ audio ++ ["--output"; out_tmpl]
     ++ PREFERRED_BROWSER cfg)%list in
  subprocess_Popen cmd true ;;
  send_notification ("Started downloading " ++ clean_title).

Definition open_in_browser (vid_url : string) : M unit :=
  w <- ask ;;
  if which w "open" then subprocess_run ["open"; vid_url]
  else if which w "xdg-open" then subprocess_run ["xdg-open"; vid_url]
  else ret tt.

Definition shell : M unit :=
  w <- ask ;;
  let user_shell := SHELL w in
  let init_text :=
    CLI_HEADER ++ nl ++ "Welcome to the " ++ CLI_NAME ++ " shell." ++ nl
    ++ "Variables available: url, urlForAll, video_url, playlist_title, "
    ++ "DOWNLOAD_DIRECTORY" in
  emit (Print ("Spawning " ++ user_shell ++ "...")) ;;
  if contains "fish" user_shell then
    subprocess_run
      [user_shell; "--init-command"; "clear; echo '" ++ init_text ++ "'"]
  else
    emit (Print init_text) ;; subprocess_run [user_shell].

(** One turn of the inner [while True], the action menu of [video]. *)
Definition item_actions (f : frame) (video : entry) (clean_title : string)
    : M control :=
  action_sel <- launcher media_actions "Select Media Action" None ;;
  let action_sel := Re.sub_icons action_sel in
  emit Clear ;;
  when (String.eqb action_sel "Exit") byebye ;;
  let at_ (p : position) (enumerate_playlist : string) : frame :=
    {| search_results := search_results f; url := url f;
       urlForAll := urlForAll f; download_images := download_images f;
       enumerate_playlist := enumerate_playlist; position_of := p |} in
  let again := Continue (at_ (position_of f) (enumerate_playlist f)) in
  if member action_sel ["Back"; ""] then
    ret (Continue (at_ Listing (enumerate_playlist f)))
  else if String.eqb action_sel "Watch" then
    watch video clean_title ;; ret again
  else if String.eqb action_sel "Listen" then
    listen video clean_title ;; ret again
  else if String.eqb action_sel "Download" then
    download video clean_title "videos" [] ;; ret again
  else if String.eqb action_sel "Download (Audio Only)" then
    download video clean_title "audio"
      ["-x"; "-f"; "bestaudio"; "--audio-format"; "mp3"] ;;
    ret again
  else if String.eqb action_sel "Save" then
    update_json_list "saved_videos.json" video true None ;; ret again
  else if String.eqb action_sel "UnSave" then
    update_json_list "saved_videos.json" video false None ;; ret again
  else if String.eqb action_sel "Open in Browser" then
    open_in_browser (entry_url video) ;; ret again
  else if String.eqb action_sel "Toggle Enumerate Downloads" then
    ret (Continue
           (at_ (position_of f)
              (if String.eqb (enumerate_playlist f) ""
               then "%(playlist_index)s - " else "")))
  else if String.eqb action_sel "Mix" then
    let mix_url := mix_of (entry_id video) in
    new_results <- run_yt_dlp mix_url ;;
    ret (Call (at_ (position_of f) (enumerate_playlist f))
              (enter new_results mix_url (Some mix_url)))
  else if String.eqb action_sel "Shell" then
    shell ;; ret again
  else ret again.

(** The calls of [playlist_explorer] in progress, innermost first. *)
Definition stack := list frame.

Inductive status :=
| Running (calls : stack)
| Returned (value : option string).

(** One loop iteration of the innermost call.  When a nested call returns,
    its caller, which discards the value, goes on with its action menu. *)
Definition step (calls : stack) : M status :=
  match calls with
  | [] => ret (Returned None)
  | f :: callers =>
      c <- match position_of f with
           | Listing => listing f
           | ItemActions video clean_title => item_actions f video clean_title
           end ;;
      ret (match c with
           | Continue f' => Running (f' :: callers)
           | Call f' callee => Running (callee :: f' :: callers)
           | Return value =>
               match callers with
               | [] => Returned value
               | _ :: _ => Running callers
               end
           end)
  end.

(** How a run over finitely many answers of the world ends. *)
Inductive outcome :=
| Waiting (calls : stack)          (* the next answer is awaited *)
| Finished (value : option string) (* control is back in the caller *)
| Aborted (a : abort).

Fixpoint run (answers : list world) (calls : stack) (g : window)
    : window * list event * outcome :=
  match answers with
  | [] => (g, [], Waiting calls)
  | w :: rest =>
      match step calls w g with
      | (g1, ev1, inl a) => (g1, ev1, Aborted a)
      | (g1, ev1, inr (Returned value)) => (g1, ev1, Finished value)
      | (g1, ev1, inr (Running calls1)) =>
          let '(g2, ev2, o) := run rest calls1 g1 in
          (g2, (ev1 ++ ev2)%list, o)
      end
  end.

End Explorer.

End V4.

(** ** yt-browser2.py: [playlist_explorer] *)

Module V2.

Import Py Browser.

(** The global state: the window and the two toggles. *)
Record globals := {
  bounds : window;
  AUDIO_ONLY_MODE : bool;
  AUTOPLAY_MODE : bool
}.

(** The module-level initial values, after [load_config]. *)
Definition initial (P : Z) : globals :=
  {| bounds := first_page P; AUDIO_ONLY_MODE := false;
     AUTOPLAY_MODE := false |}.

Definition set_bounds (b : window) (g : globals) : globals :=
  {| bounds := b; AUDIO_ONLY_MODE := AUDIO_ONLY_MODE g;
     AUTOPLAY_MODE := AUTOPLAY_MODE g |}.

(** The locals that the action menu and the autoplay loop share. *)
Record chosen := {
  entries : page;
  current_index : Z;
  video : entry;
  vid_url : string;
  clean_title : string
}.

(** Where the call stands: at the top of the outer loop, of the action
    menu, or of the autoplay loop that [Watch] enters. *)
Inductive position :=
| Listing
| ItemActions (c : chosen)
| Watching (c : chosen).

Record frame := {
  search_results : results;
  url : string;
  download_images : bool;
  position_of : position
}.

Inductive control :=
| Continue (f : frame)
| Return.

Definition enter (search_results : results) (url : string) : frame :=
  {| search_results := search_results; url := url;
     download_images := false; position_of := Listing |}.

(** The [Previous] branch: both bounds go back by a page, each clamped. *)
Definition previous_page (P : Z) (b : window) : window :=
  let start := PLAYLIST_START b - P in
  let start := if start <=? 0 then 1 else start in
  let end_ := PLAYLIST_END b - P in
  let min_end := P in
  let end_ := if end_ <? min_end then min_end else end_ in
  {| PLAYLIST_START := start; PLAYLIST_END := end_ |}.

Definition controls : list string := ["Next"; "Previous"; "Back"; "Exit"].

Definition media_actions (audio autoplay : bool) : list string :=
  let box (b : bool) : string := if b then "[x]" else "[ ]" in
  ["Watch"; "Toggle Audio Only " ++ box audio;
   "Toggle Autoplay " ++ box autoplay; "Download"; "Back"; "Exit"].

(** [player_cmd] of the [Watch] branch. *)
Definition player_cmd (player : string) (audio : bool)
    (vid_url clean_title : string) : list string :=
  let base := [player; vid_url] in
  if String.eqb player "mpv" then
    if audio then (base ++ ["--no-video"; "--force-window=no"])%list else base
  else if String.eqb player "vlc" then
    let titled := (base ++ ["--video-title"; clean_title])%list in
    if audio then (titled ++ ["--no-video"])%list else titled
  else base.

Section Explorer.

Variable cfg : config.

Definition M (A : Type) : Type := Browser.M globals A.

Definition launcher : list string -> string -> option string -> M string :=
  Browser.launcher cfg.

Definition run_yt_dlp : string -> M results :=
  Browser.run_yt_dlp cfg bounds.

Definition page_size : Z := NO_OF_SEARCH_RESULTS cfg.

Definition byebye : M unit :=
  emit Clear ;;
  emit (Print "Have a good day") ;;
  stop (SysExit 0).

(** The two assignments after the outer loop. *)
Definition leave : M control :=
  g <- get ;;
  put (set_bounds (first_page page_size) g) ;;
  ret Return.

Definition with_entries (r : results) (entries : page) : results :=
  match r with
  | Dict k (Some _) => Dict k (Some entries)
  | _ => r
  end.

(** One turn of the outer [while True]. *)
Definition listing (f : frame) : M control :=
  match listed (search_results f) with
  | None => leave
  | Some entries =>
      let entries :=
        if download_images f then entries else number_titles entries in
      let titles := titles_of entries in
      let preview := String.eqb (ENABLE_PREVIEW cfg) "true" in
      let fresh :=
        (preview && String.eqb (PREFERRED_SELECTOR cfg) "fzf"
         && negb (download_images f))%bool in
      when fresh (emit (Previews entries)) ;;
      selection <- launcher (titles ++ controls)%list "select video"
                     (if preview then Some "video" else None) ;;
      let selection := Re.sub_label selection in
      emit Clear ;;
      let shown (p : position) (r : results) (d : bool) : frame :=
        {| search_results := r; url := url f; download_images := d;
           position_of := p |} in
      let same := with_entries (search_results f) entries in
      let seen := (download_images f || fresh)%bool in
      if String.eqb selection "Next" then
        g <- get ;;
        put (set_bounds (next_page page_size (bounds g)) g) ;;
        r <- run_yt_dlp (url f) ;;
        ret (Continue (shown Listing r false))
      else if String.eqb selection "Previous" then
        g <- get ;;
        put (set_bounds (previous_page page_size (bounds g)) g) ;;
        r <- run_yt_dlp (url f) ;;
        ret (Continue (shown Listing r false))
      else if member selection ["Back"; ""; "Exit"] then
        when (String.eqb selection "Exit") byebye ;;
        leave
      else
        match Py.int (hd "" (split_on " " selection)) with
        | None => ret (Continue (shown Listing same seen))
        | Some sel_id =>
            let current_index := sel_id - 1 in
            match Py.index entries current_index with
            | None => ret (Continue (shown Listing same seen))
            | Some None => stop (Raise TypeError)
            | Some (Some video) =>
                ret (Continue
                       (shown
                          (ItemActions
                             {| entries := entries;
                                current_index := current_index;
                                video := video;
                                vid_url := entry_url video;
                                clean_title := Re.sub_number (title video) |})
                          same seen))
            end
        end
  end.

Definition at_ (f : frame) (p : position) : frame :=
  {| search_results := search_results f; url := url f;
     download_images := download_images f; position_of := p |}.

Definition download (c : chosen) : M unit :=
  g <- get ;;
  let audio := AUDIO_ONLY_MODE g in
  let folder := if audio then "audio" else "videos" in
  let ext_args :=
    if audio then ["-x"; "-f"; "bestaudio"; "--audio-format"; "mp3"]
    else [] in
  let out_tmpl :=
    path_join (DOWNLOAD_DIRECTORY cfg)
      (folder ++ "/individual/%(channel)s/%(title)s.%(ext)s") in
  let cmd :=
    (["yt-dlp"; entry_url (video c); "--output"; out_tmpl] ++ ext_args
     ++ PREFERRED_BROWSER cfg)%list in
  subprocess_Popen cmd true ;;
  send_notification ("Started downloading " ++ clean_title c).

(** One turn of the inner [while True], the action menu. *)
Definition item_actions (f : frame) (c : chosen) : M control :=
  g <- get ;;
  action_sel <-
    launcher (media_actions (AUDIO_ONLY_MODE g) (AUTOPLAY_MODE g))
      "Select Media Action" None ;;
  let action_sel := Re.sub_icons action_sel in
  emit Clear ;;
  when (String.eqb action_sel "Exit") byebye ;;
  if member action_sel ["Back"; ""] then
    ret (Continue (at_ f Listing))
  else if contains "Toggle Audio Only" action_sel then
    put {| bounds := bounds g; AUDIO_ONLY_MODE := negb (AUDIO_ONLY_MODE g);
           AUTOPLAY_MODE := AUTOPLAY_MODE g |} ;;
    ret (Continue f)
  else if contains "Toggle Autoplay" action_sel then
    put {| bounds := bounds g; AUDIO_ONLY_MODE := AUDIO_ONLY_MODE g;
           AUTOPLAY_MODE := negb (AUTOPLAY_MODE g) |} ;;
    ret (Continue f)
  else
    let c := {| entries := entries c; current_index := current_index c;
                video := video c; vid_url := entry_url (video c);
                clean_title := clean_title c |} in
    if String.eqb action_sel "Watch" then
      ret (Continue (at_ f (Watching c)))
    else if String.eqb action_sel "Download" then
      download c ;; ret (Continue (at_ f (ItemActions c)))
    else ret (Continue (at_ f (ItemActions c))).

(** One turn of the autoplay loop of the [Watch] branch. *)
Definition watching (f : frame) (c : chosen) : M control :=
  emit (Print ("Now playing: " ++ clean_title c)) ;;
  g <- get ;;
  let cmd :=
    player_cmd (PLAYER cfg) (AUDIO_ONLY_MODE g) (vid_url c) (clean_title c) in
  if AUTOPLAY_MODE g then
    subprocess_run cmd ;;
    let current_index := current_index c + 1 in
    let advance (f : frame) (entries : page) (current_index : Z)
        : M control :=
      let stay :=
        {| entries := entries; current_index := current_index;
           video := video c; vid_url := vid_url c;
           clean_title := clean_title c |} in
      if current_index <? Z.of_nat (List.length entries) then
        match Py.index entries current_index with
        | None => stop (Raise IndexError)
        | Some None => stop (Raise AttributeError)
        | Some (Some video) =>
            ret (Continue
                   (at_ f
                      (Watching
                         {| entries := entries;
                            current_index := current_index;
                            video := video; vid_url := entry_url video;
                            clean_title := Re.sub_number (title video) |})))
        end
      else ret (Continue (at_ f (ItemActions stay))) in
    if Z.of_nat (List.length (entries c)) <=? current_index then
      emit (Print "End of current list. Fetching next page...") ;;
      put (set_bounds (next_page page_size (bounds g)) g) ;;
      r <- run_yt_dlp (url f) ;;
      match listed r with
      | None =>
          ret (Continue
                 {| search_results := r; url := url f;
                    download_images := download_images f;
                    position_of :=
                      ItemActions
                        {| entries := entries c;
                           current_index := current_index;
                           video := video c; vid_url := vid_url c;
                           clean_title := clean_title c |} |})
      | Some entries =>
          advance {| search_results := r; url := url f;
                     download_images := false; position_of := Listing |}
                  entries 0
      end
    else advance f (entries c) current_index
  else
    subprocess_Popen cmd true ;;
    ret (Continue (at_ f (ItemActions c))).

Inductive status :=
| Running (f : frame)
| Returned.

(** One loop iteration of the call. *)
Definition step (f : frame) : M status :=
  c <- match position_of f with
       | Listing => listing f
       | ItemActions c => item_actions f c
       | Watching c => watching f c
       end ;;
  ret (match c with
       | Continue f' => Running f'
       | Return => Returned
       end).

(** How a run over finitely many answers of the world ends. *)
Inductive outcome :=
| Waiting (f : frame)   (* the next answer is awaited *)
| Finished              (* control is back in the caller *)
| Aborted (a : abort).

Fixpoint run (answers : list world) (f : frame) (g : globals)
    : globals * list event * outcome :=
  match answers with
  | [] => (g, [], Waiting f)
  | w :: rest =>
      match step f w g with
      | (g1, ev1, inl a) => (g1, ev1, Aborted a)
      | (g1, ev1, inr Returned) => (g1, ev1, Finished)
      | (g1, ev1, inr (Running f1)) =>
          let '(g2, ev2, o) := run rest f1 g1 in
          (g2, (ev1 ++ ev2)%list, o)
      end
  end.

End Explorer.

End V2.

(** ** Vocabulary of the properties *)

Module Nav.

Import Py Browser.

(** What [launcher] returns under [cfg] when the world answers [w]; [None]
    when it raises. *)
Definition answer (cfg : config) (preview_mode : option string) (w : world)
    : option string :=
  match Browser.launcher (G := unit) cfg [] "" preview_mode w tt with
  | (_, _, inr s) => Some s
  | (_, _, inl _) => None
  end.

(** The selector that [launcher] starts. *)
Definition tool (cfg : config) : string :=
  if String.eqb (lower (PREFERRED_SELECTOR cfg)) "rofi" then "rofi" else "fzf".

(** The preview mode that the page menu passes to [launcher]. *)
Definition video_mode (cfg : config) : option string :=
  if String.eqb (ENABLE_PREVIEW cfg) "true" then Some "video" else None.

(** The selection of the page menu, as the loop compares it: the launcher's
    answer without its leading label decoration. *)
Definition selection (cfg : config) (w : world) : option string :=
  option_map Re.sub_label (answer cfg (video_mode cfg) w).

(** The selection of the action menu, as the loop compares it. *)
Definition action (cfg : config) (w : world) : option string :=
  option_map Re.sub_icons (answer cfg None w).

(** The command lines of the [subprocess.run] calls in a log. *)
Fixpoint runs (log : list event) : list (list string) :=
  match log with
  | [] => []
  | Run argv :: rest => argv :: runs rest
  | _ :: rest => runs rest
  end.

(** The command lines of the [subprocess.Popen] calls in a log. *)
Fixpoint popens (log : list event) : list (list string) :=
  match log with
  | [] => []
  | Popen argv _ :: rest => argv :: popens rest
  | _ :: rest => popens rest
  end.

(** The messages of the notifications in a log. *)
Fixpoint notifications (log : list event) : list string :=
  match log with
  | [] => []
  | Notify message :: rest => message :: notifications rest
  | _ :: rest => notifications rest
  end.

(** The process that [run_yt_dlp] starts was found. *)
Definition fetch_starts (w : world) : bool :=
  if which w "gum" then true else which w "yt-dlp".

(** The command line that [run_yt_dlp] runs for [cmd]. *)
Definition spun (w : world) (cmd : list string) : list string :=
  if which w "gum" then spin cmd else cmd.

(** The log of the process that [run_yt_dlp] starts for [cmd]. *)
Definition fetch_log (w : world) (cmd : list string) : list event :=
  if which w "gum" then [Run (spin cmd)]
  else [Stderr ("Loading..." ++ nl); Run cmd].

(** What [run_yt_dlp] returns when its process was found. *)
Definition fetched (w : world) : results :=
  if yt_dlp_returncode w =? 0 then
    match yt_dlp_json w with
    | Some r => r
    | None => PyNone
    end
  else PyNone.

(** The notification of [run_yt_dlp], sent on a non-zero exit status. *)
Definition fetch_notice (w : world) : list event :=
  if yt_dlp_returncode w =? 0 then [] else [Notify "Failed to fetch data : ("].

(** The entries as the page menu shows them: numbered unless the batch
    counts as processed. *)
Definition shown (processed : bool) (entries : page) : page :=
  if processed then entries else number_titles entries.

(** The batch gets its previews in this turn of the loop. *)
Definition fresh (cfg : config) (processed : bool) : bool :=
  (String.eqb (ENABLE_PREVIEW cfg) "true"
   && String.eqb (PREFERRED_SELECTOR cfg) "fzf" && negb processed)%bool.

(** The log of one page menu, up to the point where the selection is
    looked at. *)
Definition menu_log (cfg : config) (processed : bool) (entries : page)
    (controls : list string) : list event :=
  ((if fresh cfg processed then [Previews (shown processed entries)] else [])
   ++ [Select (tool cfg) "select video" (video_mode cfg)
         (titles_of (shown processed entries) ++ controls);
       Clear])%list.

(** The call of [yt-browser4.py] after a turn of its outer loop that kept
    the batch, and after one that fetched [r]. *)
Definition kept4 (cfg : config) (f : V4.frame) (es : page)
    (p : V4.position) : V4.frame :=
  {| V4.search_results :=
       V4.with_entries (V4.search_results f)
         (shown (V4.download_images f) es);
     V4.url := V4.url f; V4.urlForAll := V4.urlForAll f;
     V4.download_images :=
       (V4.download_images f || fresh cfg (V4.download_images f))%bool;
     V4.enumerate_playlist := V4.enumerate_playlist f;
     V4.position_of := p |}.

Definition refetched4 (f : V4.frame) (r : results) : V4.frame :=
  {| V4.search_results := r;
     V4.url := V4.url f; V4.urlForAll := V4.urlForAll f;
     V4.download_images := false;
     V4.enumerate_playlist := V4.enumerate_playlist f;
     V4.position_of := V4.Listing |}.

(** The same for [yt-browser2.py]. *)
Definition kept2 (cfg : config) (f : V2.frame) (es : page)
    (p : V2.position) : V2.frame :=
  {| V2.search_results :=
       V2.with_entries (V2.search_results f)
         (shown (V2.download_images f) es);
     V2.url := V2.url f;
     V2.download_images :=
       (V2.download_images f || fresh cfg (V2.download_images f))%bool;
     V2.position_of := p |}.

Definition refetched2 (f : V2.frame) (r : results) : V2.frame :=
  {| V2.search_results := r; V2.url := V2.url f;
     V2.download_images := false; V2.position_of := V2.Listing |}.

(** The log of [byebye] in each browser. *)
Definition farewell4 (cfg : config) : list event :=
  [Clear; Print ("Have a good day " ++ USER cfg)].

Definition farewell2 : list event := [Clear; Print "Have a good day"].

(** The log of one action menu, up to the point where the selection is
    looked at. *)
Definition actions4_log (cfg : config) : list event :=
  [Select (tool cfg) "Select Media Action" None V4.media_actions; Clear].

Definition actions2_log (cfg : config) (g : V2.globals) : list event :=
  [Select (tool cfg) "Select Media Action" None
     (V2.media_actions (V2.AUDIO_ONLY_MODE g) (V2.AUTOPLAY_MODE g));
   Clear].

(** The locals of the action menu of [yt-browser2.py] once [vid_url] is
    assigned, and the globals once [AUDIO_ONLY_MODE] is negated. *)
Definition resolved (c : V2.chosen) : V2.chosen :=
  {| V2.entries := V2.entries c; V2.current_index := V2.current_index c;
     V2.video := V2.video c; V2.vid_url := entry_url (V2.video c);
     V2.clean_title := V2.clean_title c |}.

Definition flipped (g : V2.globals) : V2.globals :=
  {| V2.bounds := V2.bounds g;
     V2.AUDIO_ONLY_MODE := negb (V2.AUDIO_ONLY_MODE g);
     V2.AUTOPLAY_MODE := V2.AUTOPLAY_MODE g |}.


(** The window states of a session with page size [P]: the first page and
    what [Next] and [Previous] make of a window state. *)
Inductive reachable (previous_page : Z -> window -> window) (P : Z)
    : window -> Prop :=
| reach_first : reachable previous_page P (first_page P)
| reach_next b :
    reachable previous_page P b -> reachable previous_page P (next_page P b)
| reach_previous b :
    reachable previous_page P b ->
    reachable previous_page P (previous_page P b).

(** The selection is no control of the page menu and names no entry of the
    page: [int] or the subscript raises. *)
Definition names_no_entry (entries : page) (s : string) : Prop :=
  match Py.int (hd "" (split_on " " s)) with
  | None => True
  | Some sel_id => Py.index entries (sel_id - 1) = None
  end.

(** The audio-only arguments of a player. *)
Definition audio_only_args (player : string) : list string :=
  if String.eqb player "mpv" then ["--no-video"; "--force-window=no"]
  else if String.eqb player "vlc" then ["--no-video"]
  else [].

(** The player command without audio-only arguments. *)
Definition plain_cmd (player vid_url clean_title : string) : list string :=
  if String.eqb player "vlc" then
    [player; vid_url; "--video-title"; clean_title]
  else [player; vid_url].

End Nav.

(** ** Sample data *)

Module Sample.

Import Py Browser.

Definition cfg : config :=
  {| PREFERRED_SELECTOR := "fzf"; ENABLE_PREVIEW := "false";
     PLAYER := "mpv"; PREFERRED_BROWSER := [];
     NO_OF_SEARCH_RESULTS := 30; NOTIFICATION_DURATION := 5;
     VIDEO_QUALITY := "1080"; DISOWN_STREAMING_PROCESS := "true";
     DOWNLOAD_DIRECTORY := "/home/user/Videos/yt-browser";
     UPDATE_RECENT := "true"; NO_OF_RECENT := 30;
     ROFI_THEME := Some ""; PLATFORM := "linux"; USER := "user" |}.

Definition with_selector (selector : string) (c : config) : config :=
  {| PREFERRED_SELECTOR := selector; ENABLE_PREVIEW := ENABLE_PREVIEW c;
     PLAYER := PLAYER c; PREFERRED_BROWSER := PREFERRED_BROWSER c;
     NO_OF_SEARCH_RESULTS := NO_OF_SEARCH_RESULTS c;
     NOTIFICATION_DURATION := NOTIFICATION_DURATION c;
     VIDEO_QUALITY := VIDEO_QUALITY c;
     DISOWN_STREAMING_PROCESS := DISOWN_STREAMING_PROCESS c;
     DOWNLOAD_DIRECTORY := DOWNLOAD_DIRECTORY c;
     UPDATE_RECENT := UPDATE_RECENT c; NO_OF_RECENT := NO_OF_RECENT c;
     ROFI_THEME := ROFI_THEME c; PLATFORM := PLATFORM c; USER := USER c |}.

Definition with_player (player : string) (c : config) : config :=
  {| PREFERRED_SELECTOR := PREFERRED_SELECTOR c;
     ENABLE_PREVIEW := ENABLE_PREVIEW c;
     PLAYER := player; PREFERRED_BROWSER := PREFERRED_BROWSER c;
     NO_OF_SEARCH_RESULTS := NO_OF_SEARCH_RESULTS c;
     NOTIFICATION_DURATION := NOTIFICATION_DURATION c;
     VIDEO_QUALITY := VIDEO_QUALITY c;
     DISOWN_STREAMING_PROCESS := DISOWN_STREAMING_PROCESS c;
     DOWNLOAD_DIRECTORY := DOWNLOAD_DIRECTORY c;
     UPDATE_RECENT := UPDATE_RECENT c; NO_OF_RECENT := NO_OF_RECENT c;
     ROFI_THEME := ROFI_THEME c; PLATFORM := PLATFORM c; USER := USER c |}.

Definition video1 : entry :=
  {| title := "First video"; entry_url := "https://youtu.be/a1";
     entry_id := "a1" |}.

Definition video2 : entry :=
  {| title := "Second video"; entry_url := "https://youtu.be/b2";
     entry_id := "b2" |}.

Definition found : results := Dict true (Some [Some video1; Some video2]).

Definition search : string := "https://www.youtube.com/results?search_query=x".

Definition installed (names : list string) (name : string) : bool :=
  member name names.

(** A world in which the selector prints [line], [yt-dlp -J] exits with
    [code] and prints [output], and [names] are the installed programs. *)
Definition says (names : list string) (line : string) (code : Z)
    (output : option results) : world :=
  {| which := installed names; selector_stdout := line;
     yt_dlp_returncode := code; yt_dlp_json := output;
     get_url_stdout := ""; playlist_cached := false; SHELL := "/bin/bash" |}.

Definition tools : list string := ["yt-dlp"; "fzf"; "jq"; "mpv"; "rofi"].

(** The user picks [line]; a fetch, if any, succeeds with [found]. *)
Definition picks (line : string) : world :=
  says tools (line ++ nl) 0 (Some found).



(** The user cancels the selector. *)
Definition cancels : world := says tools "" 0 (Some found).

Definition page2 : window := {| PLAYLIST_START := 31; PLAYLIST_END := 60 |}.

Definition batch : page := [Some video1; Some video2].

(** The calls that a search starts in each browser. *)
Definition start4 : V4.frame := V4.enter found search None.

Definition start2 : V2.frame := V2.enter found search.

(** The first video as the action menu of [yt-browser2.py] holds it. *)
Definition first_chosen : V2.chosen :=
  {| V2.entries := number_titles batch; V2.current_index := 0;
     V2.video :=
       {| title := "01 First video"; entry_url := "https://youtu.be/a1";
          entry_id := "a1" |};
     V2.vid_url := "https://youtu.be/a1";
     V2.clean_title := "First video" |}.

Definition at_actions2 : V2.frame :=
  {| V2.search_results := Dict true (Some (number_titles batch));
     V2.url := search; V2.download_images := false;
     V2.position_of := V2.ItemActions first_chosen |}.

(** The first video as the action menu of [yt-browser4.py] holds it. *)
Definition numbered1 : entry :=
  {| title := "01 First video"; entry_url := "https://youtu.be/a1";
     entry_id := "a1" |}.

(** The configuration that the option [--preferred-selector rofi] gives. *)
Definition cfg_rofi : config := with_selector "rofi" cfg.

(** The same when [CONFIG] has no [ROFI_THEME] key. *)
Definition cfg_rofi_no_theme : config :=
  {| PREFERRED_SELECTOR := "rofi"; ENABLE_PREVIEW := "false";
     PLAYER := "mpv"; PREFERRED_BROWSER := [];
     NO_OF_SEARCH_RESULTS := 30; NOTIFICATION_DURATION := 5;
     VIDEO_QUALITY := "1080"; DISOWN_STREAMING_PROCESS := "true";
     DOWNLOAD_DIRECTORY := "/home/user/Videos/yt-browser";
     UPDATE_RECENT := "true"; NO_OF_RECENT := 30;
     ROFI_THEME := None; PLATFORM := "linux"; USER := "user" |}.





Definition toggle_audio : string := "x  Toggle Audio Only [ ]".

Definition sha (s : string) : string := s.

Definition run4 (c : config) :=
  V4.run c sha "/home/user/.cache/yt-browser/playlists" "" "yt-browser".

Definition step4 (c : config) :=
  V4.step c sha "/home/user/.cache/yt-browser/playlists" "" "yt-browser".

End Sample.

(** ** fibonacci.py: the input loop *)

Module Asking.

Import Py Fibonacci.

(** What the input loop writes before it waits for a response: two
    [print]s and the prompt of [input]. *)
Definition banner : string :=
  "Enter the Nth Fibonacci number you wish to" ++ nl
  ++ "calculate (such as 5, 50, 1000) or QUIT to quit:" ++ nl ++ "> ".

(** How the input loop ends on the responses that are typed: with
    [sys.exit()], with its [break] and the value of [nth], or waiting for a
    response that has not been typed. *)
Inductive reply :=
| Quit
| Nth (nth : Z)
| Pending.

(** The inner [while True]: standard output and how it ends. *)
Fixpoint ask (responses : list string) : string * reply :=
  match responses with
  | [] => (banner, Pending)
  | response :: rest =>
      if String.eqb response "quit" then
        (banner ++ "Thanks for playing!" ++ nl, Quit)
      else
        match accepted response with
        | Some nth => (banner, Nth nth)
        | None =>
            let '(out, r) := ask rest in
            (banner ++ "Please enter a number greater than 0." ++ nl ++ out,
             r)
        end
  end.

(** What the loop writes for [n] responses that it turns down. *)
Fixpoint turned_down (n : nat) : string :=
  match n with
  | O => ""
  | S n' =>
      banner ++ "Please enter a number greater than 0." ++ nl
      ++ turned_down n'
  end.

End Asking.

(** ** Further Python built-ins *)

Module Builtins.

Import Py.

Definition line_feed : ascii := ascii_of_nat 10.

(** [l[start:]] *)
Definition slice_from {A} (start : Z) (l : list A) : list A :=
  let n := Z.of_nat (List.length l) in
  let start := if start <? 0 then Z.max 0 (start + n) else Z.min start n in
  skipn (Z.to_nat start) l.

(** What reading a file in text mode makes of its line ends: a carriage
    return, with the line feed that may follow it, becomes a line feed. *)
Fixpoint universal_newlines (s : string) : string :=
  match s with
  | EmptyString => ""
  | String c r =>
      if Nat.eqb (code c) 13 then
        match r with
        | String d r' =>
            if Nat.eqb (code d) 10 then String line_feed (universal_newlines r')
            else String line_feed (universal_newlines r)
        | EmptyString => String line_feed ""
        end
      else String c (universal_newlines r)
  end.

(** The lines that [for l in f] yields, without their line feeds; the
    piece after the last line feed is a line only when it is not empty,
    and it is here in any case. *)
Definition file_lines (text : string) : list string :=
  split_on line_feed (universal_newlines text).

(** [s.split(sep, 1)] for a two-character separator that occurs in [s]:
    the parts before and after its first occurrence. *)
Fixpoint split_at (a b : ascii) (s : string) : option (string * string) :=
  match s with
  | String c ((String d r') as r) =>
      if (Ascii.eqb c a && Ascii.eqb d b)%bool then Some ("", r')
      else match split_at a b r with
           | Some (key, value) => Some (String c key, value)
           | None => None
           end
  | _ => None
  end.

(** Every character of [s] passes the test [p]. *)
Fixpoint every (p : ascii -> bool) (s : string) : bool :=
  match s with
  | EmptyString => true
  | String c r => (p c && every p r)%bool
  end.

(** [s] has no line end in it. *)
Definition one_line (s : string) : bool :=
  every (fun c => negb (Nat.eqb (code c) 10 || Nat.eqb (code c) 13)) s.

End Builtins.

(** ** Vocabulary of the autoplay loop *)

Module Autoplay.

Import Py Browser.

(** The locals of the autoplay loop of [yt-browser2.py] when it has taken
    entry [e] at position [j] of [es]. *)
Definition lined_up (es : page) (j : nat) (e : entry) : V2.chosen :=
  {| V2.entries := es; V2.current_index := Z.of_nat j; V2.video := e;
     V2.vid_url := entry_url e;
     V2.clean_title := Re.sub_number (title e) |}.

(** What one turn of the loop on [c] logs before it moves on. *)
Definition played (cfg : config) (g : V2.globals) (c : V2.chosen)
    : list event :=
  [Print ("Now playing: " ++ V2.clean_title c);
   Run (V2.player_cmd (PLAYER cfg) (V2.AUDIO_ONLY_MODE g) (V2.vid_url c)
          (V2.clean_title c))].


(** The locals with the index moved on by one. *)
Definition moved_on (c : V2.chosen) : V2.chosen :=
  {| V2.entries := V2.entries c; V2.current_index := V2.current_index c + 1;
     V2.video := V2.video c; V2.vid_url := V2.vid_url c;
     V2.clean_title := V2.clean_title c |}.

(** The call after the autoplay loop has fetched [r] for the next page. *)
Definition turned (f : V2.frame) (r : results) (processed : bool)
    (p : V2.position) : V2.frame :=
  {| V2.search_results := r; V2.url := V2.url f;
     V2.download_images := processed; V2.position_of := p |}.

End Autoplay.

(** ** Vocabulary of the players of yt-browser4.py *)

Module Players.

Import Py Browser.

(** The log of [update_recent]. *)
Definition recent_log (cfg : config) (video : entry) : list event :=
  if String.eqb (UPDATE_RECENT cfg) "true" then
    [UpdateJsonList "recent.json" video true (Some (NO_OF_RECENT cfg))]
  else [].

(** The direct address that Watch and Listen ask [yt-dlp] for. *)
Definition watch_format (cfg : config) : string :=
  "best[height<=" ++ VIDEO_QUALITY cfg ++ "]/best".

End Players.

(** ** The start of both browsers *)

Module Main.

Import Py Browser.


Section Deps.

Context {G : Type}.


End Deps.

End Main.

(** ** yt-browser4.py: [playlists_explorer] *)

Module Playlists.

Import Py Browser.

(** The titles as [playlists_explorer] numbers them, for entries that are
    all objects: it skips none. *)
Fixpoint number_all (count i : nat) (entries : list entry) : list entry :=
  match entries with
  | [] => []
  | e :: rest =>
      {| title := num count i ++ " " ++ title e; entry_url := entry_url e;
         entry_id := entry_id e |}
      :: number_all count (S i) rest
  end.

(** What one turn of its loop does: it goes round, ends the loop, or calls
    [playlist_explorer] on what it fetched for the playlist. *)
Inductive control :=
| Again
| Leave
| Open (pl_url : string) (search_results : results).

Section Explorer.

Variable cfg : config.

(** One turn of the [while True] on the numbered [entries]. *)
Definition turn (entries : list entry) : V4.M control :=
  let preview := String.eqb (ENABLE_PREVIEW cfg) "true" in
  sel <- V4.launcher cfg (map title entries ++ ["Back"; "Exit"])%list
           "select video" (if preview then Some "playlist" else None) ;;
  let sel := strip (Re.sub_label sel) in
  emit Clear ;;
  if (contains "Back" sel || String.eqb sel "")%bool then ret Leave
  else
    when (contains "Exit" sel) (V4.byebye cfg) ;;
    match find (fun e => String.eqb (title e) sel) entries with
    | Some playlist =>
        search_results <- V4.run_yt_dlp cfg (entry_url playlist) ;;
        ret (Open (entry_url playlist) search_results)
    | None => ret Again
    end.

End Explorer.

(** The mode that its menu passes to [launcher]. *)
Definition playlist_mode (cfg : config) : option string :=
  if String.eqb (ENABLE_PREVIEW cfg) "true" then Some "playlist" else None.

(** The log of one menu, up to the point where the selection is looked
    at. *)
Definition menu_log (cfg : config) (entries : list entry) : list event :=
  [Select (Nav.tool cfg) "select video" (playlist_mode cfg)
     (map title entries ++ ["Back"; "Exit"]);
   Clear].

End Playlists.

(** ** Vocabulary of the action menu of yt-browser4.py *)

Module Actions.

Import Py Browser.

(** The selections that the action menu has a branch for. *)
Definition handled : list string :=
  ["Exit"; "Back"; ""; "Watch"; "Listen"; "Download";
   "Download (Audio Only)"; "Save"; "UnSave"; "Open in Browser";
   "Toggle Enumerate Downloads"; "Mix"; "Shell"].

(** The entries of the menu that it has no branch for. *)
Definition idle : list string :=
  filter (fun a => negb (member a handled)) V4.media_actions.

End Actions.

(** ** yt-browser4.py: the saved and the recent videos *)

Module Store.

Import Py Builtins Browser.

(** [video.copy()] with its title freed of the number of the page menu. *)
Definition video_copy (video : entry) : entry :=
  {| title := Re.sub_number (title video); entry_url := entry_url video;
     entry_id := entry_id video |}.

(** [update_json_list] as a function of what the file holds: [data] is the
    list under ["entries"] of the JSON object in the file, [None] when there
    is no file or [json.load] raises.  The result is the list that is
    written back. *)
Definition update_json_list (data : option (list entry)) (video : entry)
    (add : bool) (limit : option Z) : list entry :=
  let entries := match data with Some es => es | None => [] end in
  let vid_id := entry_id video in
  let entries :=
    filter (fun e => negb (String.eqb (entry_id e) vid_id)) entries in
  let entries :=
    if add then (entries ++ [video_copy video])%list else entries in
  match limit with
  | Some limit =>
      if (negb (limit =? 0) && (limit <? Z.of_nat (List.length entries)))%bool
      then slice_from (- limit) entries
      else entries
  | None => entries
  end.

(** [update_recent]: what [recent.json] holds afterwards. *)
Definition update_recent (cfg : config) (data : option (list entry))
    (video : entry) : option (list entry) :=
  if negb (String.eqb (UPDATE_RECENT cfg) "true") then data
  else Some (update_json_list data video true (Some (NO_OF_RECENT cfg))).

(** The JSON lists of the configuration directory, by file name. *)
Definition files := string -> option (list entry).

(** What an effect of the loop does to them. *)
Definition perform (fs : files) (ev : event) : files :=
  match ev with
  | UpdateJsonList filename video add limit =>
      fun name =>
        if String.eqb name filename
        then Some (update_json_list (fs filename) video add limit)
        else fs name
  | _ => fs
  end.

Definition replay (log : list event) (fs : files) : files :=
  fold_left perform log fs.

(** The entries of a list other than those with the id of [video]. *)
Definition others (video : entry) (entries : list entry) : list entry :=
  filter (fun e => negb (String.eqb (entry_id e) (entry_id video))) entries.

Definition load (data : option (list entry)) : list entry :=
  match data with
  | Some es => es
  | None => []
  end.

End Store.

(** ** The search of [main_menu] and its history *)

Module Searching.

Import Py Builtins Browser.

(** [[l.strip() for l in f if l.strip()]] on the text of
    [search_history.txt]. *)
Definition history_lines (text : string) : list string :=
  filter (fun l => negb (String.eqb l "")) (map strip (file_lines text)).

(** [prompt]: the lines it numbers, the newest first. *)
Definition shown_history (text : string) : list string :=
  List.rev (slice_from (- 10) (history_lines text)).

(** [[f"{i+1}. {l}" for i, l in enumerate(lines)]] *)
Fixpoint enumerate_from (i : nat) (lines : list string) : list string :=
  match lines with
  | [] => []
  | l :: rest =>
      (str (Z.of_nat i + 1) ++ ". " ++ l) :: enumerate_from (S i) rest
  end.

(** [history_text] of [prompt]; [file] is [None] when there is no history
    file. *)
Definition history_text (file : option string) : string :=
  match file with
  | None => ""
  | Some text =>
      "Search history:" ++ nl
      ++ join nl (enumerate_from 0 (shown_history text)) ++ nl
      ++ "(Enter !<n> to select from history. Example: !1)" ++ nl
  end.

(** The string without one final line feed. *)
Fixpoint chomp (s : string) : string :=
  match s with
  | EmptyString => ""
  | String c EmptyString => if Ascii.eqb c line_feed then "" else s
  | String c r => String c (chomp r)
  end.

(** [re.match(r'^![0-9]{1,2}$', s)] *)
Definition recalls (s : string) : bool :=
  match s with
  | String "!" r =>
      let d := chomp r in
      (all_digits d
       && (Nat.eqb (String.length d) 1 || Nat.eqb (String.length d) 2))%bool
  | _ => false
  end.

(** The exceptions of the look-up. *)
Inductive error :=
| IndexError
| ValueError.

(** What becomes of the term that [prompt] returned. *)
Inductive recalled :=
| Term (search_term : string)
| Fails (e : error).

(** The lines of [main_menu] that resolve [!n].  [catches] tells whether
    the look-up stands in a [try] that catches [Exception], as it does in
    [yt-browser2.py]. *)
Definition recall (catches : bool) (file : option string)
    (search_term : string) : recalled :=
  if recalls search_term then
    match Py.int (drop 1 search_term) with
    | None => Fails ValueError
    | Some idx =>
        match file with
        | None => Term search_term
        | Some text =>
            let lines := history_lines text in
            if (negb (Nat.eqb (List.length lines) 0) && (idx <=? 10))%bool
            then
              match Py.index lines (- idx) with
              | Some line => Term line
              | None =>
                  if catches then Term search_term else Fails IndexError
              end
            else Term search_term
        end
    end
  else Term search_term.

Definition is_lower (c : ascii) : bool := in_range 97 122 c.

Fixpoint span_lower (s : string) : string * string :=
  match s with
  | EmptyString => ("", "")
  | String c r =>
      if is_lower c then let '(p, t) := span_lower r in (String c p, t)
      else ("", s)
  end.

(** The longest prefix without a line feed. *)
Fixpoint until_line_feed (s : string) : string :=
  match s with
  | EmptyString => ""
  | String c r =>
      if Ascii.eqb c line_feed then "" else String c (until_line_feed r)
  end.

(** [\s+(.+)] matched at the start of [s]: the white space takes all it
    can and gives back until a character other than a line feed follows;
    the result is the second group. *)
Fixpoint gap_then_rest (s : string) : option string :=
  match s with
  | EmptyString => None
  | String c r =>
      if is_space c then
        match gap_then_rest r with
        | Some group => Some group
        | None =>
            match r with
            | String d _ =>
                if Ascii.eqb d line_feed then None
                else Some (until_line_feed r)
            | EmptyString => None
            end
        end
      else None
  end.

(** [re.match(r'^(:[a-z]+)\s+(.+)', s)]: the two groups. *)
Definition filter_match (s : string) : option (string * string) :=
  match s with
  | String ":" r =>
      match span_lower r with
      | (String a word, rest) =>
          match gap_then_rest rest with
          | Some group => Some (String ":" (String a word), group)
          | None => None
          end
      | _ => None
      end
  | _ => None
  end.

Definition default_sp : string := "EgIQAQ%253D%253D".

Definition sp_of (filter_cmd : string) : string :=
  if String.eqb filter_cmd ":hour" then "EgIIAQ%253D%253D"
  else if String.eqb filter_cmd ":today" then "EgIIAg%253D%253D"
  else if String.eqb filter_cmd ":week" then "EgIIAw%253D%253D"
  else if String.eqb filter_cmd ":month" then "EgIIBA%253D%253D"
  else if String.eqb filter_cmd ":year" then "EgIIBQ%253D%253D"
  else default_sp.

(** [sp] and [search_term] after the filter was looked for. *)
Definition filtered (search_term : string) : string * string :=
  match filter_match search_term with
  | Some (filter_cmd, term) => (sp_of filter_cmd, term)
  | None => (default_sp, search_term)
  end.

(** The text that [main_menu] writes to the history file. *)
Definition saved_history (file : option string) (search_term : string)
    : string :=
  let lines :=
    match file with
    | Some text =>
        filter (fun l => negb (String.eqb l search_term)) (history_lines text)
    | None => []
    end in
  join nl (lines ++ [search_term]) ++ nl.

Definition hex_digit (n : nat) : ascii :=
  match String.get n "0123456789ABCDEF" with
  | Some c => c
  | None => "0"%char
  end.

Definition percent (byte : nat) : string :=
  String "%" (String (hex_digit (byte / 16))
                (String (hex_digit (byte mod 16)) "")).

(** The characters that [urllib.parse.quote] leaves as they are. *)
Definition unreserved (c : ascii) : bool :=
  (in_range 65 90 c || in_range 97 122 c || in_range 48 57 c
   || Ascii.eqb c "_" || Ascii.eqb c "." || Ascii.eqb c "-"
   || Ascii.eqb c "~" || Ascii.eqb c "/")%bool.

(** [urllib.parse.quote(s)]: every other byte of the UTF-8 encoding as a
    percent sign and two hexadecimal digits. *)
Fixpoint quote (s : string) : string :=
  match s with
  | EmptyString => ""
  | String c r =>
      (if Nat.ltb (code c) 128 then
         if unreserved c then String c "" else percent (code c)
       else percent (192 + code c / 64) ++ percent (128 + code c mod 64))
      ++ quote r
  end.

(** How the Search branch of [main_menu] ends. *)
Inductive searched :=
| Again                                        (* return main_menu() *)
| Raises (e : error)
| Explore (url : string) (file : option string).

(** The Search branch of [main_menu] from the term that [prompt] returned
    to the address that [playlist_explorer] gets; [history] is
    [CONFIG["SEARCH_HISTORY"]], and the second component of [Explore] is
    the history file afterwards. *)
Definition search (catches : bool) (history : string) (file : option string)
    (typed : string) : searched :=
  match recall catches file typed with
  | Term search_term =>
      if String.eqb search_term "" then Again
      else
        let '(sp, search_term) := filtered search_term in
        let file :=
          if String.eqb history "true"
          then Some (saved_history file search_term)
          else file in
        Explore ("https://www.youtube.com/results?search_query="
                 ++ quote search_term ++ "&sp=" ++ sp) file
  | Fails e => Raises e
  end.

End Searching.

(** ** [load_config] *)

Module Config.

Import Py Builtins Browser.

(** The [CONFIG] dictionary as it is before its values are converted:
    text by key. *)
Definition dict := string -> option string.

(** [CONFIG[key] = value] *)
Definition set (key value : string) (CONFIG : dict) : dict :=
  fun k => if String.eqb k key then Some value else CONFIG k.

(** The key and the value that a line of the configuration file assigns,
    if it assigns any: the tests of the loop body and its
    [line.split(': ', 1)]. *)
Definition assignment (line : string) : option (string * string) :=
  let line := strip line in
  if (String.eqb line "" || String.prefix "#" line)%bool then None
  else split_at ":" " " line.

(** The body of the loop over the lines of the configuration file. *)
Definition read_line (CONFIG : dict) (line : string) : dict :=
  match assignment line with
  | Some (key, value) => set key value CONFIG
  | None => CONFIG
  end.

(** The loop [for line in f]. *)
Definition read_file (text : string) (CONFIG : dict) : dict :=
  fold_left read_line (file_lines text) CONFIG.



End Config.

(** ** [generate_text_preview] *)

Module Preview.

Import Py.


End Preview.

(** ** Further sample data *)

Module Cases.

Import Py Browser.

(** The call of [yt-browser4.py] in the action menu of the first video of
    the sample page. *)
Definition at_actions4 : V4.frame :=
  Nav.kept4 Sample.cfg Sample.start4 Sample.batch
    (V4.ItemActions Sample.numbered1 "First video").

(** The second video as the page menu numbers it. *)
Definition numbered2 : entry :=
  {| title := "02 Second video"; entry_url := "https://youtu.be/b2";
     entry_id := "b2" |}.

(** The globals of [yt-browser2.py] on the first page with autoplay on. *)
Definition autoplaying : V2.globals :=
  {| V2.bounds := first_page 30; V2.AUDIO_ONLY_MODE := false;
     V2.AUTOPLAY_MODE := true |}.

(** Thirty stored videos with ids of their own. *)
Definition thirty : list entry :=
  map (fun i => {| title := "Video " ++ str (Z.of_nat i);
                   entry_url := "https://youtu.be/" ++ str (Z.of_nat i);
                   entry_id := str (Z.of_nat i) |})
    (seq 0 30).

(** A history file with two searches, the older first. *)
Definition history : string := "cats" ++ nl ++ "dogs" ++ nl.

(** Two playlists of a channel. *)
Definition road_trip : entry :=
  {| title := "Road trip"; entry_url := "https://youtu.be/p1";
     entry_id := "p1" |}.

Definition eighties : entry :=
  {| title := "Back to the 80s"; entry_url := "https://youtu.be/p2";
     entry_id := "p2" |}.

Definition playlists : list entry := [road_trip; eighties].

(** An entry of a mix, and a world in which the user picks Watch, vlc is
    installed as well and the playlist of the mix is cached. *)
Definition mix_video : entry :=
  {| title := "01 First of the mix";
     entry_url := "https://www.youtube.com/watch?v=a1&list=RDa1";
     entry_id := "a1" |}.

Definition cached : world :=
  {| which := Sample.installed ("vlc" :: Sample.tools);
     selector_stdout := "x  Watch" ++ nl;
     yt_dlp_returncode := 0; yt_dlp_json := None;
     get_url_stdout := ""; playlist_cached := true;
     SHELL := "/bin/bash" |}.

End Cases.

(** * Properties *)

(** ** Strings *)

Lemma append_assoc (a b c : string) : (a ++ b) ++ c = a ++ (b ++ c).
Proof.
  induction a as [|x a IH]; simpl; [reflexivity | now rewrite IH].
Qed.

Lemma append_nil_r (a : string) : a ++ "" = a.
Proof.
  induction a as [|x a IH]; simpl; [reflexivity | now rewrite IH].
Qed.

Lemma eqb_false_of_neq (a b : string) : a <> b -> String.eqb a b = false.
Proof. intros H. now apply String.eqb_neq. Qed.

(** ** fibonacci.py *)

Section FibonacciFacts.

Import Py Fibonacci.

Lemma fib_step (i : nat) : fib (S (S i)) = fib i + fib (S i).
Proof.
  unfold fib. simpl. destruct (fib_pair i) as [a b]. reflexivity.
Qed.

(** From the state reached after [i + 2] numbers, [S m] turns of the loop
    print the next [S m] numbers of the sequence and the closing line. *)
Lemma calculate_prints (m : nat) :
  forall i : nat,
    calculate (S m) (Z.of_nat (i + 2 + S m)) (fib i) (fib (S i))
      (Z.of_nat (i + 2))
    = Some (join ", " (map (fun k => str (fib k)) (seq (i + 2) (S m)))
            ++ closing (i + 2 + S m)).
Proof.
  induction m as [|m IH]; intros i.
  - cbn [calculate].
    replace (Z.of_nat (i + 2) + 1 =? Z.of_nat (i + 2 + 1)) with true
      by (symmetry; apply Z.eqb_eq; lia).
    rewrite <- fib_step. unfold closing.
    replace (i + 2 + 1 - 1)%nat with (S (S i)) by lia.
    replace (i + 2)%nat with (S (S i)) by lia.
    replace (Z.of_nat (S (S i)) + 1) with (Z.of_nat (S (S i) + 1)) by lia.
    cbn [seq map join String.concat]. now rewrite ?append_assoc.
  - remember (S m) as m' eqn:Em. cbn [calculate].
    replace (Z.of_nat (i + 2) + 1 =? Z.of_nat (i + 2 + S m')) with false
      by (symmetry; apply Z.eqb_neq; lia).
    rewrite <- fib_step.
    replace (Z.of_nat (i + 2) + 1) with (Z.of_nat (S i + 2)) by lia.
    replace (i + 2 + S m')%nat with (S i + 2 + m')%nat by lia.
    subst m'. rewrite (IH (S i)). cbn [option_map]. f_equal.
    replace (i + 2)%nat with (S (S i)) by lia.
    replace (S i + 2)%nat with (S (S (S i))) by lia.
    cbn [seq map join String.concat]. now rewrite !append_assoc.
Qed.

(** The loop of the third branch ends: with [m + 1] turns of fuel it has
    printed, for [nth = m + 3], the letter o, then the numbers from the
    second on, then a closing line that names the last of them. *)
Lemma report_from_three (m : nat) :
  report (S m) (Z.of_nat (m + 3))
  = Some (notice (Z.of_nat (m + 3)) ++ "o, 1, "
          ++ join ", " (map (fun k => str (fib k)) (seq 2 (S m)))
          ++ closing (m + 3)).
Proof.
  unfold report.
  replace (Z.of_nat (m + 3) =? 1) with false
    by (symmetry; apply Z.eqb_neq; lia).
  replace (Z.of_nat (m + 3) =? 2) with false
    by (symmetry; apply Z.eqb_neq; lia).
  pose proof (calculate_prints m 0) as H.
  change (fib 0) with 0 in H. change (fib 1) with 1 in H.
  change (Z.of_nat (0 + 2)) with 2 in H.
  replace (0 + 2 + S m)%nat with (m + 3)%nat in H by lia.
  rewrite H. cbn [option_map]. now rewrite ?append_assoc.
Qed.

Lemma textbook_list_from_three (m : nat) :
  textbook_list (m + 3)
  = "0, 1, " ++ join ", " (map (fun k => str (fib k)) (seq 2 (S m))).
Proof.
  unfold textbook_list. replace (m + 3)%nat with (S (S (S m))) by lia.
  reflexivity.
Qed.

(** C9 (the code's defect): for every accepted N from 2 on the program ends
    and has printed the textbook list of the first N Fibonacci numbers
    with the letter o in the place of its first character, the digit 0;
    from 3 on the closing line names the N-th number of the sequence. *)
Theorem report_list_opens_with_letter_o (n : nat) :
  (2 <= n)%nat ->
  exists fuel rest,
    report fuel (Z.of_nat n)
    = Some (notice (Z.of_nat n) ++ "o" ++ Py.drop 1 (textbook_list n)
            ++ nl ++ rest)
    /\ String.prefix "0" (textbook_list n) = true
    /\ ((3 <= n)%nat ->
        nl ++ rest = closing n).
Proof.
  intros Hn.
  destruct n as [|[|[|m]]]; try lia.
  - exists 0%nat, (nl ++ "The #2 Fibonacci number is 1." ++ nl).
    split; [reflexivity | split; [reflexivity | lia]].
  - exists (S m).
    replace (S (S (S m))) with (m + 3)%nat by lia.
    exists (Py.drop 1 (closing (m + 3))).
    rewrite report_from_three, textbook_list_from_three.
    split; [| split; [reflexivity | intros _; reflexivity]].
    reflexivity.
Qed.

End FibonacciFacts.

(** The program at the input 2. *)
Lemma report_list_opens_with_letter_o_at_2 :
  (2 <= 2)%nat /\
  exists fuel rest,
    Fibonacci.report fuel (Z.of_nat 2)
    = Some (Fibonacci.notice (Z.of_nat 2) ++ "o"
            ++ Py.drop 1 (Fibonacci.textbook_list 2) ++ Py.nl ++ rest)
    /\ String.prefix "0" (Fibonacci.textbook_list 2) = true
    /\ ((3 <= 2)%nat -> Py.nl ++ rest = Fibonacci.closing 2).
Proof.
  split; [lia | apply (report_list_opens_with_letter_o 2); lia].
Defined.

(** What the program prints for 2 and for 5, and the lists the sequence
    gives. *)
Example report_at_2_and_5 :
  Fibonacci.accepted "2" = Some 2
  /\ Fibonacci.accepted "0" = None
  /\ Fibonacci.report 0 2
  = Some ("o, 1" ++ Py.nl ++ Py.nl ++ "The #2 Fibonacci number is 1." ++ Py.nl)
  /\ Fibonacci.textbook_list 2 = "0, 1"
  /\ Fibonacci.report 3 5
     = Some ("o, 1, 1, 2, 3" ++ Py.nl ++ Py.nl
             ++ "The #5Fibonaccinumber is 3" ++ Py.nl)
  /\ Fibonacci.textbook_list 5 = "0, 1, 1, 2, 3".
Proof. repeat split; reflexivity. Qed.

(** ** The window *)

Section WindowFacts.

Import Browser Nav.

Lemma window_eq (a b : window) :
  PLAYLIST_START a = PLAYLIST_START b ->
  PLAYLIST_END a = PLAYLIST_END b -> a = b.
Proof. destruct a, b; simpl; intros; subst; reflexivity. Qed.

Ltac split_clamps :=
  repeat match goal with
         | |- context [?a <=? ?b] => destruct (Z.leb_spec a b)
         | |- context [?a <? ?b] => destruct (Z.ltb_spec a b)
         end.

Ltac bounds :=
  unfold V4.previous_page, V2.previous_page, next_page, first_page in *;
  cbn [PLAYLIST_START PLAYLIST_END] in *; split_clamps;
  cbn [PLAYLIST_START PLAYLIST_END] in *; try lia.

(** C2: from window bounds with [PLAYLIST_START >= 1] and
    [PLAYLIST_END > PLAYLIST_START], the Previous action of either browser
    leaves both bounds positive, whatever the page size; and from the first
    page (start 1, end one page size) it leaves the window as it is. *)
Theorem previous_stays_positive_and_clamps (P : Z) (b : window) :
  1 <= PLAYLIST_START b ->
  PLAYLIST_START b < PLAYLIST_END b ->
  (0 < PLAYLIST_START (V4.previous_page P b)
   /\ 0 < PLAYLIST_END (V4.previous_page P b))
  /\ (0 < PLAYLIST_START (V2.previous_page P b)
      /\ 0 < PLAYLIST_END (V2.previous_page P b))
  /\ (b = first_page P ->
      V4.previous_page P b = b /\ V2.previous_page P b = b).
Proof.
  intros Hs He. split; [| split].
  - split; bounds.
  - split; bounds.
  - intros ->. split; apply window_eq; bounds.
Qed.

(** In a session every window spans one page:
    [PLAYLIST_END = PLAYLIST_START + P - 1]. *)
Lemma reachable_span_v4 (P : Z) (b : window) :
  reachable V4.previous_page P b ->
  PLAYLIST_END b = PLAYLIST_START b + P - 1.
Proof. induction 1; bounds. Qed.

Lemma reachable_span_v2 (P : Z) (b : window) :
  reachable V2.previous_page P b ->
  PLAYLIST_END b = PLAYLIST_START b + P - 1.
Proof. induction 1; bounds. Qed.

(** Next then Previous is the identity on a window whose start is past 1
    and whose end is at least a page size. *)
Lemma previous_after_next (P : Z) (b : window) :
  1 < PLAYLIST_START b ->
  P <= PLAYLIST_END b ->
  V4.previous_page P (next_page P b) = b
  /\ V2.previous_page P (next_page P b) = b.
Proof.
  intros Hs He. split; apply window_eq; bounds.
Qed.


End WindowFacts.

Lemma previous_stays_positive_and_clamps_on_first_page :
  (1 <= Browser.PLAYLIST_START (Browser.first_page 30)
   /\ Browser.PLAYLIST_START (Browser.first_page 30)
      < Browser.PLAYLIST_END (Browser.first_page 30))
  /\ ((0 < Browser.PLAYLIST_START
            (V4.previous_page 30 (Browser.first_page 30))
       /\ 0 < Browser.PLAYLIST_END
              (V4.previous_page 30 (Browser.first_page 30)))
      /\ (0 < Browser.PLAYLIST_START
               (V2.previous_page 30 (Browser.first_page 30))
          /\ 0 < Browser.PLAYLIST_END
                 (V2.previous_page 30 (Browser.first_page 30)))
      /\ (Browser.first_page 30 = Browser.first_page 30 ->
          V4.previous_page 30 (Browser.first_page 30) = Browser.first_page 30
          /\ V2.previous_page 30 (Browser.first_page 30)
             = Browser.first_page 30)).
Proof.
  split; [simpl; lia |].
  apply (previous_stays_positive_and_clamps 30 (Browser.first_page 30));
    simpl; lia.
Defined.


(** ** The shared helpers *)

(** Runs the monad's operations. *)
Ltac run_m :=
  cbv beta iota zeta delta
    [Browser.bind Browser.ret Browser.emit Browser.get Browser.put
     Browser.ask Browser.stop Browser.when Browser.communicate
     Browser.subprocess_run Browser.subprocess_Popen
     Browser.send_notification Browser.executable].

Ltac run_m_in H :=
  cbv beta iota zeta delta
    [Browser.bind Browser.ret Browser.emit Browser.get Browser.put
     Browser.ask Browser.stop Browser.when Browser.communicate
     Browser.subprocess_run Browser.subprocess_Popen
     Browser.send_notification Browser.executable] in H.

(** Decides a comparison of two string literals in the goal. *)
Ltac decide_eqb :=
  repeat match goal with
         | |- context [String.eqb ?a ?b] =>
             let v := eval vm_compute in (String.eqb a b) in
             match v with
             | true => change (String.eqb a b) with true
             | false => change (String.eqb a b) with false
             end
         end.

Section HelperFacts.

Import Py Browser Nav.

Context {G : Type}.
Variable cfg : config.

(** [launcher] touches no global, and logs the selector it started. *)
Lemma launcher_answer (options : list string) (prompt_text : string)
    (preview_mode : option string) (w : world) (g : G) (s : string) :
  answer cfg preview_mode w = Some s ->
  Browser.launcher cfg options prompt_text preview_mode w g
  = (g, [Select (tool cfg) prompt_text preview_mode options], inr s).
Proof.
  unfold answer, Browser.launcher, tool.
  destruct (String.eqb (lower (PREFERRED_SELECTOR cfg)) "rofi").
  - destruct (ROFI_THEME cfg); run_m; [| discriminate].
    destruct (which w "rofi"); [| discriminate].
    intros H. injection H as <-. reflexivity.
  - run_m. destruct (which w "fzf"); [| discriminate].
    destruct (splitlines (selector_stdout w)) as [|first [|second rest]];
      intros H; injection H as <-; reflexivity.
Qed.

(** When it returns nothing, [launcher] has raised. *)
Lemma launcher_raises (options : list string) (prompt_text : string)
    (preview_mode : option string) (w : world) (g : G) :
  answer cfg preview_mode w = None ->
  exists log e,
    Browser.launcher cfg options prompt_text preview_mode w g
    = (g, log, inl (Raise e))
    /\ (e = KeyError \/ e = FileNotFoundError).
Proof.
  unfold answer, Browser.launcher.
  destruct (String.eqb (lower (PREFERRED_SELECTOR cfg)) "rofi").
  - destruct (ROFI_THEME cfg); run_m.
    + destruct (which w "rofi"); [discriminate |].
      intros _. eexists _, _. split; [reflexivity | now right].
    + intros _. eexists _, _. split; [reflexivity | now left].
  - run_m. destruct (which w "fzf").
    + destruct (splitlines (selector_stdout w)) as [|first [|second rest]];
        discriminate.
    + intros _. eexists _, _. split; [reflexivity | now right].
Qed.

Variable bounds : G -> window.

(** [run_yt_dlp] when its process is found: one [subprocess.run] with the
    current window, a notification exactly on a non-zero exit status, and
    no global touched. *)
Lemma run_yt_dlp_found (url : string) (w : world) (g : G) :
  fetch_starts w = true ->
  Browser.run_yt_dlp cfg bounds url w g
  = (g,
     (fetch_log w (fetch_command cfg url (bounds g)) ++ fetch_notice w)%list,
     inr (fetched w)).
Proof.
  unfold fetch_starts, Browser.run_yt_dlp, fetch_log, fetch_notice, fetched,
    spin.
  destruct (which w "gum") eqn:Hgum; intros Hfound; run_m;
    cbv delta [fetch_command spin]; cbn [app hd];
    rewrite ?Hgum, ?Hfound;
    destruct (yt_dlp_returncode w =? 0); cbn [negb app];
      [destruct (yt_dlp_json w) | | destruct (yt_dlp_json w) |];
      reflexivity.
Qed.

(** [run_yt_dlp] when neither [gum] nor [yt-dlp] is found:
    [FileNotFoundError] leaves it. *)
Lemma run_yt_dlp_missing (url : string) (w : world) (g : G) :
  fetch_starts w = false ->
  Browser.run_yt_dlp cfg bounds url w g
  = (g, fetch_log w (fetch_command cfg url (bounds g)),
     inl (Raise FileNotFoundError)).
Proof.
  unfold fetch_starts, Browser.run_yt_dlp, fetch_log.
  destruct (which w "gum") eqn:Hgum; [discriminate |].
  intros Hyt. run_m. cbv delta [fetch_command]. cbn [app hd].
  rewrite Hgum. cbn [app hd]. rewrite Hyt. reflexivity.
Qed.

End HelperFacts.

(** ** yt-browser4.py: one turn of the outer loop *)

(** Opens [V4.listing] on a batch that passes the guard, in each of the
    eight settings of preview, selector and processed flag. *)
Ltac open_menu4 cfg f Hl :=
  unfold V4.listing, V4.launcher, V4.run_yt_dlp, V4.leave, V4.byebye,
    V4.page_size, V4.controls;
  rewrite Hl;
  unfold Nav.menu_log, Nav.kept4, Nav.refetched4, Nav.fresh, Nav.shown,
    Nav.selection, Nav.video_mode, Nav.farewell4 in *;
  destruct (String.eqb (Browser.ENABLE_PREVIEW cfg) "true");
  destruct (String.eqb (Browser.PREFERRED_SELECTOR cfg) "fzf");
  destruct (V4.download_images f);
  cbn [andb orb negb];
  run_m.

(** Replaces the launcher by its answer [a]. *)
Ltac answered cfg w b Hs :=
  let a := fresh "a" in
  let Ha := fresh "Ha" in
  destruct (Nav.answer cfg _ w) as [a|] eqn:Ha; [| discriminate];
  injection Hs as Hs;
  rewrite (launcher_answer cfg _ _ _ w b a Ha);
  cbv beta iota.

Ltac close_log := rewrite ?app_nil_r; cbn [app]; reflexivity.

Section PageMenu4.

Import Py Browser Nav.

Variable cfg : config.

Lemma listing4_stale (f : V4.frame) (w : world) (b : window) :
  listed (V4.search_results f) = None ->
  V4.listing cfg f w b
  = (first_page (NO_OF_SEARCH_RESULTS cfg), [], inr (V4.Return None)).
Proof.
  intros Hl. unfold V4.listing, V4.leave, V4.page_size. rewrite Hl.
  reflexivity.
Qed.

Lemma listing4_next (f : V4.frame) (es : page) (w : world) (b : window) :
  listed (V4.search_results f) = Some es ->
  selection cfg w = Some "Next" ->
  V4.listing cfg f w b
  = (let b' := next_page (NO_OF_SEARCH_RESULTS cfg) b in
     let before := menu_log cfg (V4.download_images f) es V4.controls in
     let cmd := fetch_command cfg (V4.url f) b' in
     if fetch_starts w then
       (b', (before ++ fetch_log w cmd ++ fetch_notice w)%list,
        inr (V4.Continue (refetched4 f (fetched w))))
     else
       (b', (before ++ fetch_log w cmd)%list, inl (Raise FileNotFoundError))).
Proof.
  intros Hl Hs. cbv zeta.
  destruct (fetch_starts w) eqn:Hf; open_menu4 cfg f Hl.
  all: answered cfg w b Hs; rewrite Hs; decide_eqb; cbv beta iota.
  all: first [ rewrite (run_yt_dlp_found cfg _ _ w _ Hf)
             | rewrite (run_yt_dlp_missing cfg _ _ w _ Hf) ].
  all: close_log.
Qed.

Lemma listing4_previous (f : V4.frame) (es : page) (w : world) (b : window) :
  listed (V4.search_results f) = Some es ->
  selection cfg w = Some "Previous" ->
  V4.listing cfg f w b
  = (let b' := V4.previous_page (NO_OF_SEARCH_RESULTS cfg) b in
     let before := menu_log cfg (V4.download_images f) es V4.controls in
     let cmd := fetch_command cfg (V4.url f) b' in
     if fetch_starts w then
       (b', (before ++ fetch_log w cmd ++ fetch_notice w)%list,
        inr (V4.Continue (refetched4 f (fetched w))))
     else
       (b', (before ++ fetch_log w cmd)%list, inl (Raise FileNotFoundError))).
Proof.
  intros Hl Hs. cbv zeta.
  destruct (fetch_starts w) eqn:Hf; open_menu4 cfg f Hl.
  all: answered cfg w b Hs; rewrite Hs; decide_eqb; cbv beta iota.
  all: first [ rewrite (run_yt_dlp_found cfg _ _ w _ Hf)
             | rewrite (run_yt_dlp_missing cfg _ _ w _ Hf) ].
  all: close_log.
Qed.

Lemma listing4_main_menu (f : V4.frame) (es : page) (w : world)
    (b : window) :
  listed (V4.search_results f) = Some es ->
  selection cfg w = Some "Main Menu" ->
  V4.listing cfg f w b
  = (b, menu_log cfg (V4.download_images f) es V4.controls,
     inr (V4.Return (Some "Main Menu"))).
Proof.
  intros Hl Hs. open_menu4 cfg f Hl.
  all: answered cfg w b Hs; rewrite Hs; decide_eqb; cbv beta iota.
  all: close_log.
Qed.

(** [Back] and the empty selection leave the loop. *)
Lemma listing4_back (f : V4.frame) (es : page) (w : world) (b : window)
    (s : string) :
  listed (V4.search_results f) = Some es ->
  selection cfg w = Some s ->
  s = "Back" \/ s = "" ->
  V4.listing cfg f w b
  = (first_page (NO_OF_SEARCH_RESULTS cfg),
     menu_log cfg (V4.download_images f) es V4.controls,
     inr (V4.Return None)).
Proof.
  intros Hl Hs [-> | ->]; open_menu4 cfg f Hl.
  all: answered cfg w b Hs; rewrite Hs; unfold member, existsb; decide_eqb;
    cbn [orb]; cbv beta iota.
  all: close_log.
Qed.


(** A selection that is no control and names no entry: the loop goes
    round with the batch it has. *)
Lemma listing4_no_entry (f : V4.frame) (es : page) (w : world) (b : window)
    (s : string) :
  listed (V4.search_results f) = Some es ->
  selection cfg w = Some s ->
  member s V4.controls = false ->
  s <> "" ->
  names_no_entry (shown (V4.download_images f) es) s ->
  V4.listing cfg f w b
  = (b, menu_log cfg (V4.download_images f) es V4.controls,
     inr (V4.Continue (kept4 cfg f es V4.Listing))).
Proof.
  intros Hl Hs Hc He Hn.
  unfold V4.controls, member, existsb in Hc.
  repeat (apply orb_false_elim in Hc; destruct Hc as [?H Hc]).
  apply eqb_false_of_neq in He.
  unfold names_no_entry in Hn.
  open_menu4 cfg f Hl.
  all: answered cfg w b Hs; rewrite Hs; unfold member, existsb.
  all: repeat match goal with
              | H : String.eqb _ _ = false |- _ => rewrite H
              end; cbn [orb]; cbv beta iota.
  all: cbv beta iota in Hn.
  all: destruct (Py.int (hd "" (split_on " " s))) as [sel_id|];
    [rewrite Hn |]; close_log.
Qed.

End PageMenu4.


(** ** yt-browser2.py: one turn of the outer loop *)

Ltac open_menu2 cfg f Hl :=
  unfold V2.listing, V2.launcher, V2.run_yt_dlp, V2.leave, V2.byebye,
    V2.page_size, V2.controls;
  rewrite Hl;
  unfold Nav.menu_log, Nav.kept2, Nav.refetched2, Nav.fresh, Nav.shown,
    Nav.selection, Nav.video_mode, Nav.farewell2 in *;
  destruct (String.eqb (Browser.ENABLE_PREVIEW cfg) "true");
  destruct (String.eqb (Browser.PREFERRED_SELECTOR cfg) "fzf");
  destruct (V2.download_images f);
  cbn [andb orb negb];
  run_m.

Section PageMenu2.

Import Py Browser Nav.

Variable cfg : config.

Lemma listing2_stale (f : V2.frame) (w : world) (g : V2.globals) :
  listed (V2.search_results f) = None ->
  V2.listing cfg f w g
  = (V2.set_bounds (first_page (NO_OF_SEARCH_RESULTS cfg)) g, [],
     inr V2.Return).
Proof.
  intros Hl. unfold V2.listing, V2.leave, V2.page_size. rewrite Hl.
  reflexivity.
Qed.

Lemma listing2_next (f : V2.frame) (es : page) (w : world)
    (g : V2.globals) :
  listed (V2.search_results f) = Some es ->
  selection cfg w = Some "Next" ->
  V2.listing cfg f w g
  = (let b' := next_page (NO_OF_SEARCH_RESULTS cfg) (V2.bounds g) in
     let before := menu_log cfg (V2.download_images f) es V2.controls in
     let cmd := fetch_command cfg (V2.url f) b' in
     if fetch_starts w then
       (V2.set_bounds b' g,
        (before ++ fetch_log w cmd ++ fetch_notice w)%list,
        inr (V2.Continue (refetched2 f (fetched w))))
     else
       (V2.set_bounds b' g, (before ++ fetch_log w cmd)%list,
        inl (Raise FileNotFoundError))).
Proof.
  intros Hl Hs. cbv zeta.
  destruct (fetch_starts w) eqn:Hf; open_menu2 cfg f Hl.
  all: answered cfg w g Hs; rewrite Hs; decide_eqb; cbv beta iota.
  all: first [ rewrite (run_yt_dlp_found cfg _ _ w _ Hf)
             | rewrite (run_yt_dlp_missing cfg _ _ w _ Hf) ].
  all: close_log.
Qed.

Lemma listing2_previous (f : V2.frame) (es : page) (w : world)
    (g : V2.globals) :
  listed (V2.search_results f) = Some es ->
  selection cfg w = Some "Previous" ->
  V2.listing cfg f w g
  = (let b' := V2.previous_page (NO_OF_SEARCH_RESULTS cfg) (V2.bounds g) in
     let before := menu_log cfg (V2.download_images f) es V2.controls in
     let cmd := fetch_command cfg (V2.url f) b' in
     if fetch_starts w then
       (V2.set_bounds b' g,
        (before ++ fetch_log w cmd ++ fetch_notice w)%list,
        inr (V2.Continue (refetched2 f (fetched w))))
     else
       (V2.set_bounds b' g, (before ++ fetch_log w cmd)%list,
        inl (Raise FileNotFoundError))).
Proof.
  intros Hl Hs. cbv zeta.
  destruct (fetch_starts w) eqn:Hf; open_menu2 cfg f Hl.
  all: answered cfg w g Hs; rewrite Hs; decide_eqb; cbv beta iota.
  all: first [ rewrite (run_yt_dlp_found cfg _ _ w _ Hf)
             | rewrite (run_yt_dlp_missing cfg _ _ w _ Hf) ].
  all: close_log.
Qed.

Lemma listing2_back (f : V2.frame) (es : page) (w : world)
    (g : V2.globals) (s : string) :
  listed (V2.search_results f) = Some es ->
  selection cfg w = Some s ->
  s = "Back" \/ s = "" ->
  V2.listing cfg f w g
  = (V2.set_bounds (first_page (NO_OF_SEARCH_RESULTS cfg)) g,
     menu_log cfg (V2.download_images f) es V2.controls,
     inr V2.Return).
Proof.
  intros Hl Hs [-> | ->]; open_menu2 cfg f Hl.
  all: answered cfg w g Hs; rewrite Hs; unfold member, existsb; decide_eqb;
    cbn [orb]; cbv beta iota.
  all: close_log.
Qed.


Lemma listing2_no_entry (f : V2.frame) (es : page) (w : world)
    (g : V2.globals) (s : string) :
  listed (V2.search_results f) = Some es ->
  selection cfg w = Some s ->
  member s V2.controls = false ->
  s <> "" ->
  names_no_entry (shown (V2.download_images f) es) s ->
  V2.listing cfg f w g
  = (g, menu_log cfg (V2.download_images f) es V2.controls,
     inr (V2.Continue (kept2 cfg f es V2.Listing))).
Proof.
  intros Hl Hs Hc He Hn.
  unfold V2.controls, member, existsb in Hc.
  repeat (apply orb_false_elim in Hc; destruct Hc as [?H Hc]).
  apply eqb_false_of_neq in He.
  unfold names_no_entry in Hn.
  open_menu2 cfg f Hl.
  all: answered cfg w g Hs; rewrite Hs; unfold member, existsb.
  all: repeat match goal with
              | H : String.eqb _ _ = false |- _ => rewrite H
              end; cbn [orb]; cbv beta iota.
  all: cbv beta iota in Hn.
  all: destruct (Py.int (hd "" (split_on " " s))) as [sel_id|];
    [rewrite Hn |]; close_log.
Qed.

End PageMenu2.

(** ** The action menus *)

Ltac action_answered cfg w g Hs :=
  let a := fresh "a" in
  let Ha := fresh "Ha" in
  unfold Nav.action in Hs;
  destruct (Nav.answer cfg None w) as [a|] eqn:Ha; [| discriminate];
  injection Hs as Hs;
  rewrite (launcher_answer cfg _ _ _ w g a Ha);
  cbv beta iota.

Section ActionMenus.

Import Py Browser Nav.

Variable cfg : config.
Variable generate_sha256 : string -> string.
Variables CLI_AUTO_GEN_PLAYLISTS CLI_HEADER CLI_NAME : string.



End ActionMenus.

(** ** What the calls leave untouched *)

Section Totality.
Import Py Browser Nav.
Context {G : Type}.
Variable cfg : config.
Variable bounds : G -> window.

Lemma launcher_total (options : list string) (prompt_text : string)
    (preview_mode : option string) (w : world) (g : G) :
  exists log r,
    Browser.launcher cfg options prompt_text preview_mode w g = (g, log, r).
Proof.
  destruct (answer cfg preview_mode w) as [s|] eqn:Ha.
  - eexists _, _. apply (launcher_answer cfg _ _ _ _ _ _ Ha).
  - destruct (launcher_raises cfg options prompt_text preview_mode w g Ha)
      as (log & e & H & _).
    eexists _, _. exact H.
Qed.

Lemma run_yt_dlp_total (url : string) (w : world) (g : G) :
  exists log r, Browser.run_yt_dlp cfg bounds url w g = (g, log, r).
Proof.
  destruct (fetch_starts w) eqn:Hf.
  - eexists _, _. apply (run_yt_dlp_found cfg bounds url w g Hf).
  - eexists _, _. apply (run_yt_dlp_missing cfg bounds url w g Hf).
Qed.

End Totality.

Ltac use_totals H :=
  repeat match type of H with
         | context [Browser.launcher ?c ?o ?p ?pm ?w ?g] =>
             let log := fresh "log" in
             let r := fresh "r" in
             let E := fresh "E" in
             destruct (launcher_total c o p pm w g) as (log & r & E);
             rewrite E in H; clear E
         | context [Browser.run_yt_dlp ?c ?bd ?u ?w ?g] =>
             let log := fresh "log" in
             let r := fresh "r" in
             let E := fresh "E" in
             destruct (run_yt_dlp_total c bd u w g) as (log & r & E);
             rewrite E in H; clear E
         end.

(** Case analysis on one innermost test of the hypothesis [H]. *)
Ltac split_once H :=
  cbv beta iota zeta in H;
  match type of H with
  | context [match ?x with _ => _ end] =>
      lazymatch x with
      | context [match _ with _ => _ end] => fail
      | context [Browser.launcher] => fail
      | context [Browser.run_yt_dlp] => fail
      | _ => first [is_var x; destruct x | destruct x eqn:?]
      end
  end.

(** Splits a hypothesis about a computation into its runs. *)
Ltac crunch H :=
  repeat first [progress use_totals H | split_once H];
  inversion H; subst; clear H.

Section Effects2.
Import Py Browser Nav.
Variable cfg : config.

(** A turn of the outer loop leaves both toggles alone, and when it
    returns the window is back on the first page. *)
Lemma listing2_effect (f : V2.frame) (w : world) (g g' : V2.globals)
    (log : list event) (r : abort + V2.control) :
  V2.listing cfg f w g = (g', log, r) ->
  V2.AUDIO_ONLY_MODE g' = V2.AUDIO_ONLY_MODE g
  /\ V2.AUTOPLAY_MODE g' = V2.AUTOPLAY_MODE g
  /\ (r = inr V2.Return ->
      V2.bounds g' = first_page (NO_OF_SEARCH_RESULTS cfg)).
Proof.
  intros H.
  unfold V2.listing, V2.launcher, V2.run_yt_dlp, V2.leave, V2.byebye,
    V2.page_size in H.
  run_m_in H. crunch H.
  all: repeat split; try reflexivity; try discriminate;
    cbn [V2.AUDIO_ONLY_MODE V2.AUTOPLAY_MODE V2.bounds V2.set_bounds];
    congruence.
Qed.

(** A turn of the action menu never returns and leaves the window alone. *)
Lemma item_actions2_effect (f : V2.frame) (c : V2.chosen) (w : world)
    (g g' : V2.globals) (log : list event) (r : abort + V2.control) :
  V2.item_actions cfg f c w g = (g', log, r) ->
  V2.bounds g' = V2.bounds g /\ r <> inr V2.Return.
Proof.
  intros H.
  unfold V2.item_actions, V2.download, V2.launcher, V2.byebye in H.
  run_m_in H. crunch H.
  all: repeat split; try reflexivity; try discriminate;
    cbn [V2.AUDIO_ONLY_MODE V2.AUTOPLAY_MODE V2.bounds V2.set_bounds];
    congruence.
Qed.

(** A turn of the autoplay loop never returns and leaves both toggles
    alone. *)
Lemma watching2_effect (f : V2.frame) (c : V2.chosen) (w : world)
    (g g' : V2.globals) (log : list event) (r : abort + V2.control) :
  V2.watching cfg f c w g = (g', log, r) ->
  V2.AUDIO_ONLY_MODE g' = V2.AUDIO_ONLY_MODE g
  /\ V2.AUTOPLAY_MODE g' = V2.AUTOPLAY_MODE g
  /\ r <> inr V2.Return.
Proof.
  intros H.
  unfold V2.watching, V2.run_yt_dlp, V2.page_size in H.
  run_m_in H. crunch H.
  all: repeat split; try reflexivity; try discriminate;
    cbn [V2.AUDIO_ONLY_MODE V2.AUTOPLAY_MODE V2.bounds V2.set_bounds];
    congruence.
Qed.

Lemma step2_returned (f : V2.frame) (w : world) (g g' : V2.globals)
    (log : list event) :
  V2.step cfg f w g = (g', log, inr V2.Returned) ->
  V2.position_of f = V2.Listing
  /\ V2.bounds g' = first_page (NO_OF_SEARCH_RESULTS cfg).
Proof.
  unfold V2.step. run_m. intros H.
  destruct (V2.position_of f) as [|c|c].
  - destruct (V2.listing cfg f w g) as [[g1 ev1] [a|[f1|]]] eqn:E;
      try discriminate.
    inversion H; subst.
    split; [reflexivity |].
    now apply (listing2_effect _ _ _ _ _ _ E).
  - destruct (V2.item_actions cfg f c w g) as [[g1 ev1] [a|[f1|]]] eqn:E;
      try discriminate.
    now apply item_actions2_effect in E.
  - destruct (V2.watching cfg f c w g) as [[g1 ev1] [a|[f1|]]] eqn:E;
      try discriminate.
    now apply watching2_effect in E.
Qed.

Lemma run2_finished (answers : list world) :
  forall (f : V2.frame) (g g' : V2.globals) (log : list event),
    V2.run cfg answers f g = (g', log, V2.Finished) ->
    V2.bounds g' = first_page (NO_OF_SEARCH_RESULTS cfg).
Proof.
  induction answers as [|w rest IH]; intros f g g' log H; [discriminate |].
  cbn [V2.run] in H.
  destruct (V2.step cfg f w g) as [[g1 ev1] [a|[f1|]]] eqn:E.
  - discriminate.
  - destruct (V2.run cfg rest f1 g1) as [[g2 ev2] o] eqn:E2.
    inversion H; subst. apply (IH _ _ _ _ E2).
  - inversion H; subst. now apply step2_returned in E.
Qed.

End Effects2.


(** ** Logs *)

Section Logs.

Import Py Browser Nav.

Lemma runs_app (l1 l2 : list event) :
  runs (l1 ++ l2) = (runs l1 ++ runs l2)%list.
Proof.
  induction l1 as [|e l1 IH]; [reflexivity |].
  destruct e; cbn [app runs]; rewrite ?IH; reflexivity.
Qed.


Lemma menu_log_quiet (cfg : config) (processed : bool) (es : page)
    (controls : list string) :
  runs (menu_log cfg processed es controls) = []
  /\ notifications (menu_log cfg processed es controls) = [].
Proof.
  unfold menu_log. destruct (fresh cfg processed); split; reflexivity.
Qed.

Lemma fetch_log_runs (w : world) (cmd : list string) :
  runs (fetch_log w cmd) = [spun w cmd]
  /\ notifications (fetch_log w cmd) = [].
Proof.
  unfold fetch_log, spun. destruct (which w "gum"); split; reflexivity.
Qed.

Lemma fetch_notice_runs (w : world) :
  runs (fetch_notice w) = []
  /\ notifications (fetch_notice w)
     = if yt_dlp_returncode w =? 0 then []
       else ["Failed to fetch data : ("].
Proof.
  unfold fetch_notice. destruct (yt_dlp_returncode w =? 0);
    split; reflexivity.
Qed.


End Logs.

(** ** The selector *)

Section Selector.

Import Py Browser Nav.

Variable cfg : config.




End Selector.

(** ** yt-browser2.py: the action menu and the autoplay loop *)

Section Actions2.

Import Py Browser Nav.

Variable cfg : config.




Lemma item_actions2_watch (f : V2.frame) (c : V2.chosen) (w : world)
    (g : V2.globals) :
  action cfg w = Some "Watch" ->
  V2.item_actions cfg f c w g
  = (g, actions2_log cfg g,
     inr (V2.Continue (V2.at_ f (V2.Watching (resolved c))))).
Proof.
  intros Hs. unfold V2.item_actions, V2.launcher, V2.byebye, actions2_log,
    resolved.
  run_m. action_answered cfg w g Hs. rewrite Hs.
  unfold member, existsb. decide_eqb.
  change (contains "Toggle Audio Only" "Watch") with false.
  change (contains "Toggle Autoplay" "Watch") with false.
  cbn [orb]. cbv beta iota. close_log.
Qed.

(** The audio-only arguments close the player command exactly when the
    mode is on; which they are depends on the player. *)
Lemma player_cmd_shape (player : string) (audio : bool)
    (vid_url clean_title : string) :
  V2.player_cmd player audio vid_url clean_title
  = (plain_cmd player vid_url clean_title
     ++ (if audio then audio_only_args player else []))%list
  /\ hd "" (V2.player_cmd player audio vid_url clean_title) = player.
Proof.
  unfold V2.player_cmd, plain_cmd, audio_only_args.
  destruct (String.eqb player "mpv") eqn:Hm.
  - apply String.eqb_eq in Hm. subst player. decide_eqb.
    destruct audio; split; reflexivity.
  - destruct (String.eqb player "vlc"); destruct audio; split; reflexivity.
Qed.



End Actions2.


(** ** The window along a run *)

Section WindowAlongRuns.

Import Py Browser Nav.

Variable cfg : config.
Variable generate_sha256 : string -> string.
Variables CLI_AUTO_GEN_PLAYLISTS CLI_HEADER CLI_NAME : string.

(** A turn of the outer loop of [yt-browser4.py] keeps the window, moves it
    by Next or Previous, or resets it. *)
Lemma listing4_window (f : V4.frame) (w : world) (b b' : window)
    (log : list event) (r : abort + V4.control) :
  V4.listing cfg f w b = (b', log, r) ->
  b' = b \/ b' = next_page (NO_OF_SEARCH_RESULTS cfg) b
  \/ b' = V4.previous_page (NO_OF_SEARCH_RESULTS cfg) b
  \/ b' = first_page (NO_OF_SEARCH_RESULTS cfg).
Proof.
  intros H.
  unfold V4.listing, V4.launcher, V4.run_yt_dlp, V4.leave, V4.byebye,
    V4.page_size in H.
  run_m_in H. crunch H; auto.
Qed.

(** A turn of its action menu keeps the window. *)
Lemma item_actions4_window (f : V4.frame) (video : entry) (t : string)
    (w : world) (b b' : window) (log : list event)
    (r : abort + V4.control) :
  V4.item_actions cfg generate_sha256 CLI_AUTO_GEN_PLAYLISTS CLI_HEADER
    CLI_NAME f video t w b = (b', log, r) ->
  b' = b.
Proof.
  intros H.
  unfold V4.item_actions, V4.watch, V4.listen, V4.download,
    V4.open_in_browser, V4.shell, V4.update_recent, V4.update_json_list,
    V4.launcher, V4.run_yt_dlp, V4.byebye in H.
  run_m_in H. crunch H; reflexivity.
Qed.

Lemma step4_reachable (calls : V4.stack) (w : world) (b b' : window)
    (log : list event) (r : abort + V4.status) :
  reachable V4.previous_page (NO_OF_SEARCH_RESULTS cfg) b ->
  V4.step cfg generate_sha256 CLI_AUTO_GEN_PLAYLISTS CLI_HEADER CLI_NAME
    calls w b = (b', log, r) ->
  reachable V4.previous_page (NO_OF_SEARCH_RESULTS cfg) b'.
Proof.
  intros Hb H. unfold V4.step in H. run_m_in H.
  destruct calls as [|f callers]; [inversion H; subst; assumption |].
  destruct (V4.position_of f) as [|video t].
  - destruct (V4.listing cfg f w b) as [[b1 ev1] r1] eqn:E.
    apply listing4_window in E.
    assert (b' = b1) by (destruct r1; inversion H; reflexivity). subst b1.
    destruct E as [-> | [-> | [-> | ->]]];
      auto using reach_first, reach_next, reach_previous.
  - destruct (V4.item_actions cfg generate_sha256 CLI_AUTO_GEN_PLAYLISTS
                CLI_HEADER CLI_NAME f video t w b) as [[b1 ev1] r1] eqn:E.
    apply item_actions4_window in E.
    assert (b' = b1) by (destruct r1; inversion H; reflexivity).
    now subst.
Qed.

(** Along every run of [yt-browser4.py] that starts in a window state of
    a session, the window is a window state of a session. *)
Lemma run4_reachable (answers : list world) :
  forall (calls : V4.stack) (b b' : window) (log : list event)
         (o : V4.outcome),
    reachable V4.previous_page (NO_OF_SEARCH_RESULTS cfg) b ->
    V4.run cfg generate_sha256 CLI_AUTO_GEN_PLAYLISTS CLI_HEADER CLI_NAME
      answers calls b = (b', log, o) ->
    reachable V4.previous_page (NO_OF_SEARCH_RESULTS cfg) b'.
Proof.
  induction answers as [|w rest IH]; intros calls b b' log o Hb H.
  - inversion H; subst; assumption.
  - cbn [V4.run] in H.
    destruct (V4.step cfg generate_sha256 CLI_AUTO_GEN_PLAYLISTS CLI_HEADER
                CLI_NAME calls w b) as [[b1 ev1] r1] eqn:E.
    pose proof (step4_reachable calls w b b1 ev1 r1 Hb E) as Hb1.
    destruct r1 as [a|[calls1|value]].
    + inversion H; subst; assumption.
    + destruct (V4.run cfg generate_sha256 CLI_AUTO_GEN_PLAYLISTS
                  CLI_HEADER CLI_NAME rest calls1 b1) as [[b2 ev2] o2] eqn:E2.
      inversion H; subst. apply (IH _ _ _ _ _ Hb1 E2).
    + inversion H; subst; assumption.
Qed.

(** The same for [yt-browser2.py], where the autoplay loop moves the window
    by Next as well. *)
Lemma step2_window (f : V2.frame) (w : world) (g g' : V2.globals)
    (log : list event) (r : abort + V2.status) :
  V2.step cfg f w g = (g', log, r) ->
  V2.bounds g' = V2.bounds g
  \/ V2.bounds g' = next_page (NO_OF_SEARCH_RESULTS cfg) (V2.bounds g)
  \/ V2.bounds g' = V2.previous_page (NO_OF_SEARCH_RESULTS cfg) (V2.bounds g)
  \/ V2.bounds g' = first_page (NO_OF_SEARCH_RESULTS cfg).
Proof.
  intros H.
  unfold V2.step, V2.listing, V2.item_actions, V2.watching, V2.download,
    V2.launcher, V2.run_yt_dlp, V2.leave, V2.byebye, V2.page_size in H.
  run_m_in H. crunch H; auto.
Qed.

Lemma run2_reachable (answers : list world) :
  forall (f : V2.frame) (g g' : V2.globals) (log : list event)
         (o : V2.outcome),
    reachable V2.previous_page (NO_OF_SEARCH_RESULTS cfg) (V2.bounds g) ->
    V2.run cfg answers f g = (g', log, o) ->
    reachable V2.previous_page (NO_OF_SEARCH_RESULTS cfg) (V2.bounds g').
Proof.
  induction answers as [|w rest IH]; intros f g g' log o Hg H.
  - inversion H; subst; assumption.
  - cbn [V2.run] in H.
    destruct (V2.step cfg f w g) as [[g1 ev1] r1] eqn:E.
    assert (Hg1 : reachable V2.previous_page (NO_OF_SEARCH_RESULTS cfg)
                    (V2.bounds g1)).
    { apply step2_window in E.
      destruct E as [-> | [-> | [-> | ->]]];
        auto using reach_first, reach_next, reach_previous. }
    destruct r1 as [a|[f1|]].
    + inversion H; subst; assumption.
    + destruct (V2.run cfg rest f1 g1) as [[g2 ev2] o2] eqn:E2.
      inversion H; subst. apply (IH _ _ _ _ _ Hg1 E2).
    + inversion H; subst; assumption.
Qed.


End WindowAlongRuns.

(** ** Next and Previous in the loop *)

Section NextAndPrevious.

Import Py Browser Nav.

Variable cfg : config.
Variable generate_sha256 : string -> string.
Variables CLI_AUTO_GEN_PLAYLISTS CLI_HEADER CLI_NAME : string.

(** A turn of the page menu on which Previous is selected leaves the window
    that [previous_page] computes, whatever becomes of the fetch. *)
Lemma previous_in_the_loop (f4 : V4.frame) (f2 : V2.frame) (es : page)
    (w : world) (b : window) (g : V2.globals) :
  selection cfg w = Some "Previous" ->
  listed (V4.search_results f4) = Some es ->
  listed (V2.search_results f2) = Some es ->
  fst (fst (V4.listing cfg f4 w b))
  = V4.previous_page (NO_OF_SEARCH_RESULTS cfg) b
  /\ V2.bounds (fst (fst (V2.listing cfg f2 w g)))
     = V2.previous_page (NO_OF_SEARCH_RESULTS cfg) (V2.bounds g).
Proof.
  intros Hs Hl4 Hl2.
  rewrite (listing4_previous cfg f4 es w b Hl4 Hs).
  rewrite (listing2_previous cfg f2 es w g Hl2 Hs).
  cbv zeta. destruct (fetch_starts w); split; reflexivity.
Qed.

(** Next, a fetch that brings a page, then Previous: two turns of the
    outer loop of [yt-browser4.py] after which the window of a session that
    was past the first page is what it was. *)
Lemma next_then_previous_in_the_loop (f : V4.frame) (es es' : page)
    (w1 w2 : world) (b : window) :
  V4.position_of f = V4.Listing ->
  listed (V4.search_results f) = Some es ->
  selection cfg w1 = Some "Next" ->
  fetch_starts w1 = true ->
  listed (fetched w1) = Some es' ->
  selection cfg w2 = Some "Previous" ->
  reachable V4.previous_page (NO_OF_SEARCH_RESULTS cfg) b ->
  1 < PLAYLIST_START b ->
  fst (fst (V4.run cfg generate_sha256 CLI_AUTO_GEN_PLAYLISTS CLI_HEADER
              CLI_NAME [w1; w2] [f] b))
  = b.
Proof.
  intros Hp Hl Hs1 Hf Hl' Hs2 Hr Hb.
  cbn [V4.run]. unfold V4.step. run_m. rewrite Hp.
  rewrite (listing4_next cfg f es w1 b Hl Hs1). cbv zeta. rewrite Hf.
  cbn [V4.position_of refetched4].
  rewrite (listing4_previous cfg (refetched4 f (fetched w1)) es' w2 _ Hl' Hs2).
  cbv zeta.
  apply reachable_span_v4 in Hr.
  destruct (previous_after_next (NO_OF_SEARCH_RESULTS cfg) b Hb) as [E _];
    [lia |].
  destruct (fetch_starts w2); cbn [fst]; exact E.
Qed.

End NextAndPrevious.

(** ** The navigation loop *)

Section Navigation.

Import Py Browser Nav.

Variable cfg : config.
Variable generate_sha256 : string -> string.
Variables CLI_AUTO_GEN_PLAYLISTS CLI_HEADER CLI_NAME : string.

(** C4: with page size 30 and the window at start 1, end 30, selecting
    Next sets the window to start 31, end 60, and the turn of the loop
    makes exactly one [subprocess.run] call, the one of [run_yt_dlp], whose
    command line carries [--playlist-start 31 --playlist-end 60]. *)
Theorem next_from_first_page_fetches_once (f : V4.frame) (es : page)
    (w : world) :
  NO_OF_SEARCH_RESULTS cfg = 30 ->
  listed (V4.search_results f) = Some es ->
  selection cfg w = Some "Next" ->
  exists log r,
    V4.listing cfg f w (first_page 30)
    = ({| PLAYLIST_START := 31; PLAYLIST_END := 60 |}, log, r)
    /\ runs log
       = [spun w
            (["yt-dlp"; V4.url f; "-J"; "--flat-playlist";
              "--extractor-args"; "youtubetab:approximate_date";
              "--playlist-start"; "31"; "--playlist-end"; "60"]
             ++ PREFERRED_BROWSER cfg)%list].
Proof.
  intros HP Hl Hs. rewrite (listing4_next cfg f es w _ Hl Hs). rewrite HP.
  cbv zeta.
  destruct (fetch_starts w); eexists _, _; (split; [reflexivity |]);
    rewrite !runs_app, (proj1 (menu_log_quiet _ _ _ _)),
      ?(proj1 (fetch_notice_runs _)), (proj1 (fetch_log_runs _ _));
    reflexivity.
Qed.


(** C5 (as amended): a selection that is not empty, is no control of the
    page menu and names no entry of the page leaves the window and the
    toggles as they are, starts no process and sends no notification, and
    the loop goes round with the batch it has; the empty selection ends
    the session, as Back does. *)
Theorem unmatched_selection_relists (f4 : V4.frame) (f2 : V2.frame)
    (es : page) (w : world) (b : window) (g : V2.globals) (s : string) :
  selection cfg w = Some s ->
  listed (V4.search_results f4) = Some es ->
  listed (V2.search_results f2) = Some es ->
  (s <> "" ->
   member s V4.controls = false ->
   names_no_entry (shown (V4.download_images f4) es) s ->
   V4.listing cfg f4 w b
   = (b, menu_log cfg (V4.download_images f4) es V4.controls,
      inr (V4.Continue (kept4 cfg f4 es V4.Listing)))
   /\ runs (menu_log cfg (V4.download_images f4) es V4.controls) = []
   /\ notifications (menu_log cfg (V4.download_images f4) es V4.controls)
      = [])
  /\ (s <> "" ->
      member s V2.controls = false ->
      names_no_entry (shown (V2.download_images f2) es) s ->
      V2.listing cfg f2 w g
      = (g, menu_log cfg (V2.download_images f2) es V2.controls,
         inr (V2.Continue (kept2 cfg f2 es V2.Listing))))
  /\ (s = "" ->
      V4.listing cfg f4 w b
      = (first_page (NO_OF_SEARCH_RESULTS cfg),
         menu_log cfg (V4.download_images f4) es V4.controls,
         inr (V4.Return None))
      /\ V2.listing cfg f2 w g
         = (V2.set_bounds (first_page (NO_OF_SEARCH_RESULTS cfg)) g,
            menu_log cfg (V2.download_images f2) es V2.controls,
            inr V2.Return)).
Proof.
  intros Hs Hl4 Hl2. split; [| split].
  - intros He Hc Hn. split; [| apply menu_log_quiet].
    now apply (listing4_no_entry cfg f4 es w b s).
  - intros He Hc Hn. now apply (listing2_no_entry cfg f2 es w g s).
  - intros He. split.
    + apply (listing4_back cfg f4 es w b s); auto.
    + apply (listing2_back cfg f2 es w g s); auto.
Qed.

(** C6 (as amended): whenever a session of [yt-browser2.py] returns to its
    caller the window is back at start 1, end one page size; the toggles
    are not reset: the turn of the loop that returns and every other turn
    of the page menu, Next and Previous among them, leave
    [AUDIO_ONLY_MODE] and [AUTOPLAY_MODE] as they are. *)
Theorem return_resets_window_only (answers : list world) (f : V2.frame)
    (g g' : V2.globals) (log : list event) :
  V2.run cfg answers f g = (g', log, V2.Finished) ->
  V2.bounds g' = first_page (NO_OF_SEARCH_RESULTS cfg)
  /\ (forall f1 w1 g1 g2 log1 r,
        V2.position_of f1 = V2.Listing ->
        V2.step cfg f1 w1 g1 = (g2, log1, r) ->
        V2.AUDIO_ONLY_MODE g2 = V2.AUDIO_ONLY_MODE g1
        /\ V2.AUTOPLAY_MODE g2 = V2.AUTOPLAY_MODE g1)
  /\ (forall f1 w1 g1 g2 log1,
        V2.step cfg f1 w1 g1 = (g2, log1, inr V2.Returned) ->
        V2.position_of f1 = V2.Listing).
Proof.
  intros H. split; [now apply (run2_finished cfg answers f g g' log) |].
  split.
  - intros f1 w1 g1 g2 log1 r Hp Hstep.
    unfold V2.step in Hstep. rewrite Hp in Hstep. run_m_in Hstep.
    destruct (V2.listing cfg f1 w1 g1) as [[g3 ev3] r3] eqn:E.
    apply listing2_effect in E. destruct E as (Ha & Hb & _).
    destruct r3; inversion Hstep; subst; now split.
  - intros f1 w1 g1 g2 log1 Hstep.
    now apply (step2_returned cfg f1 w1 g1 g2 log1).
Qed.




End Navigation.


(** ** The properties on sample sessions *)

Lemma next_from_first_page_fetches_once_sample :
  Browser.NO_OF_SEARCH_RESULTS Sample.cfg = 30
  /\ Browser.listed (V4.search_results Sample.start4) = Some Sample.batch
  /\ Nav.selection Sample.cfg (Sample.picks "Next") = Some "Next"
  /\ exists log r,
       V4.listing Sample.cfg Sample.start4 (Sample.picks "Next")
         (Browser.first_page 30)
       = ({| Browser.PLAYLIST_START := 31; Browser.PLAYLIST_END := 60 |},
          log, r)
       /\ Nav.runs log
          = [Nav.spun (Sample.picks "Next")
               (["yt-dlp"; V4.url Sample.start4; "-J"; "--flat-playlist";
                 "--extractor-args"; "youtubetab:approximate_date";
                 "--playlist-start"; "31"; "--playlist-end"; "60"]
                ++ Browser.PREFERRED_BROWSER Sample.cfg)%list].
Proof.
  assert (H1 : Browser.NO_OF_SEARCH_RESULTS Sample.cfg = 30)
    by reflexivity.
  assert (H2 : Browser.listed (V4.search_results Sample.start4)
               = Some Sample.batch) by reflexivity.
  assert (H3 : Nav.selection Sample.cfg (Sample.picks "Next") = Some "Next")
    by (vm_compute; reflexivity).
  split; [exact H1 |]. split; [exact H2 |]. split; [exact H3 |].
  exact (next_from_first_page_fetches_once Sample.cfg Sample.start4
           Sample.batch (Sample.picks "Next") H1 H2 H3).
Defined.



Lemma unmatched_selection_relists_sample :
  (Nav.selection Sample.cfg (Sample.picks "zzz") = Some "zzz"
   /\ Browser.listed (V4.search_results Sample.start4) = Some Sample.batch
   /\ Browser.listed (V2.search_results Sample.start2) = Some Sample.batch
   /\ "zzz" <> ""
   /\ Browser.member "zzz" V4.controls = false
   /\ Browser.member "zzz" V2.controls = false
   /\ Nav.names_no_entry (Nav.shown false Sample.batch) "zzz")
  /\ (V4.listing Sample.cfg Sample.start4 (Sample.picks "zzz") Sample.page2
      = (Sample.page2,
         Nav.menu_log Sample.cfg false Sample.batch V4.controls,
         inr (V4.Continue
                (Nav.kept4 Sample.cfg Sample.start4 Sample.batch
                   V4.Listing)))
      /\ V2.listing Sample.cfg Sample.start2 (Sample.picks "zzz")
           (V2.initial 30)
         = (V2.initial 30,
            Nav.menu_log Sample.cfg false Sample.batch V2.controls,
            inr (V2.Continue
                   (Nav.kept2 Sample.cfg Sample.start2 Sample.batch
                      V2.Listing))))
  /\ (Nav.selection Sample.cfg Sample.cancels = Some ""
      /\ V4.listing Sample.cfg Sample.start4 Sample.cancels Sample.page2
         = (Browser.first_page 30,
            Nav.menu_log Sample.cfg false Sample.batch V4.controls,
            inr (V4.Return None))).
Proof.
  assert (H1 : Nav.selection Sample.cfg (Sample.picks "zzz") = Some "zzz")
    by (vm_compute; reflexivity).
  assert (H2 : Browser.listed (V4.search_results Sample.start4)
               = Some Sample.batch) by reflexivity.
  assert (H3 : Browser.listed (V2.search_results Sample.start2)
               = Some Sample.batch) by reflexivity.
  assert (H4 : "zzz" <> "") by discriminate.
  assert (H5 : Browser.member "zzz" V4.controls = false) by reflexivity.
  assert (H6 : Browser.member "zzz" V2.controls = false) by reflexivity.
  assert (H7 : Nav.names_no_entry (Nav.shown false Sample.batch) "zzz")
    by exact I.
  assert (H8 : Nav.selection Sample.cfg Sample.cancels = Some "")
    by (vm_compute; reflexivity).
  split; [repeat split; assumption |].
  destruct (unmatched_selection_relists Sample.cfg Sample.start4
              Sample.start2 Sample.batch (Sample.picks "zzz") Sample.page2
              (V2.initial 30) "zzz" H1 H2 H3) as (A & B & _).
  destruct (unmatched_selection_relists Sample.cfg Sample.start4
              Sample.start2 Sample.batch Sample.cancels Sample.page2
              (V2.initial 30) "" H8 H2 H3) as (_ & _ & C).
  split; [split |].
  - exact (proj1 (A H4 H5 H7)).
  - exact (B H4 H6 H7).
  - split; [exact H8 | exact (proj1 (C eq_refl))].
Defined.

(** C5 as stated fails: on the second page, the empty selection ends the
    session and resets the window, in both browsers. *)
Lemma empty_selection_ends_the_session :
  Nav.selection Sample.cfg Sample.cancels = Some ""
  /\ Sample.run4 Sample.cfg [Sample.cancels] [Sample.start4] Sample.page2
     = (Browser.first_page 30,
        Nav.menu_log Sample.cfg false Sample.batch V4.controls,
        V4.Finished None)
  /\ V2.run Sample.cfg [Sample.cancels] Sample.start2
       (V2.set_bounds Sample.page2 (V2.initial 30))
     = (V2.initial 30,
        Nav.menu_log Sample.cfg false Sample.batch V2.controls,
        V2.Finished)
  /\ Browser.first_page 30 <> Sample.page2.
Proof.
  vm_compute. repeat split; try reflexivity. discriminate.
Qed.

Lemma return_resets_window_only_sample :
  V2.run Sample.cfg [Sample.cancels] Sample.start2
    (V2.set_bounds Sample.page2 (Nav.flipped (V2.initial 30)))
  = (Nav.flipped (V2.initial 30),
     Nav.menu_log Sample.cfg false Sample.batch V2.controls, V2.Finished)
  /\ V2.bounds (Nav.flipped (V2.initial 30)) = Browser.first_page 30
  /\ V2.AUDIO_ONLY_MODE (Nav.flipped (V2.initial 30)) = true.
Proof.
  assert (H : V2.run Sample.cfg [Sample.cancels] Sample.start2
                (V2.set_bounds Sample.page2 (Nav.flipped (V2.initial 30)))
              = (Nav.flipped (V2.initial 30),
                 Nav.menu_log Sample.cfg false Sample.batch V2.controls,
                 V2.Finished)) by (vm_compute; reflexivity).
  split; [exact H |]. split; [| reflexivity].
  exact (proj1 (return_resets_window_only Sample.cfg [Sample.cancels]
                  Sample.start2 _ _ _ H)).
Defined.

(** C6 as stated fails: a session of [yt-browser2.py] in which the user
    opens the first video, toggles audio-only and goes back twice returns
    with [AUDIO_ONLY_MODE] true, not with its initial value. *)
Lemma audio_toggle_survives_the_session :
  V2.AUDIO_ONLY_MODE (V2.initial 30) = false
  /\ snd (V2.run Sample.cfg
            [Sample.picks "01 First video";
             Sample.picks Sample.toggle_audio;
             Sample.picks "Back"; Sample.picks "Back"]
            Sample.start2 (V2.initial 30))
     = V2.Finished
  /\ fst (fst (V2.run Sample.cfg
                 [Sample.picks "01 First video";
                  Sample.picks Sample.toggle_audio;
                  Sample.picks "Back"; Sample.picks "Back"]
                 Sample.start2 (V2.initial 30)))
     = {| V2.bounds := Browser.first_page 30;
          V2.AUDIO_ONLY_MODE := true; V2.AUTOPLAY_MODE := false |}.
Proof. vm_compute. repeat split; reflexivity. Qed.






(** Two more runs of [yt-browser4.py].  Leaving through Main Menu after a
    Next skips the reset of the window; and with previews off, a turn of
    the loop that keeps the batch numbers its titles once more. *)
Example main_menu_return_keeps_the_window :
  Sample.run4 Sample.cfg [Sample.picks "Next"; Sample.picks "Main Menu"]
    [Sample.start4] (Browser.first_page 30)
  = (Sample.page2,
     snd (fst (Sample.run4 Sample.cfg
                 [Sample.picks "Next"; Sample.picks "Main Menu"]
                 [Sample.start4] (Browser.first_page 30))),
     V4.Finished (Some "Main Menu")).
Proof. vm_compute. reflexivity. Qed.

Example relisting_numbers_the_titles_again :
  Browser.titles_of (Nav.shown false Sample.batch)
  = ["01 First video"; "02 Second video"]
  /\ Browser.titles_of (Nav.shown false (Nav.shown false Sample.batch))
     = ["01 01 First video"; "02 02 Second video"]
  /\ V4.search_results
       (Nav.kept4 Sample.cfg Sample.start4 Sample.batch V4.Listing)
     = Browser.Dict true (Some (Nav.shown false Sample.batch))
  /\ V4.download_images
       (Nav.kept4 Sample.cfg Sample.start4 Sample.batch V4.Listing)
     = false.
Proof. vm_compute. repeat split; reflexivity. Qed.

(** With rofi selected and no [ROFI_THEME] key in [CONFIG], [launcher]
    raises before it starts the selector. *)
Example rofi_without_theme_key_raises :
  V2.run Sample.cfg_rofi_no_theme [Sample.cancels] Sample.start2
    (V2.initial 30)
  = (V2.initial 30, [], V2.Aborted (Browser.Raise Browser.KeyError)).
Proof. vm_compute. reflexivity. Qed.

(** * Properties of the code around the navigation loop *)

(** ** Decimal numerals *)

Section Numerals.

Import Py.

Lemma of_uint_cons (d one : Decimal.uint) :
  Z.of_N (DecimalPos.Unsigned.of_lu (Decimal.revapp d one))
  = Z.of_N (Pos.of_uint d)
    + Z.of_N (DecimalPos.Unsigned.of_lu one)
      * 10 ^ Z.of_N (DecimalPos.Unsigned.usize d).
Proof.
  rewrite DecimalPos.Unsigned.of_lu_revapp,
    <- DecimalPos.Unsigned.of_uint_alt.
  rewrite N2Z.inj_add, N2Z.inj_mul, N2Z.inj_pow. reflexivity.
Qed.

(** Reading a numeral after the digits that gave [acc]. *)
Lemma digits_of_numeral (d : Decimal.uint) (acc : Z) (seen : bool) :
  d <> Decimal.Nil \/ seen = true ->
  digits acc seen (NilEmpty.string_of_uint d)
  = Some (acc * 10 ^ Z.of_N (DecimalPos.Unsigned.usize d)
          + Z.of_N (Pos.of_uint d)).
Proof.
  revert acc seen.
  induction d; intros acc seen H;
    cbn [NilEmpty.string_of_uint digits DecimalPos.Unsigned.usize].
  1: { destruct H as [H | ->]; [now contradiction H |].
       cbn. f_equal. lia. }
  all: change (is_digit _) with true; cbv beta iota;
    rewrite IHd by now right.
  all: rewrite (DecimalPos.Unsigned.of_uint_alt (_ d));
    unfold Decimal.rev; cbn [Decimal.revapp];
    rewrite of_uint_cons.
  all: rewrite N2Z.inj_succ, Z.pow_succ_r by lia.
  all: unfold digit_value; f_equal;
    match goal with
    | |- context [Z.of_nat (code ?c)] =>
        let v := eval vm_compute in (Z.of_nat (code c)) in
        change (Z.of_nat (code c)) with v
    end;
    match goal with
    | |- context [Z.of_N (DecimalPos.Unsigned.of_lu ?o)] =>
        let v := eval vm_compute in (Z.of_N (DecimalPos.Unsigned.of_lu o)) in
        change (Z.of_N (DecimalPos.Unsigned.of_lu o)) with v
    end; ring.
Qed.

Lemma numeral_opens_with_digit (d : Decimal.uint) :
  d <> Decimal.Nil ->
  exists c r, NilEmpty.string_of_uint d = String c r /\ is_digit c = true.
Proof.
  destruct d; intros H; [now contradiction H | ..];
    cbn [NilEmpty.string_of_uint]; eexists _, _; split; reflexivity.
Qed.

Lemma numeral_all_digits (d : Decimal.uint) :
  all_digits (NilEmpty.string_of_uint d) = true.
Proof.
  induction d; cbn [NilEmpty.string_of_uint all_digits];
    [reflexivity | ..]; rewrite IHd; reflexivity.
Qed.

(** [str] of a number that is not negative is the numeral of the
    number. *)
Lemma str_nonnegative (z : Z) :
  0 <= z ->
  exists d, str z = NilEmpty.string_of_uint d /\ d <> Decimal.Nil
            /\ Z.of_N (Pos.of_uint d) = z.
Proof.
  intros Hz. unfold str. destruct z as [|p|p]; [| | lia].
  - exists (Decimal.D0 Decimal.Nil). repeat split; discriminate.
  - exists (Pos.to_uint p). cbn [Z.to_int NilZero.string_of_int].
    split; [| split].
    + unfold NilZero.string_of_uint.
      destruct (Pos.to_uint p) eqn:E; try reflexivity.
      now apply DecimalPos.Unsigned.to_uint_nonnil in E.
    + apply DecimalPos.Unsigned.to_uint_nonnil.
    + now rewrite DecimalPos.Unsigned.of_to.
Qed.

Lemma str_opens_with_digit (z : Z) :
  0 <= z -> exists c r, str z = String c r /\ is_digit c = true.
Proof.
  intros Hz. destruct (str_nonnegative z Hz) as (d & -> & Hd & _).
  now apply numeral_opens_with_digit.
Qed.

Lemma str_all_digits (z : Z) : 0 <= z -> all_digits (str z) = true.
Proof.
  intros Hz. destruct (str_nonnegative z Hz) as (d & -> & _).
  apply numeral_all_digits.
Qed.

(** The digits of [str z] read back as [z], also after a zero. *)
Lemma digits_str (z : Z) (seen : bool) :
  0 <= z -> digits 0 seen (str z) = Some z.
Proof.
  intros Hz. destruct (str_nonnegative z Hz) as (d & -> & Hd & <-).
  rewrite digits_of_numeral by now left. reflexivity.
Qed.

Lemma rev_onto_app (s acc : string) : rev_onto s acc = rev s ++ acc.
Proof.
  unfold rev. revert acc.
  induction s as [|c s IH]; intros acc; cbn [rev_onto]; [reflexivity |].
  rewrite IH, (IH (String c "")), append_assoc. reflexivity.
Qed.

Lemma rev_app (a b : string) : rev (a ++ b) = rev b ++ rev a.
Proof.
  induction a as [|c a IH]; cbn [append].
  - now rewrite append_nil_r.
  - unfold rev at 1 3. cbn [rev_onto]. rewrite !rev_onto_app, IH.
    now rewrite append_assoc.
Qed.

Lemma rev_involutive (s : string) : rev (rev s) = s.
Proof.
  induction s as [|c s IH]; [reflexivity |].
  change (String c s) with (String c "" ++ s) at 1.
  rewrite rev_app, rev_app, IH. reflexivity.
Qed.

Lemma last_split (c : ascii) (s : string) :
  exists m d, String c s = m ++ String d "".
Proof.
  revert c. induction s as [|x s IH]; intros c.
  - now exists "", c.
  - destruct (IH x) as (m & d & E). exists (String c m), d.
    cbn [append]. now rewrite E.
Qed.

Lemma lstrip_fixed (c : ascii) (r : string) :
  is_space c = false -> lstrip (String c r) = String c r.
Proof. intros H. cbn [lstrip]. now rewrite H. Qed.

Lemma rstrip_fixed (m : string) (d : ascii) :
  is_space d = false -> rstrip (m ++ String d "") = m ++ String d "".
Proof.
  intros H. unfold rstrip. rewrite rev_app.
  change (rev (String d "")) with (String d ""). cbn [append].
  rewrite lstrip_fixed by exact H.
  change (String d (rev m)) with (String d "" ++ rev m).
  now rewrite rev_app, rev_involutive.
Qed.

(** A string with no white space at either end is its own [strip]. *)
Lemma strip_fixed (c d : ascii) (r m : string) :
  String c r = m ++ String d "" ->
  is_space c = false -> is_space d = false ->
  strip (String c r) = String c r.
Proof.
  intros E Hc Hd. unfold strip. rewrite lstrip_fixed by exact Hc.
  rewrite E. now apply rstrip_fixed.
Qed.

Lemma digit_no_space (c : ascii) : is_digit c = true -> is_space c = false.
Proof.
  unfold is_digit, is_space, in_range, code.
  destruct c as [[] [] [] [] [] [] [] []]; vm_compute; congruence.
Qed.

Lemma all_digits_app (a b : string) :
  all_digits (a ++ b) = (all_digits a && all_digits b)%bool.
Proof.
  induction a as [|c a IH]; cbn [append all_digits]; [reflexivity |].
  now rewrite IH, andb_assoc.
Qed.

Lemma strip_digits (s : string) : all_digits s = true -> strip s = s.
Proof.
  destruct s as [|c r]; [reflexivity |]. intros H.
  destruct (last_split c r) as (m & d & E).
  apply (strip_fixed c d r m E).
  - cbn [all_digits] in H. apply andb_prop in H. now apply digit_no_space.
  - rewrite E, all_digits_app in H. cbn [all_digits] in H.
    apply andb_prop in H. destruct H as [_ H].
    apply andb_prop in H. now apply digit_no_space.
Qed.

(** [int] reads a string of digits by its digits. *)
Lemma int_digits (s : string) :
  all_digits s = true -> int s = digits 0 false s.
Proof.
  intros H. unfold int. rewrite (strip_digits s H).
  destruct s as [|c r]; [reflexivity |].
  cbn [all_digits] in H. apply andb_prop in H. destruct H as [H _].
  destruct c as [[] [] [] [] [] [] [] []]; try reflexivity;
    vm_compute in H; discriminate.
Qed.

(** [int(str(z))] is [z]. *)
Lemma int_str (z : Z) : 0 <= z -> int (str z) = Some z.
Proof.
  intros Hz. rewrite int_digits by now apply str_all_digits.
  now apply digits_str.
Qed.

End Numerals.

(** ** The labels of the page menu *)

Section Labels.

Import Py Browser.

Lemma num_all_digits (count i : nat) : all_digits (num count i) = true.
Proof.
  unfold num.
  destruct (Nat.ltb count 10 && Nat.ltb _ 2)%bool;
    cbn [append all_digits]; rewrite ?str_all_digits by lia; reflexivity.
Qed.

(** The number of a label reads back as the position it shows. *)
Lemma int_num (count i : nat) : int (num count i) = Some (Z.of_nat i + 1).
Proof.
  rewrite int_digits by apply num_all_digits.
  unfold num.
  destruct (Nat.ltb count 10 && Nat.ltb _ 2)%bool.
  - cbn [append digits]. change (is_digit "0") with true. cbv beta iota.
    change (10 * 0 + digit_value "0") with 0. apply digits_str. lia.
  - apply digits_str. lia.
Qed.

Lemma num_opens_with_digit (count i : nat) :
  exists c r, num count i = String c r /\ is_digit c = true.
Proof.
  unfold num.
  destruct (Nat.ltb count 10 && Nat.ltb _ 2)%bool.
  - eexists _, _. split; reflexivity.
  - apply str_opens_with_digit. lia.
Qed.

Lemma digit_not_blank (c : ascii) :
  is_digit c = true -> Ascii.eqb c " " = false.
Proof.
  destruct c as [[] [] [] [] [] [] [] []]; vm_compute; congruence.
Qed.

(** The first word of a label that opens with a number is the number. *)
Lemma first_word (n t : string) :
  all_digits n = true -> hd "" (split_on " " (n ++ " " ++ t)) = n.
Proof.
  induction n as [|c n IH]; intros H; cbn [append split_on].
  - reflexivity.
  - cbn [all_digits] in H. apply andb_prop in H. destruct H as [Hc Hn].
    rewrite (digit_not_blank c Hc). specialize (IH Hn).
    change (String " " t) with (" " ++ t).
    destruct (split_on " " (n ++ " " ++ t)); cbn [hd] in *;
      now rewrite IH.
Qed.

(** [sub_label] leaves a label that opens with a digit alone. *)
Lemma sub_label_digit (c : ascii) (r : string) :
  is_digit c = true -> Re.sub_label (String c r) = String c r.
Proof.
  intros H. unfold Re.sub_label. cbn [Re.span_nondigits]. rewrite H.
  reflexivity.
Qed.

(** [sub_number] takes the number off a label again. *)
Lemma sub_number_label (n t : string) :
  all_digits n = true -> n <> "" -> Re.sub_number (n ++ " " ++ t) = t.
Proof.
  intros H Hn. unfold Re.sub_number.
  assert (E : Re.span_digits (n ++ " " ++ t) = (n, " " ++ t)).
  { clear Hn. induction n as [|c n IH].
    - reflexivity.
    - cbn [all_digits] in H. apply andb_prop in H. destruct H as [Hc Hn].
      change (String c n ++ " " ++ t) with (String c (n ++ " " ++ t)).
      cbn [Re.span_digits]. rewrite Hc, (IH Hn). reflexivity. }
  rewrite E. destruct n; [now contradiction Hn | reflexivity].
Qed.

(** A label that opens with a digit is no control of a menu and is not
    empty. *)
Lemma digit_label_no_control (c : ascii) (r : string) (l : list string) :
  is_digit c = true ->
  Forall (fun k => exists d q, k = String d q /\ is_digit d = false) l ->
  member (String c r) l = false.
Proof.
  intros Hc Hl. unfold member. induction Hl as [|k l (d & q & -> & Hd) _ IH].
  - reflexivity.
  - cbn [existsb]. rewrite IH, orb_false_r. cbn [String.eqb].
    destruct (Ascii.eqb_spec c d) as [-> |]; [congruence | reflexivity].
Qed.

Lemma number_from_nth (count k : nat) (es : page) (i : nat) (e : entry) :
  nth_error es i = Some (Some e) ->
  nth_error (number_from count k es) i
  = Some (Some {| title := num count (k + i) ++ " " ++ title e;
                  entry_url := entry_url e; entry_id := entry_id e |}).
Proof.
  revert k i. induction es as [|x es IH]; intros k i H.
  - destruct i; discriminate.
  - destruct i as [|i].
    + injection H as ->. cbn [number_from nth_error].
      now rewrite Nat.add_0_r.
    + cbn [nth_error] in H.
      destruct x; cbn [number_from nth_error];
        rewrite (IH (S k) i H), <- plus_n_Sm; reflexivity.
Qed.

Lemma number_from_length (count k : nat) (es : page) :
  List.length (number_from count k es) = List.length es.
Proof.
  revert k. induction es as [|[e|] es IH]; intros k;
    cbn [number_from List.length]; [reflexivity | now rewrite IH ..].
Qed.

Lemma index_nth {A} (l : list A) (i : nat) (x : A) :
  nth_error l i = Some x -> Py.index l (Z.of_nat i + 1 - 1) = Some x.
Proof.
  intros H. unfold Py.index.
  assert (Hi : (i < List.length l)%nat)
    by (apply nth_error_Some; congruence).
  replace (Z.of_nat i + 1 - 1) with (Z.of_nat i) by lia.
  destruct (0 <=? Z.of_nat i) eqn:E1; [| lia].
  destruct (Z.of_nat i <? Z.of_nat (List.length l)) eqn:E2; [| lia].
  cbn [andb]. now rewrite Nat2Z.id.
Qed.

End Labels.

(** ** Choosing a video by its label *)

Section ChosenLabel.

Import Py Browser Nav.

Variable cfg : config.

Lemma titles_of_nth (es : page) (i : nat) (e : entry) :
  nth_error es i = Some (Some e) -> In (title e) (titles_of es).
Proof.
  revert i. induction es as [|x es IH]; intros i H.
  - destruct i; discriminate.
  - destruct i as [|i].
    + injection H as ->. now left.
    + cbn [nth_error] in H. specialize (IH i H).
      destruct x; cbn [titles_of]; [now right | exact IH].
Qed.

Lemma controls4_no_digit :
  Forall (fun k => exists d q, k = String d q /\ is_digit d = false)
    V4.controls.
Proof. repeat constructor; eexists _, _; split; reflexivity. Qed.

Lemma controls2_no_digit :
  Forall (fun k => exists d q, k = String d q /\ is_digit d = false)
    V2.controls.
Proof. repeat constructor; eexists _, _; split; reflexivity. Qed.

(** The entry [e] under the label that the page menu shows for position
    [i] of a batch of [count] entries. *)
Lemma labelled_entry (es : page) (i : nat) (e : entry) :
  nth_error es i = Some (Some e) ->
  nth_error (number_titles es) i
  = Some (Some {| title := num (List.length es) i ++ " " ++ title e;
                  entry_url := entry_url e; entry_id := entry_id e |}).
Proof. intros H. apply (number_from_nth _ 0 es i e H). Qed.

(** X1.  The page menu of both browsers on a batch it has not processed:
    the label shown for entry [i] is its number, a blank and its title;
    when the selector returns that label, the action menu opens on entry
    [i], and [clean_title] is the title that was fetched. *)
Theorem label_opens_its_entry (f4 : V4.frame) (f2 : V2.frame) (es : page)
    (i : nat) (e : entry) (w : world) (b : window) (g : V2.globals) :
  listed (V4.search_results f4) = Some es ->
  listed (V2.search_results f2) = Some es ->
  V4.download_images f4 = false ->
  V2.download_images f2 = false ->
  nth_error es i = Some (Some e) ->
  answer cfg (video_mode cfg) w
  = Some (num (List.length es) i ++ " " ++ title e) ->
  let label := num (List.length es) i ++ " " ++ title e in
  let video :=
    {| title := label; entry_url := entry_url e; entry_id := entry_id e |} in
  In label (titles_of (shown false es))
  /\ V4.listing cfg f4 w b
     = (b, menu_log cfg false es V4.controls,
        inr (V4.Continue
               (kept4 cfg f4 es (V4.ItemActions video (title e)))))
  /\ V2.listing cfg f2 w g
     = (g, menu_log cfg false es V2.controls,
        inr (V2.Continue
               (kept2 cfg f2 es
                  (V2.ItemActions
                     {| V2.entries := shown false es;
                        V2.current_index := Z.of_nat i;
                        V2.video := video;
                        V2.vid_url := entry_url e;
                        V2.clean_title := title e |})))).
Proof.
  intros Hl4 Hl2 Hd4 Hd2 Hi Ha label video.
  pose proof (labelled_entry es i e Hi) as Hnth.
  destruct (num_opens_with_digit (List.length es) i) as (c & r & En & Hc).
  assert (El : label = String c (r ++ " " ++ title e))
    by (unfold label; rewrite En; reflexivity).
  assert (Hs : selection cfg w = Some label).
  { unfold selection. rewrite Ha. cbn [option_map]. fold label.
    now rewrite El, sub_label_digit. }
  assert (He : String.eqb label "" = false) by now rewrite El.
  assert (Hw : hd "" (split_on " " label) = num (List.length es) i)
    by (apply first_word, num_all_digits).
  assert (Hc' : Re.sub_number label = title e).
  { apply sub_number_label; [apply num_all_digits |].
    rewrite En. discriminate. }
  split; [exact (titles_of_nth (number_titles es) i _ Hnth) |].
  split.
  - pose proof (digit_label_no_control c (r ++ " " ++ title e) _ Hc
                  controls4_no_digit) as Hm.
    rewrite <- El in Hm. unfold V4.controls, member in Hm.
    cbn [existsb] in Hm.
    repeat (apply orb_false_elim in Hm; destruct Hm as [?H Hm]).
    clear Ha. open_menu4 cfg f4 Hl4; try discriminate Hd4.
    all: answered cfg w b Hs; rewrite Hs; unfold member, existsb.
    all: repeat match goal with
                | H : String.eqb _ _ = false |- _ => rewrite H
                end; cbn [orb]; cbv beta iota.
    all: rewrite Hw, int_num, (index_nth _ _ _ Hnth).
    all: cbv beta iota; cbn [title]; fold label; rewrite Hc'; close_log.
  - pose proof (digit_label_no_control c (r ++ " " ++ title e) _ Hc
                  controls2_no_digit) as Hm.
    rewrite <- El in Hm. unfold V2.controls, member in Hm.
    cbn [existsb] in Hm.
    repeat (apply orb_false_elim in Hm; destruct Hm as [?H Hm]).
    clear Ha. open_menu2 cfg f2 Hl2; try discriminate Hd2.
    all: answered cfg w g Hs; rewrite Hs; unfold member, existsb.
    all: repeat match goal with
                | H : String.eqb _ _ = false |- _ => rewrite H
                end; cbn [orb]; cbv beta iota.
    all: rewrite Hw, int_num, (index_nth _ _ _ Hnth).
    all: cbv beta iota; cbn [title entry_url]; fold label; rewrite Hc'.
    all: replace (Z.of_nat i + 1 - 1) with (Z.of_nat i) by lia.
    all: close_log.
Qed.

End ChosenLabel.

(** The second video of the sample page, picked by its label. *)
Lemma label_opens_its_entry_sample :
  (nth_error Sample.batch 1 = Some (Some Sample.video2)
   /\ Nav.answer Sample.cfg (Nav.video_mode Sample.cfg)
        (Sample.picks "02 Second video")
      = Some "02 Second video")
  /\ In "02 Second video" ["01 First video"; "02 Second video"]
  /\ V4.listing Sample.cfg Sample.start4 (Sample.picks "02 Second video")
       (Browser.first_page 30)
     = (Browser.first_page 30,
        Nav.menu_log Sample.cfg false Sample.batch V4.controls,
        inr (V4.Continue
               (Nav.kept4 Sample.cfg Sample.start4 Sample.batch
                  (V4.ItemActions
                     {| Browser.title := "02 Second video";
                        Browser.entry_url := "https://youtu.be/b2";
                        Browser.entry_id := "b2" |}
                     "Second video"))))
  /\ V2.listing Sample.cfg Sample.start2 (Sample.picks "02 Second video")
       (V2.initial 30)
     = (V2.initial 30,
        Nav.menu_log Sample.cfg false Sample.batch V2.controls,
        inr (V2.Continue
               (Nav.kept2 Sample.cfg Sample.start2 Sample.batch
                  (V2.ItemActions
                     {| V2.entries := Nav.shown false Sample.batch;
                        V2.current_index := 1;
                        V2.video :=
                          {| Browser.title := "02 Second video";
                             Browser.entry_url := "https://youtu.be/b2";
                             Browser.entry_id := "b2" |};
                        V2.vid_url := "https://youtu.be/b2";
                        V2.clean_title := "Second video" |})))).
Proof.
  assert (H1 : nth_error Sample.batch 1 = Some (Some Sample.video2))
    by reflexivity.
  assert (H2 : Nav.answer Sample.cfg (Nav.video_mode Sample.cfg)
                 (Sample.picks "02 Second video")
               = Some "02 Second video") by (vm_compute; reflexivity).
  split; [split; assumption |].
  exact (label_opens_its_entry Sample.cfg Sample.start4 Sample.start2
           Sample.batch 1 Sample.video2 (Sample.picks "02 Second video")
           (Browser.first_page 30) (V2.initial 30)
           eq_refl eq_refl eq_refl eq_refl H1 H2).
Defined.

(** ** The window of every fetch *)

Section WindowInvariant.

Import Py Browser Nav.

Variable cfg : config.
Variable generate_sha256 : string -> string.
Variables CLI_AUTO_GEN_PLAYLISTS CLI_HEADER CLI_NAME : string.

(** With a page size of at least one, the window of a session starts at
    one or later. *)
Lemma reachable_start (P : Z) (b : window) :
  1 <= P ->
  (reachable V4.previous_page P b -> 1 <= PLAYLIST_START b)
  /\ (reachable V2.previous_page P b -> 1 <= PLAYLIST_START b).
Proof.
  intros HP. split; induction 1;
    unfold V4.previous_page, V2.previous_page, next_page, first_page in *;
    cbn [PLAYLIST_START PLAYLIST_END] in *;
    repeat match goal with
           | |- context [?a <=? ?b] => destruct (Z.leb_spec a b)
           end; lia.
Qed.

(** X2.  Whatever the user and the network answer, after any number
    of loop iterations of either browser that began on the first page the
    window spans exactly one page, [PLAYLIST_END = PLAYLIST_START +
    NO_OF_SEARCH_RESULTS - 1], and starts at one or later, provided
    [NO_OF_SEARCH_RESULTS] is at least one. *)
Theorem window_spans_one_page (answers : list world) (calls : V4.stack)
    (f : V2.frame) :
  let P := NO_OF_SEARCH_RESULTS cfg in
  let b4 :=
    fst (fst (V4.run cfg generate_sha256 CLI_AUTO_GEN_PLAYLISTS CLI_HEADER
                CLI_NAME answers calls (first_page P))) in
  let b2 := V2.bounds (fst (fst (V2.run cfg answers f (V2.initial P)))) in
  1 <= P ->
  (1 <= PLAYLIST_START b4 /\ PLAYLIST_END b4 = PLAYLIST_START b4 + P - 1)
  /\ (1 <= PLAYLIST_START b2 /\ PLAYLIST_END b2 = PLAYLIST_START b2 + P - 1).
Proof.
  intros P b4 b2 HP.
  assert (H4 : reachable V4.previous_page P b4).
  { subst b4.
    destruct (V4.run cfg generate_sha256 CLI_AUTO_GEN_PLAYLISTS CLI_HEADER
                CLI_NAME answers calls (first_page P)) as [[b' log] o] eqn:E.
    apply (run4_reachable cfg _ _ _ _ answers calls _ b' log o
             (reach_first _ _) E). }
  assert (H2 : reachable V2.previous_page P b2).
  { subst b2.
    destruct (V2.run cfg answers f (V2.initial P)) as [[g' log] o] eqn:E.
    apply (run2_reachable cfg answers f (V2.initial P) g' log o
             (reach_first _ _) E). }
  split; split.
  - now apply (proj1 (reachable_start P b4 HP)).
  - now apply reachable_span_v4.
  - now apply (proj2 (reachable_start P b2 HP)).
  - now apply reachable_span_v2.
Qed.

End WindowInvariant.

(** The window after Next, Next and Previous on the sample page. *)
Lemma window_spans_one_page_sample :
  1 <= 30
  /\ (let answers :=
        [Sample.picks "Next"; Sample.picks "Next"; Sample.picks "Previous"] in
      let b4 :=
        fst (fst (Sample.run4 Sample.cfg answers [Sample.start4]
                    (Browser.first_page 30))) in
      let b2 :=
        V2.bounds (fst (fst (V2.run Sample.cfg answers Sample.start2
                               (V2.initial 30)))) in
      (1 <= Browser.PLAYLIST_START b4
       /\ Browser.PLAYLIST_END b4 = Browser.PLAYLIST_START b4 + 30 - 1)
      /\ (1 <= Browser.PLAYLIST_START b2
          /\ Browser.PLAYLIST_END b2 = Browser.PLAYLIST_START b2 + 30 - 1)).
Proof.
  split; [lia |].
  apply (window_spans_one_page Sample.cfg Sample.sha
           "/home/user/.cache/yt-browser/playlists" "" "yt-browser"
           [Sample.picks "Next"; Sample.picks "Next"; Sample.picks "Previous"]
           [Sample.start4] Sample.start2).
  simpl. lia.
Defined.

(** ** A mix inside a session *)

Section Mix.

Import Py Browser Nav.

Variable cfg : config.
Variable generate_sha256 : string -> string.
Variables CLI_AUTO_GEN_PLAYLISTS CLI_HEADER CLI_NAME : string.

(** Mix in the action menu: one fetch of the mix with the window as it
    is, then a nested call on what was fetched. *)
Lemma item_actions4_mix (f : V4.frame) (video : entry) (t : string)
    (w : world) (b : window) :
  action cfg w = Some "Mix" ->
  fetch_starts w = true ->
  V4.item_actions cfg generate_sha256 CLI_AUTO_GEN_PLAYLISTS CLI_HEADER
    CLI_NAME f video t w b
  = (b,
     (actions4_log cfg
      ++ fetch_log w (fetch_command cfg (V4.mix_of (entry_id video)) b)
      ++ fetch_notice w)%list,
     inr (V4.Call f
            (V4.enter (fetched w) (V4.mix_of (entry_id video))
               (Some (V4.mix_of (entry_id video)))))).
Proof.
  intros Hs Hf.
  unfold V4.item_actions, V4.launcher, V4.byebye, V4.run_yt_dlp,
    actions4_log.
  run_m. action_answered cfg w b Hs. rewrite Hs.
  unfold member, existsb. decide_eqb. cbn [orb]. cbv beta iota.
  rewrite (run_yt_dlp_found cfg _ _ w _ Hf).
  destruct f; cbn [V4.search_results V4.url V4.urlForAll V4.download_images
                   V4.enumerate_playlist V4.position_of].
  close_log.
Qed.

(** X5.  yt-browser4.py: Mix starts a nested call of
    [playlist_explorer] on the mix.  When that call ends, by Back or a
    cancelled selector on its page menu or at once because the fetch brought
    no list, its last two assignments have put the shared window back on the
    first page, and the caller goes on in its action menu with the batch it
    had: the caller's window is lost. *)
Theorem mix_return_resets_the_window (f : V4.frame) (callers : V4.stack)
    (video : entry) (t : string) (w1 w2 : world) (b : window) :
  V4.position_of f = V4.ItemActions video t ->
  action cfg w1 = Some "Mix" ->
  fetch_starts w1 = true ->
  match listed (fetched w1) with
  | Some _ => selection cfg w2 = Some "Back" \/ selection cfg w2 = Some ""
  | None => True
  end ->
  let mix_url := V4.mix_of (entry_id video) in
  V4.run cfg generate_sha256 CLI_AUTO_GEN_PLAYLISTS CLI_HEADER CLI_NAME
    [w1; w2] (f :: callers) b
  = (first_page (NO_OF_SEARCH_RESULTS cfg),
     (actions4_log cfg ++ fetch_log w1 (fetch_command cfg mix_url b)
      ++ fetch_notice w1
      ++ match listed (fetched w1) with
         | Some es => menu_log cfg false es V4.controls
         | None => []
         end)%list,
     V4.Waiting (f :: callers)).
Proof.
  intros Hp Hs Hf Hback mix_url. subst mix_url.
  cbn [V4.run]. unfold V4.step. run_m. rewrite Hp.
  rewrite (item_actions4_mix f video t w1 b Hs Hf). cbv beta iota.
  change (V4.position_of (V4.enter _ _ _)) with V4.Listing. cbv beta iota.
  destruct (listed (fetched w1)) as [es|] eqn:Hl.
  - assert (Hl' : listed (V4.search_results
                            (V4.enter (fetched w1)
                               (V4.mix_of (entry_id video))
                               (Some (V4.mix_of (entry_id video)))))
                  = Some es) by exact Hl.
    assert (Hs2 : exists s, selection cfg w2 = Some s
                            /\ (s = "Back" \/ s = ""))
      by (destruct Hback as [H | H]; eexists; split; eauto).
    destruct Hs2 as (s & Hs2 & Hor).
    rewrite (listing4_back cfg _ es w2 b s Hl' Hs2 Hor).
    cbn [V4.download_images V4.enter]. rewrite ?app_nil_r, <- ?app_assoc.
    reflexivity.
  - rewrite (listing4_stale cfg
               (V4.enter (fetched w1) (V4.mix_of (entry_id video))
                  (Some (V4.mix_of (entry_id video)))) w2 b Hl).
    rewrite ?app_nil_r, <- ?app_assoc. reflexivity.
Qed.

End Mix.

(** Mix on the first video of the second page, then Back. *)
Lemma mix_return_resets_the_window_sample :
  (V4.position_of Cases.at_actions4
   = V4.ItemActions Sample.numbered1 "First video"
   /\ Nav.action Sample.cfg (Sample.picks "x  Mix") = Some "Mix"
   /\ Nav.fetch_starts (Sample.picks "x  Mix") = true
   /\ Nav.selection Sample.cfg (Sample.picks "Back") = Some "Back")
  /\ Sample.run4 Sample.cfg [Sample.picks "x  Mix"; Sample.picks "Back"]
       [Cases.at_actions4] Sample.page2
     = (Browser.first_page 30,
        (Nav.actions4_log Sample.cfg
         ++ Nav.fetch_log (Sample.picks "x  Mix")
              (Browser.fetch_command Sample.cfg (V4.mix_of "a1") Sample.page2)
         ++ Nav.fetch_notice (Sample.picks "x  Mix")
         ++ Nav.menu_log Sample.cfg false Sample.batch V4.controls)%list,
        V4.Waiting [Cases.at_actions4]).
Proof.
  assert (H1 : V4.position_of Cases.at_actions4
               = V4.ItemActions Sample.numbered1 "First video")
    by reflexivity.
  assert (H2 : Nav.action Sample.cfg (Sample.picks "x  Mix") = Some "Mix")
    by (vm_compute; reflexivity).
  assert (H3 : Nav.fetch_starts (Sample.picks "x  Mix") = true)
    by reflexivity.
  assert (H4 : Nav.selection Sample.cfg (Sample.picks "Back") = Some "Back")
    by (vm_compute; reflexivity).
  split; [repeat split; assumption |].
  exact (mix_return_resets_the_window Sample.cfg Sample.sha
           "/home/user/.cache/yt-browser/playlists" "" "yt-browser"
           Cases.at_actions4 [] Sample.numbered1 "First video"
           (Sample.picks "x  Mix") (Sample.picks "Back") Sample.page2
           H1 H2 H3 (or_introl H4)).
Defined.

(** ** yt-browser2.py: autoplay *)

Section AutoplayFacts.

Import Py Browser Nav Autoplay.

Variable cfg : config.




(** X11.  yt-browser2.py with autoplay on, at the last entry of the
    page: after the player has ended the loop moves the window one page on
    and fetches once with it.  When the fetch brings a list that opens with
    an entry, autoplay goes on with that entry; when it brings no list, the
    action menu of the video just played is next, on a batch that the page
    menu will refuse, and the window stays moved. *)
Theorem autoplay_turns_the_page (f : V2.frame) (c : V2.chosen) (w : world)
    (g : V2.globals) :
  V2.AUTOPLAY_MODE g = true ->
  which w (PLAYER cfg) = true ->
  fetch_starts w = true ->
  Z.of_nat (List.length (V2.entries c)) <= V2.current_index c + 1 ->
  let g' :=
    V2.set_bounds (next_page (NO_OF_SEARCH_RESULTS cfg) (V2.bounds g)) g in
  exists r,
    V2.watching cfg f c w g
    = (g',
       (played cfg g c
        ++ [Print "End of current list. Fetching next page..."]
        ++ fetch_log w (fetch_command cfg (V2.url f) (V2.bounds g'))
        ++ fetch_notice w)%list,
       r)
    /\ match listed (fetched w) with
       | None =>
           r = inr (V2.Continue
                      (turned f (fetched w) (V2.download_images f)
                         (V2.ItemActions (moved_on c))))
       | Some [] =>
           r = inr (V2.Continue
                      (turned f (fetched w) false
                         (V2.ItemActions
                            {| V2.entries := []; V2.current_index := 0;
                               V2.video := V2.video c;
                               V2.vid_url := V2.vid_url c;
                               V2.clean_title := V2.clean_title c |})))
       | Some ((Some e :: _) as es) =>
           r = inr (V2.Continue
                      (turned f (fetched w) false
                         (V2.Watching (lined_up es 0 e))))
       | Some (None :: _) => True
       end.
Proof.
  intros Ha Hw Hf Hend g'. subst g'.
  unfold V2.watching, V2.run_yt_dlp, V2.page_size, played, turned, moved_on,
    lined_up.
  run_m. rewrite Ha. rewrite (proj2 (player_cmd_shape _ _ _ _)), Hw.
  cbv beta iota.
  destruct (Z.leb_spec (Z.of_nat (List.length (V2.entries c)))
              (V2.current_index c + 1)); [| lia].
  rewrite (run_yt_dlp_found cfg _ _ w _ Hf).
  destruct (listed (fetched w)) as [[|[e|] es]|]; cbn [List.length];
    try (destruct (Z.ltb_spec 0 (Z.of_nat (S (List.length es)))); [| lia]);
    cbn -[fetch_command fetch_log fetch_notice]; rewrite ?app_nil_r;
    eexists; split; reflexivity.
Qed.

End AutoplayFacts.


(** Autoplay at the last video of the sample page. *)
Lemma autoplay_turns_the_page_sample :
  (V2.AUTOPLAY_MODE Cases.autoplaying = true
   /\ Browser.which Sample.cancels (Browser.PLAYER Sample.cfg) = true
   /\ Nav.fetch_starts Sample.cancels = true
   /\ 2 <= 1 + 1)
  /\ exists r,
       V2.watching Sample.cfg Sample.at_actions2
         (Autoplay.lined_up (Nav.shown false Sample.batch) 1 Cases.numbered2)
         Sample.cancels Cases.autoplaying
       = (V2.set_bounds Sample.page2 Cases.autoplaying,
          [Browser.Print "Now playing: Second video";
           Browser.Run ["mpv"; "https://youtu.be/b2"];
           Browser.Print "End of current list. Fetching next page...";
           Browser.Stderr ("Loading..." ++ Py.nl);
           Browser.Run
             (Browser.fetch_command Sample.cfg Sample.search Sample.page2)],
          r)
       /\ r = inr (V2.Continue
                     (Autoplay.turned Sample.at_actions2 Sample.found false
                        (V2.Watching
                           (Autoplay.lined_up Sample.batch 0
                              Sample.video1)))).
Proof.
  assert (H1 : V2.AUTOPLAY_MODE Cases.autoplaying = true) by reflexivity.
  assert (H2 : Browser.which Sample.cancels (Browser.PLAYER Sample.cfg)
               = true) by reflexivity.
  assert (H3 : Nav.fetch_starts Sample.cancels = true) by reflexivity.
  assert (H4 : 2 <= 1 + 1) by lia.
  split; [repeat split; assumption |].
  exact (autoplay_turns_the_page Sample.cfg Sample.at_actions2
           (Autoplay.lined_up (Nav.shown false Sample.batch) 1
              Cases.numbered2)
           Sample.cancels Cases.autoplaying H1 H2 H3 H4).
Defined.

(** ** yt-browser4.py: the players *)

Section PlayerFacts.

Import Py Browser Nav Players.

Variable cfg : config.
Variable generate_sha256 : string -> string.
Variables CLI_AUTO_GEN_PLAYLISTS CLI_HEADER CLI_NAME : string.


(** X7.  yt-browser4.py with a player other than mpv: Listen asks
    [yt-dlp] for the audio address and then starts no player at all, and
    with a player that is neither mpv nor vlc Watch on a video that is no
    mix does the same with the video address; either way the video is
    recorded as recently played and the action menu comes back. *)
Theorem other_players_play_nothing (f : V4.frame) (video : entry)
    (t : string) (w : world) (b : window) (s : string) :
  action cfg w = Some s ->
  PLAYER cfg <> "mpv" ->
  which w "yt-dlp" = true ->
  (s = "Listen"
   \/ (s = "Watch" /\ PLAYER cfg <> "vlc"
       /\ contains "list=RD" (entry_url video) = false)) ->
  exists log,
    V4.item_actions cfg generate_sha256 CLI_AUTO_GEN_PLAYLISTS CLI_HEADER
      CLI_NAME f video t w b
    = (b, (actions4_log cfg ++ log ++ recent_log cfg video)%list,
       inr (V4.Continue f))
    /\ popens (actions4_log cfg ++ log ++ recent_log cfg video) = []
    /\ log
       = if String.eqb s "Listen" then
           [Print ("Now Listening to: " ++ t);
            Run (V4.get_url (entry_url video) "bestaudio/best")]
         else
           [Print ("Now watching: " ++ t);
            Run (V4.get_url (entry_url video) (watch_format cfg))].
Proof.
  intros Hs Hp Hy Hcase. apply eqb_false_of_neq in Hp.
  assert (Hf : V4.Continue
                 {| V4.search_results := V4.search_results f;
                    V4.url := V4.url f; V4.urlForAll := V4.urlForAll f;
                    V4.download_images := V4.download_images f;
                    V4.enumerate_playlist := V4.enumerate_playlist f;
                    V4.position_of := V4.position_of f |}
               = V4.Continue f) by (destruct f; reflexivity).
  destruct Hcase as [-> | (-> & Hv & Hm)].
  - eexists. split; [| split; [| reflexivity]].
    + unfold V4.item_actions, V4.listen, V4.update_recent,
        V4.update_json_list, V4.launcher, V4.byebye, V4.resolves_first,
        actions4_log, recent_log.
      run_m. action_answered cfg w b Hs. rewrite Hs.
      unfold member, existsb. decide_eqb. cbn [orb]. cbv beta iota.
      rewrite Hp. cbn [negb orb hd V4.get_url]. cbv beta iota.
      rewrite Hy. cbv beta iota.
      destruct (String.eqb (UPDATE_RECENT cfg) "true"); cbn [negb];
        cbv beta iota; rewrite Hf; close_log.
    + unfold actions4_log, recent_log.
      destruct (String.eqb (UPDATE_RECENT cfg) "true"); reflexivity.
  - apply eqb_false_of_neq in Hv.
    eexists. split; [| split; [| reflexivity]].
    + unfold V4.item_actions, V4.watch, V4.update_recent,
        V4.update_json_list, V4.launcher, V4.byebye, V4.resolves_first,
        actions4_log, recent_log, watch_format.
      run_m. action_answered cfg w b Hs. rewrite Hs.
      unfold member, existsb. decide_eqb. cbn [orb]. cbv beta iota.
      rewrite Hm, Hp, Hv. cbn [negb orb hd V4.get_url]. cbv beta iota.
      rewrite Hy. cbv beta iota.
      destruct (String.eqb (strip (get_url_stdout w)) "");
        destruct (String.eqb (UPDATE_RECENT cfg) "true"); cbn [negb];
        cbv beta iota; rewrite Hf; close_log.
    + unfold actions4_log, recent_log.
      destruct (String.eqb (UPDATE_RECENT cfg) "true"); reflexivity.
Qed.

End PlayerFacts.

(** Listen with vlc on the first video of the sample page. *)
Lemma other_players_play_nothing_sample :
  (Nav.action (Sample.with_player "vlc" Sample.cfg)
     (Sample.picks "x  Listen") = Some "Listen"
   /\ Browser.PLAYER (Sample.with_player "vlc" Sample.cfg) <> "mpv"
   /\ Browser.which (Sample.picks "x  Listen") "yt-dlp" = true)
  /\ exists log,
       V4.item_actions (Sample.with_player "vlc" Sample.cfg) Sample.sha
         "/home/user/.cache/yt-browser/playlists" "" "yt-browser"
         Cases.at_actions4 Sample.numbered1 "First video"
         (Sample.picks "x  Listen") Sample.page2
       = (Sample.page2,
          (Nav.actions4_log (Sample.with_player "vlc" Sample.cfg) ++ log
           ++ [Browser.UpdateJsonList "recent.json" Sample.numbered1 true
                 (Some 30)])%list,
          inr (V4.Continue Cases.at_actions4))
       /\ Nav.popens
            (Nav.actions4_log (Sample.with_player "vlc" Sample.cfg) ++ log
             ++ [Browser.UpdateJsonList "recent.json" Sample.numbered1 true
                   (Some 30)]) = []
       /\ log
          = [Browser.Print "Now Listening to: First video";
             Browser.Run
               ["yt-dlp"; "https://youtu.be/a1"; "-q"; "--no-warnings";
                "--get-url"; "--format"; "bestaudio/best"]].
Proof.
  assert (H1 : Nav.action (Sample.with_player "vlc" Sample.cfg)
                 (Sample.picks "x  Listen") = Some "Listen")
    by (vm_compute; reflexivity).
  assert (H2 : Browser.PLAYER (Sample.with_player "vlc" Sample.cfg) <> "mpv")
    by discriminate.
  assert (H3 : Browser.which (Sample.picks "x  Listen") "yt-dlp" = true)
    by reflexivity.
  split; [repeat split; assumption |].
  exact (other_players_play_nothing (Sample.with_player "vlc" Sample.cfg)
           Sample.sha "/home/user/.cache/yt-browser/playlists" ""
           "yt-browser" Cases.at_actions4 Sample.numbered1 "First video"
           (Sample.picks "x  Listen") Sample.page2 "Listen" H1 H2 H3
           (or_introl eq_refl)).
Defined.

(** ** What the start-up check buys *)

Section Checked.

Import Py Browser Nav.

Variable cfg : config.





End Checked.


(** ** The saved and the recent videos *)

Section StoreFacts.

Import Py Builtins Browser Store.

Lemma others_others (video : entry) (l : list entry) :
  others video (others video l) = others video l.
Proof.
  unfold others. induction l as [|e l IH]; [reflexivity |].
  cbn [filter].
  destruct (negb (String.eqb (entry_id e) (entry_id video))) eqn:E;
    cbn [filter]; rewrite ?E, IH; reflexivity.
Qed.

Lemma others_app (video : entry) (a b : list entry) :
  others video (a ++ b) = (others video a ++ others video b)%list.
Proof. apply filter_app. Qed.

Lemma others_copy (video : entry) : others video [video_copy video] = [].
Proof.
  unfold others, video_copy. cbn [filter entry_id].
  now rewrite String.eqb_refl.
Qed.

(** Without a limit, [update_json_list] writes the other entries in their
    order, followed by the copy when it adds. *)
Lemma update_unbounded (data : option (list entry)) (video : entry)
    (add : bool) :
  update_json_list data video add None
  = (others video (load data)
     ++ (if add then [video_copy video] else []))%list.
Proof.
  unfold update_json_list, others, load.
  destruct add; [reflexivity | now rewrite app_nil_r].
Qed.

(** With a limit, it writes a final part of that. *)
Lemma update_bounded (data : option (list entry)) (video : entry)
    (add : bool) (limit : Z) :
  update_json_list data video add (Some limit)
  = let all := update_json_list data video add None in
    if (negb (limit =? 0) && (limit <? Z.of_nat (List.length all)))%bool
    then slice_from (- limit) all
    else all.
Proof. reflexivity. Qed.

Lemma slice_from_last (n : Z) (l : list entry) :
  1 <= n < Z.of_nat (List.length l) ->
  slice_from (- n) l = skipn (List.length l - Z.to_nat n) l
  /\ List.length (slice_from (- n) l) = Z.to_nat n.
Proof.
  intros H. unfold slice_from.
  destruct (Z.ltb_spec (- n) 0); [| lia].
  replace (Z.to_nat (Z.max 0 (- n + Z.of_nat (List.length l))))
    with (List.length l - Z.to_nat n)%nat by lia.
  split; [reflexivity |]. rewrite length_skipn. lia.
Qed.

Lemma skipn_all_app {A} (k : nat) (a b : list A) :
  (k <= List.length a)%nat -> skipn k (a ++ b) = (skipn k a ++ b)%list.
Proof.
  intros H. rewrite skipn_app.
  replace (k - List.length a)%nat with 0%nat by lia. reflexivity.
Qed.

(** X14.  [update_recent] with [UPDATE_RECENT] on and a positive
    [NO_OF_RECENT]: the list written ends with the copy of the video, holds
    at most [NO_OF_RECENT] entries, and before the copy come the latest of
    the other entries in their order; an older entry is dropped only when
    the list is full. *)
Theorem recent_keeps_the_latest (cfg : config) (data : option (list entry))
    (video : entry) :
  UPDATE_RECENT cfg = "true" ->
  1 <= NO_OF_RECENT cfg ->
  exists dropped kept,
    update_recent cfg data video = Some (kept ++ [video_copy video])%list
    /\ others video (load data) = (dropped ++ kept)%list
    /\ Z.of_nat (List.length kept) + 1 <= NO_OF_RECENT cfg
    /\ (dropped <> [] ->
        Z.of_nat (List.length kept) + 1 = NO_OF_RECENT cfg).
Proof.
  intros Hon Hn. unfold update_recent. rewrite Hon. decide_eqb.
  cbn [negb]. rewrite update_bounded, update_unbounded. cbv zeta.
  set (rest := others video (load data)).
  rewrite length_app. cbn [List.length].
  destruct (Z.eqb_spec (NO_OF_RECENT cfg) 0) as [E|_]; [lia |].
  cbn [negb andb].
  destruct (Z.ltb_spec (NO_OF_RECENT cfg)
              (Z.of_nat (List.length rest + 1))) as [Hlt|Hge].
  - destruct (slice_from_last (NO_OF_RECENT cfg) (rest ++ [video_copy video]))
      as [-> _]; [rewrite length_app; cbn [List.length]; lia |].
    rewrite length_app. cbn [List.length].
    set (k := (List.length rest + 1 - Z.to_nat (NO_OF_RECENT cfg))%nat).
    rewrite skipn_all_app by lia.
    exists (firstn k rest), (skipn k rest).
    rewrite firstn_skipn, length_skipn.
    repeat split; try reflexivity; lia.
  - exists [], rest. repeat split; try reflexivity; try lia.
    intros H. now contradiction H.
Qed.

Lemma others_ids (video : entry) (l : list entry) :
  ~ In (entry_id video) (map entry_id (others video l)).
Proof.
  unfold others. intros H. apply in_map_iff in H.
  destruct H as (e & He & Hin). apply filter_In in Hin.
  destruct Hin as [_ Hin]. rewrite He, String.eqb_refl in Hin.
  discriminate.
Qed.

Lemma NoDup_others (video : entry) (l : list entry) :
  NoDup (map entry_id l) -> NoDup (map entry_id (others video l)).
Proof.
  unfold others. induction l as [|e l IH]; intros H; [constructor |].
  cbn [map] in H. apply NoDup_cons_iff in H. destruct H as [Hn Hl].
  cbn [filter].
  destruct (negb (String.eqb (entry_id e) (entry_id video)));
    [| now apply IH].
  cbn [map]. constructor; [| now apply IH].
  intros Hin. apply Hn. apply in_map_iff in Hin.
  destruct Hin as (x & Hx & Hin). apply filter_In in Hin.
  apply in_map_iff. exists x. tauto.
Qed.

Lemma NoDup_skipn {A} (k : nat) (l : list A) : NoDup l -> NoDup (skipn k l).
Proof.
  intros H. rewrite <- (firstn_skipn k l) in H.
  now apply NoDup_app_remove_l in H.
Qed.

Lemma slice_from_skipn {A} (start : Z) (l : list A) :
  exists k, slice_from start l = skipn k l.
Proof. unfold slice_from. eexists. reflexivity. Qed.

(** X15.  [update_json_list] keeps the ids of a list distinct: when no
    two stored entries share an id, no two written entries do, whether the
    video is added or removed and whatever the limit. *)
Theorem saved_ids_stay_distinct (data : option (list entry))
    (video : entry) (add : bool) (limit : option Z) :
  NoDup (map entry_id (load data)) ->
  NoDup (map entry_id (update_json_list data video add limit)).
Proof.
  intros H.
  assert (Hall : NoDup (map entry_id (update_json_list data video add None))).
  { rewrite update_unbounded, map_app.
    apply NoDup_app.
    - now apply NoDup_others.
    - destruct add; repeat constructor. intros [].
    - intros x Hx Hin. destruct add; [| destruct Hin].
      destruct Hin as [<- | []]. exact (others_ids _ _ Hx). }
  destruct limit as [n|]; [| exact Hall].
  rewrite update_bounded. cbv zeta.
  destruct (negb (n =? 0) && _)%bool; [| exact Hall].
  destruct (slice_from_skipn (- n) (update_json_list data video add None))
    as (k & ->).
  rewrite <- skipn_map. now apply NoDup_skipn.
Qed.

(** X16.  Save and UnSave, that is [update_json_list] on
    [saved_videos.json] with and without [add]: UnSave after Save leaves
    the other entries in their order, so it restores a list that did not
    hold the video; Save after Save writes what one Save writes, with the
    video last and its title freed of the number of the page menu. *)
Theorem save_and_unsave_compose (data : option (list entry))
    (video : entry) :
  let saved := update_json_list data video true None in
  update_json_list (Some saved) video false None = others video (load data)
  /\ (~ In (entry_id video) (map entry_id (load data)) ->
      update_json_list (Some saved) video false None = load data)
  /\ update_json_list (Some saved) video true None = saved
  /\ saved = (others video (load data) ++ [video_copy video])%list
  /\ title (video_copy video) = Re.sub_number (title video).
Proof.
  cbv zeta. rewrite !update_unbounded. cbn [load].
  rewrite others_app, others_others, others_copy, !app_nil_r.
  repeat split; try reflexivity.
  intros Hnew. unfold others.
  induction (load data) as [|e l IH]; [reflexivity |].
  cbn [map In] in Hnew. cbn [filter].
  destruct (String.eqb_spec (entry_id e) (entry_id video)) as [E|_].
  - contradiction Hnew. now left.
  - cbn [negb]. rewrite IH; [reflexivity |]. tauto.
Qed.

(** X17.  The limit of [update_json_list] at its edges: zero bounds
    nothing, and a negative limit [-k] drops the [k] oldest entries at every
    write, the added video with them when there are no more. *)
Theorem limit_zero_and_negative (data : option (list entry))
    (video : entry) (add : bool) (k : Z) :
  1 <= k ->
  update_json_list data video add (Some 0)
  = update_json_list data video add None
  /\ update_json_list data video add (Some (- k))
     = skipn (Z.to_nat k) (update_json_list data video add None)
  /\ update_json_list None video true (Some (- k)) = [].
Proof.
  intros Hk. rewrite !update_bounded. cbv zeta.
  assert (Hneg : forall l : list entry,
             (if (negb (- k =? 0) && (- k <? Z.of_nat (List.length l)))%bool
              then slice_from (- - k) l else l)
             = skipn (Z.to_nat k) l).
  { intros l.
    destruct (Z.eqb_spec (- k) 0); [lia |].
    destruct (Z.ltb_spec (- k) (Z.of_nat (List.length l))); [| lia].
    cbn [negb andb]. unfold slice_from.
    destruct (Z.ltb_spec (- - k) 0); [lia |].
    destruct (Z.min_spec (- - k) (Z.of_nat (List.length l)))
      as [[_ ->] | [Hle ->]].
    - f_equal. lia.
    - rewrite Nat2Z.id, skipn_all. symmetry. apply skipn_all2. lia. }
  split; [reflexivity |]. split; [apply Hneg |].
  rewrite Hneg, update_unbounded. cbn [load others filter app].
  destruct (Z.to_nat k) as [|n] eqn:E; [lia |]. cbn [skipn].
  now destruct n.
Qed.

End StoreFacts.

(** The recent list of the sample configuration, full with thirty
    entries. *)
Lemma recent_keeps_the_latest_sample :
  (Browser.UPDATE_RECENT Sample.cfg = "true"
   /\ 1 <= Browser.NO_OF_RECENT Sample.cfg)
  /\ exists dropped kept,
       Store.update_recent Sample.cfg
         (Some Cases.thirty)
         Sample.numbered1
       = Some (kept ++ [Store.video_copy Sample.numbered1])%list
       /\ Store.others Sample.numbered1
            (Store.load (Some Cases.thirty))
          = (dropped ++ kept)%list
       /\ Z.of_nat (List.length kept) + 1 <= 30
       /\ (dropped <> [] -> Z.of_nat (List.length kept) + 1 = 30).
Proof.
  split; [split; [reflexivity | simpl; lia] |].
  apply (recent_keeps_the_latest Sample.cfg
           (Some Cases.thirty)
           Sample.numbered1); [reflexivity | simpl; lia].
Defined.

(** The ids of the sample page stay distinct when its first video is
    saved once more. *)
Lemma saved_ids_stay_distinct_sample :
  NoDup (map Browser.entry_id
           (Store.load (Some [Sample.video1; Sample.video2])))
  /\ NoDup (map Browser.entry_id
              (Store.update_json_list (Some [Sample.video1; Sample.video2])
                 Sample.numbered1 true None)).
Proof.
  assert (H : NoDup (map Browser.entry_id
                       (Store.load (Some [Sample.video1; Sample.video2])))).
  { cbn [Store.load map]. constructor; [| constructor; [| constructor]].
    - intros [H | []]. discriminate H.
    - intros []. }
  split; [exact H |].
  exact (saved_ids_stay_distinct (Some [Sample.video1; Sample.video2])
           Sample.numbered1 true None H).
Defined.

(** Save and UnSave of a video that the list does not hold. *)
Lemma save_and_unsave_compose_sample :
  ~ In (Browser.entry_id Sample.numbered1)
      (map Browser.entry_id (Store.load (Some [Sample.video2])))
  /\ Store.update_json_list
       (Some (Store.update_json_list (Some [Sample.video2])
                Sample.numbered1 true None))
       Sample.numbered1 false None
     = [Sample.video2]
  /\ Store.update_json_list (Some [Sample.video2]) Sample.numbered1 true None
     = [Sample.video2; Sample.video1].
Proof.
  assert (H : ~ In (Browser.entry_id Sample.numbered1)
                (map Browser.entry_id (Store.load (Some [Sample.video2]))))
    by (simpl; intros [H | H]; [discriminate H | exact H]).
  split; [exact H |].
  destruct (save_and_unsave_compose (Some [Sample.video2]) Sample.numbered1)
    as (_ & Hback & _ & Hsaved & _).
  split; [exact (Hback H) | exact Hsaved].
Defined.

(** A limit of minus one on an empty list. *)
Lemma limit_zero_and_negative_sample :
  1 <= 1
  /\ Store.update_json_list None Sample.numbered1 true (Some 0)
     = Store.update_json_list None Sample.numbered1 true None
  /\ Store.update_json_list None Sample.numbered1 true (Some (- (1)))
     = skipn (Z.to_nat 1)
         (Store.update_json_list None Sample.numbered1 true None)
  /\ Store.update_json_list None Sample.numbered1 true (Some (- (1))) = [].
Proof.
  split; [lia |].
  apply (limit_zero_and_negative None Sample.numbered1 true 1). lia.
Defined.

(** ** Saving from the action menu *)

Section SavedFromTheMenu.

Import Py Browser Nav Store.

Variable cfg : config.
Variable generate_sha256 : string -> string.
Variables CLI_AUTO_GEN_PLAYLISTS CLI_HEADER CLI_NAME : string.

(** Save and UnSave in the action menu: one call of [update_json_list] on
    [saved_videos.json], without a limit. *)
Lemma item_actions4_save (f : V4.frame) (video : entry) (t : string)
    (w : world) (b : window) (s : string) :
  action cfg w = Some s ->
  s = "Save" \/ s = "UnSave" ->
  V4.item_actions cfg generate_sha256 CLI_AUTO_GEN_PLAYLISTS CLI_HEADER
    CLI_NAME f video t w b
  = (b,
     (actions4_log cfg
      ++ [UpdateJsonList "saved_videos.json" video (String.eqb s "Save")
            None])%list,
     inr (V4.Continue f)).
Proof.
  intros Hs Hor.
  assert (Hf : V4.Continue
                 {| V4.search_results := V4.search_results f;
                    V4.url := V4.url f; V4.urlForAll := V4.urlForAll f;
                    V4.download_images := V4.download_images f;
                    V4.enumerate_playlist := V4.enumerate_playlist f;
                    V4.position_of := V4.position_of f |}
               = V4.Continue f) by (destruct f; reflexivity).
  destruct Hor as [-> | ->];
    unfold V4.item_actions, V4.update_json_list, V4.launcher, V4.byebye,
      actions4_log;
    run_m; action_answered cfg w b Hs; rewrite Hs;
    unfold member, existsb; decide_eqb; cbn [orb]; cbv beta iota;
    rewrite Hf; close_log.
Qed.

(** X9.  yt-browser4.py: Save in the action menu of a video puts its
    copy last in [saved_videos.json], after the entries with other ids;
    UnSave right after it leaves exactly those entries; neither touches
    another list or the window. *)
Theorem saved_from_the_menu (f : V4.frame) (video : entry) (t : string)
    (w1 w2 : world) (b : window) (fs : files) :
  V4.position_of f = V4.ItemActions video t ->
  action cfg w1 = Some "Save" ->
  action cfg w2 = Some "UnSave" ->
  let run answers :=
    V4.run cfg generate_sha256 CLI_AUTO_GEN_PLAYLISTS CLI_HEADER CLI_NAME
      answers [f] b in
  let before := others video (load (fs "saved_videos.json")) in
  replay (snd (fst (run [w1]))) fs "saved_videos.json"
  = Some (before ++ [video_copy video])%list
  /\ replay (snd (fst (run [w1; w2]))) fs "saved_videos.json" = Some before
  /\ (forall name, name <> "saved_videos.json" ->
                   replay (snd (fst (run [w1; w2]))) fs name = fs name)
  /\ run [w1; w2] = (b, snd (fst (run [w1; w2])), V4.Waiting [f]).
Proof.
  intros Hp Hs1 Hs2 run before. subst run before.
  cbn [V4.run]. unfold V4.step. run_m. rewrite Hp.
  rewrite (item_actions4_save f video t w1 b "Save" Hs1 (or_introl eq_refl)).
  cbv beta iota. rewrite Hp.
  rewrite (item_actions4_save f video t w2 b "UnSave" Hs2
             (or_intror eq_refl)).
  cbv beta iota. decide_eqb. cbn [fst snd].
  rewrite ?app_nil_r.
  unfold actions4_log, replay. cbn [app fold_left perform].
  rewrite !String.eqb_refl.
  split; [| split; [| split]].
  - now rewrite update_unbounded.
  - rewrite !update_unbounded. cbn [load].
    now rewrite others_app, others_others, others_copy, !app_nil_r.
  - intros name Hn. apply eqb_false_of_neq in Hn. now rewrite Hn.
  - reflexivity.
Qed.

End SavedFromTheMenu.

(** Save and UnSave on the first video of the sample page. *)
Lemma saved_from_the_menu_sample :
  (V4.position_of Cases.at_actions4
   = V4.ItemActions Sample.numbered1 "First video"
   /\ Nav.action Sample.cfg (Sample.picks "x  Save") = Some "Save"
   /\ Nav.action Sample.cfg (Sample.picks "x  UnSave") = Some "UnSave")
  /\ Store.replay
       (snd (fst (Sample.run4 Sample.cfg [Sample.picks "x  Save"]
                    [Cases.at_actions4] Sample.page2)))
       (fun _ => Some [Sample.video2]) "saved_videos.json"
     = Some [Sample.video2; Sample.video1]
  /\ Store.replay
       (snd (fst (Sample.run4 Sample.cfg
                    [Sample.picks "x  Save"; Sample.picks "x  UnSave"]
                    [Cases.at_actions4] Sample.page2)))
       (fun _ => Some [Sample.video2]) "saved_videos.json"
     = Some [Sample.video2].
Proof.
  assert (H1 : V4.position_of Cases.at_actions4
               = V4.ItemActions Sample.numbered1 "First video")
    by reflexivity.
  assert (H2 : Nav.action Sample.cfg (Sample.picks "x  Save") = Some "Save")
    by (vm_compute; reflexivity).
  assert (H3 : Nav.action Sample.cfg (Sample.picks "x  UnSave")
               = Some "UnSave") by (vm_compute; reflexivity).
  split; [repeat split; assumption |].
  destruct (saved_from_the_menu Sample.cfg Sample.sha
              "/home/user/.cache/yt-browser/playlists" "" "yt-browser"
              Cases.at_actions4 Sample.numbered1 "First video"
              (Sample.picks "x  Save") (Sample.picks "x  UnSave")
              Sample.page2 (fun _ => Some [Sample.video2]) H1 H2 H3)
    as (A & B & _).
  split; [exact A | exact B].
Defined.

(** ** Strings, continued *)

Section MoreStrings.

Import Py Builtins.

Lemma every_app (p : ascii -> bool) (a b : string) :
  every p (a ++ b) = (every p a && every p b)%bool.
Proof.
  induction a as [|c a IH]; cbn [append every]; [reflexivity |].
  now rewrite IH, andb_assoc.
Qed.

Lemma every_rev (p : ascii -> bool) (s : string) :
  every p (rev s) = every p s.
Proof.
  induction s as [|c s IH]; [reflexivity |].
  change (String c s) with (String c "" ++ s) at 1.
  rewrite rev_app, every_app, IH. cbn [every rev rev_onto].
  now rewrite andb_true_r, andb_comm.
Qed.

Lemma every_lstrip (p : ascii -> bool) (s : string) :
  every p s = true -> every p (lstrip s) = true.
Proof.
  induction s as [|c s IH]; intros H; [reflexivity |].
  cbn [lstrip]. destruct (is_space c); [| exact H].
  cbn [every] in H. apply andb_prop in H. now apply IH.
Qed.

Lemma every_strip (p : ascii -> bool) (s : string) :
  every p s = true -> every p (strip s) = true.
Proof.
  intros H. unfold strip, rstrip.
  rewrite every_rev. apply every_lstrip. rewrite every_rev.
  now apply every_lstrip.
Qed.

(** [lstrip] leaves nothing, or a string that opens with no white
    space. *)
Lemma lstrip_shape (s : string) :
  lstrip s = ""
  \/ exists c r, lstrip s = String c r /\ is_space c = false.
Proof.
  induction s as [|c s IH]; [now left |].
  cbn [lstrip]. destruct (is_space c) eqn:E; [exact IH |].
  right. now exists c, s.
Qed.

Lemma lstrip_keeps_last (m : string) (c : ascii) :
  is_space c = false ->
  exists m', lstrip (m ++ String c "") = m' ++ String c "".
Proof.
  intros H. induction m as [|x m IH]; cbn [append lstrip].
  - rewrite H. now exists "".
  - destruct (is_space x); [exact IH |]. now exists (String x m).
Qed.

(** [strip] leaves nothing, or a string with no white space at either
    end; so it changes nothing the second time. *)
Lemma strip_shape (s : string) :
  strip s = ""
  \/ exists c r m d,
       strip s = String c r /\ String c r = m ++ String d ""
       /\ is_space c = false /\ is_space d = false.
Proof.
  unfold strip.
  destruct (lstrip_shape s) as [-> | (c & r & -> & Hc)]; [now left |].
  right. unfold rstrip.
  change (String c r) with (String c "" ++ r) at 1.
  rewrite rev_app. change (rev (String c "")) with (String c "").
  destruct (lstrip_keeps_last (rev r) c Hc) as (m' & E). rewrite E.
  destruct (lstrip_shape (rev r ++ String c "")) as [Z | (d & q & Z & Hd)];
    rewrite E in Z.
  - destruct m'; discriminate.
  - exists c, (rev m'), (rev q), d.
    rewrite rev_app. change (rev (String c "")) with (String c "").
    cbn [append]. repeat split; try assumption.
    rewrite <- (rev_involutive (String c (rev m'))).
    change (String c (rev m')) with (String c "" ++ rev m').
    rewrite rev_app, rev_involutive.
    change (rev (String c "")) with (String c ""). rewrite Z.
    change (String d q) with (String d "" ++ q).
    now rewrite rev_app.
Qed.

Lemma strip_strip (s : string) : strip (strip s) = strip s.
Proof.
  destruct (strip_shape s) as [-> | (c & r & m & d & -> & E & Hc & Hd)];
    [reflexivity |].
  now apply (strip_fixed c d r m).
Qed.

End MoreStrings.

(** ** The lines of the history file *)

Section HistoryLines.

Import Py Builtins Searching.

Lemma every_weaken (p q : ascii -> bool) (s : string) :
  (forall c, p c = true -> q c = true) ->
  every p s = true -> every q s = true.
Proof.
  intros H. induction s as [|c s IH]; cbn [every]; [reflexivity |].
  intros Hs. apply andb_prop in Hs. destruct Hs as [Hc Hs].
  now rewrite (H c Hc), IH.
Qed.

(** The pieces of [split_on] keep what every character had, and none of
    them has the separator. *)
Lemma split_on_every (p : ascii -> bool) (sep : ascii) (s : string) :
  every p s = true ->
  Forall (fun l => every (fun c => p c && negb (Ascii.eqb c sep))%bool l
                   = true)
    (split_on sep s).
Proof.
  induction s as [|c s IH]; intros H; cbn [split_on].
  - repeat constructor.
  - cbn [every] in H. apply andb_prop in H. destruct H as [Hc Hs].
    specialize (IH Hs).
    destruct (Ascii.eqb c sep) eqn:E; [constructor; [reflexivity | exact IH] |].
    destruct (split_on sep s) as [|w ws]; constructor.
    + cbn [every]. now rewrite Hc, E.
    + constructor.
    + apply Forall_inv in IH. cbn [every]. now rewrite Hc, E, IH.
    + now apply Forall_inv_tail in IH.
Qed.

Lemma universal_newlines_no_return (s : string) :
  every (fun c => negb (Nat.eqb (code c) 13)) (universal_newlines s) = true.
Proof.
  assert (H : forall n s, (String.length s <= n)%nat ->
              every (fun c => negb (Nat.eqb (code c) 13))
                (universal_newlines s) = true).
  { clear s. induction n as [|n IH]; intros s Hn.
    - destruct s; [reflexivity | cbn [String.length] in Hn; lia].
    - destruct s as [|c r]; [reflexivity |].
      cbn [String.length] in Hn. cbn [universal_newlines].
      destruct (Nat.eqb (code c) 13) eqn:E.
      + destruct r as [|d r']; [reflexivity |].
        cbn [String.length] in Hn.
        destruct (Nat.eqb (code d) 10); cbn [every];
          rewrite IH by (cbn [String.length]; lia); reflexivity.
      + cbn [every]. rewrite E, IH by lia. reflexivity. }
  apply (H (String.length s)). lia.
Qed.

Lemma universal_newlines_fixed (s : string) :
  every (fun c => negb (Nat.eqb (code c) 13)) s = true ->
  universal_newlines s = s.
Proof.
  induction s as [|c s IH]; intros H; [reflexivity |].
  cbn [every] in H. apply andb_prop in H. destruct H as [Hc Hs].
  cbn [universal_newlines].
  destruct (Nat.eqb (code c) 13); [discriminate |]. now rewrite IH.
Qed.

Lemma one_line_parts (s : string) :
  one_line s = true
  <-> every (fun c => negb (Nat.eqb (code c) 13)) s = true
      /\ every (fun c => negb (Ascii.eqb c line_feed)) s = true.
Proof.
  unfold one_line. induction s as [|c s IH]; cbn [every].
  - tauto.
  - rewrite !andb_true_iff, IH.
    assert (E : Ascii.eqb c line_feed = Nat.eqb (code c) 10).
    { destruct (Ascii.eqb_spec c line_feed) as [-> | Hn]; [reflexivity |].
      symmetry. apply Nat.eqb_neq. intros Hc. apply Hn.
      unfold code in Hc. rewrite <- (ascii_nat_embedding c), Hc.
      reflexivity. }
    rewrite E.
    destruct (Nat.eqb (code c) 10), (Nat.eqb (code c) 13); cbn; tauto.
Qed.

(** Every line of the history is one line, is not empty and has no white
    space at either end. *)
Lemma history_lines_clean (text : string) :
  Forall (fun l => one_line l = true /\ strip l = l /\ l <> "")
    (history_lines text).
Proof.
  unfold history_lines, file_lines.
  pose proof (split_on_every _ line_feed _
                (universal_newlines_no_return text)) as H.
  induction H as [|l ls Hl _ IH]; cbn [map filter]; [constructor |].
  destruct (String.eqb_spec (strip l) "") as [E|E]; cbn [negb];
    [exact IH |].
  constructor; [| exact IH].
  split; [| split; [apply strip_strip | exact E]].
  apply one_line_parts.
  split; apply every_strip; refine (every_weaken _ _ l _ Hl); intros c;
    cbv beta; now destruct (Nat.eqb (code c) 13), (Ascii.eqb c line_feed).
Qed.

Lemma split_on_first (sep : ascii) (l rest : string) :
  every (fun c => negb (Ascii.eqb c sep)) l = true ->
  split_on sep (l ++ String sep rest) = l :: split_on sep rest.
Proof.
  induction l as [|c l IH]; intros H; cbn [append split_on].
  - now rewrite Ascii.eqb_refl.
  - cbn [every] in H. apply andb_prop in H. destruct H as [Hc Hl].
    apply negb_true_iff in Hc. rewrite Hc, (IH Hl). reflexivity.
Qed.

(** Lines written with a line feed after each come back as they were,
    followed by the empty piece after the last line feed. *)
Lemma split_on_join (ls : list string) :
  ls <> [] ->
  Forall (fun l => every (fun c => negb (Ascii.eqb c line_feed)) l = true)
    ls ->
  split_on line_feed (join nl ls ++ nl) = (ls ++ [""])%list.
Proof.
  intros Hne H. unfold join, nl. fold line_feed.
  induction H as [|l ls Hl Hls IH]; [now contradiction Hne |].
  destruct ls as [|l' ls'].
  - cbn [String.concat app]. now rewrite split_on_first.
  - change (String.concat (String line_feed "") (l :: l' :: ls'))
      with (l ++ String line_feed ""
            ++ String.concat (String line_feed "") (l' :: ls')).
    rewrite !append_assoc. cbn [append].
    rewrite split_on_first by exact Hl.
    change (String line_feed "") with (String line_feed "") in IH.
    rewrite IH by discriminate. reflexivity.
Qed.

Lemma every_join (p : ascii -> bool) (ls : list string) :
  p line_feed = true ->
  Forall (fun l => every p l = true) ls ->
  every p (join nl ls ++ nl) = true.
Proof.
  intros Hp H. unfold join, nl. fold line_feed. rewrite every_app.
  cbn [every]. rewrite Hp, andb_true_r. cbn [andb].
  induction H as [|l ls Hl Hls IH]; [reflexivity |].
  destruct ls as [|l' ls']; [exact Hl |].
  change (String.concat (String line_feed "") (l :: l' :: ls'))
    with (l ++ String line_feed ""
          ++ String.concat (String line_feed "") (l' :: ls')).
  rewrite every_app. cbn [append every]. now rewrite Hl, Hp, IH.
Qed.

(** The history that was written is the history that is read. *)
Lemma history_lines_written (ls : list string) :
  ls <> [] ->
  Forall (fun l => one_line l = true /\ strip l = l /\ l <> "") ls ->
  history_lines (join nl ls ++ nl) = ls.
Proof.
  intros Hne H. unfold history_lines, file_lines.
  rewrite universal_newlines_fixed.
  - rewrite split_on_join; [| exact Hne |].
    + rewrite map_app, filter_app. cbn [map filter].
      change (strip "") with "". cbn [String.eqb negb]. rewrite app_nil_r.
      induction H as [|l ls (_ & Hs & Hn) _ IH]; [reflexivity |].
      cbn [map filter]. rewrite Hs.
      apply eqb_false_of_neq in Hn. rewrite Hn. cbn [negb].
      destruct ls as [|l' ls']; [reflexivity |].
      now rewrite IH by discriminate.
    + refine (Forall_impl _ _ H). intros l (Hl & _).
      now apply one_line_parts in Hl.
  - apply every_join; [reflexivity |].
    refine (Forall_impl _ _ H). intros l (Hl & _).
    now apply one_line_parts in Hl.
Qed.

End HistoryLines.

(** ** The search history *)

Section HistoryFacts.

Import Py Builtins Searching.

(** [!n] for a number below one hundred is what the pattern of
    [main_menu] looks for, and [int] reads its number. *)
Lemma recalls_number (k : nat) :
  (k < 100)%nat ->
  recalls ("!" ++ str (Z.of_nat k)) = true
  /\ Py.int (drop 1 ("!" ++ str (Z.of_nat k))) = Some (Z.of_nat k).
Proof.
  intros H. split.
  - do 100 (destruct k as [|k]; [vm_compute; reflexivity |]). lia.
  - cbn [append drop]. apply int_str. lia.
Qed.

(** [l[-n]] for [n] from one to the length. *)
Lemma index_from_the_end {A} (l : list A) (n : nat) :
  (1 <= n <= List.length l)%nat ->
  Py.index l (- Z.of_nat n) = nth_error l (List.length l - n).
Proof.
  intros H. unfold Py.index.
  destruct (Z.leb_spec 0 (- Z.of_nat n)); [lia |].
  destruct (Z.leb_spec (- Z.of_nat (List.length l)) (- Z.of_nat n)); [| lia].
  destruct (Z.ltb_spec (- Z.of_nat n) 0); [| lia].
  cbn [andb]. f_equal. lia.
Qed.

Lemma slice_last_ten {A} (l : list A) :
  slice_from (- 10) l = skipn (List.length l - 10) l.
Proof.
  unfold slice_from. cbn [Z.ltb Z.compare Z.opp]. f_equal. lia.
Qed.

Lemma enumerate_from_nth (lines : list string) :
  forall (i n : nat) (l : string),
    nth_error lines n = Some l ->
    nth_error (enumerate_from i lines) n
    = Some (str (Z.of_nat (i + n) + 1) ++ ". " ++ l).
Proof.
  induction lines as [|x lines IH]; intros i n l H.
  - destruct n; discriminate.
  - destruct n as [|n]; cbn [nth_error enumerate_from] in *.
    + injection H as ->. now rewrite Nat.add_0_r.
    + rewrite (IH (S i) n l H). now rewrite <- plus_n_Sm.
Qed.

(** X19.  The numbers that [prompt] puts before the lines of the
    search history are the numbers that [main_menu] resolves: when the
    prompt shows a line as number [n], typing [!n] makes that line the
    search term, in both browsers. *)
Theorem shown_number_recalls_its_line (catches : bool) (text : string)
    (n : nat) (line : string) :
  nth_error (shown_history text) n = Some line ->
  nth_error (enumerate_from 0 (shown_history text)) n
  = Some (str (Z.of_nat n + 1) ++ ". " ++ line)
  /\ recall catches (Some text) ("!" ++ str (Z.of_nat n + 1)) = Term line.
Proof.
  intros H. split; [exact (enumerate_from_nth _ 0 n line H) |].
  unfold shown_history in H. rewrite slice_last_ten in H.
  set (lines := history_lines text) in *.
  rewrite nth_error_rev, length_skipn in H.
  destruct (Nat.ltb_spec n (List.length lines - (List.length lines - 10)));
    [| discriminate].
  rewrite nth_error_skipn in H.
  replace (Z.of_nat n + 1) with (Z.of_nat (S n)) by lia.
  destruct (recalls_number (S n)) as [Hr Hi]; [lia |].
  unfold recall. rewrite Hr, Hi. fold lines.
  destruct (Nat.eqb_spec (List.length lines) 0) as [E|_]; [lia |].
  destruct (Z.leb_spec (Z.of_nat (S n)) 10); [| lia].
  cbn [negb andb].
  rewrite index_from_the_end by lia.
  replace (List.length lines - S n)%nat
    with (List.length lines - 10
          + (List.length lines - (List.length lines - 10) - S n))%nat by lia.
  now rewrite H.
Qed.

Lemma filter_twice {A} (f : A -> bool) (l : list A) :
  filter f (filter f l) = filter f l.
Proof.
  induction l as [|x l IH]; [reflexivity |].
  cbn [filter]. destruct (f x) eqn:E; cbn [filter]; rewrite ?E, IH;
    reflexivity.
Qed.

(** X20.  [!n] at its edges.  [!0] takes the oldest line of the
    history, which the prompt may not even show.  A number up to ten for
    which the history has no line raises [IndexError] in [yt-browser4.py];
    in [yt-browser2.py], where the look-up stands in a [try], the text
    [!n] itself stays the search term.  A number above ten always stays
    the search term. *)
Theorem recall_at_the_edges (text : string) (k : nat) :
  history_lines text <> [] ->
  (forall catches,
      recall catches (Some text) "!0" = Term (hd "" (history_lines text)))
  /\ ((List.length (history_lines text) < k <= 10)%nat ->
      recall false (Some text) ("!" ++ str (Z.of_nat k)) = Fails IndexError
      /\ recall true (Some text) ("!" ++ str (Z.of_nat k))
         = Term ("!" ++ str (Z.of_nat k)))
  /\ ((10 < k < 100)%nat ->
      forall catches,
        recall catches (Some text) ("!" ++ str (Z.of_nat k))
        = Term ("!" ++ str (Z.of_nat k))).
Proof.
  intros Hne. set (lines := history_lines text) in *.
  assert (Hlen : Nat.eqb (List.length lines) 0 = false)
    by (apply Nat.eqb_neq; destruct lines; [congruence | discriminate]).
  split; [| split].
  - intros catches. unfold recall.
    change (recalls "!0") with true.
    change (Py.int (drop 1 "!0")) with (Some 0).
    cbv beta iota. fold lines. rewrite Hlen. cbn [negb andb Z.leb Z.compare].
    destruct lines as [|l ls]; [congruence |]. reflexivity.
  - intros Hk. destruct (recalls_number k) as [Hr Hi]; [lia |].
    unfold recall. rewrite Hr, Hi. fold lines. rewrite Hlen.
    destruct (Z.leb_spec (Z.of_nat k) 10); [| lia]. cbn [negb andb].
    assert (Hout : Py.index lines (- Z.of_nat k) = None).
    { unfold Py.index.
      destruct (Z.leb_spec 0 (- Z.of_nat k)); [lia |].
      destruct (Z.leb_spec (- Z.of_nat (List.length lines)) (- Z.of_nat k));
        [lia |].
      reflexivity. }
    rewrite Hout. split; reflexivity.
  - intros Hk catches. destruct (recalls_number k) as [Hr Hi]; [lia |].
    unfold recall. rewrite Hr, Hi. fold lines. rewrite Hlen.
    destruct (Z.leb_spec (Z.of_nat k) 10); [lia |]. reflexivity.
Qed.

(** X21.  A search is remembered once and last.  For a search
    term that is one line without white space at its ends, is no [!n] and
    opens with no filter, the Search branch with the history on writes a
    file whose lines are the earlier lines other than the term, in their
    order, and then the term; the prompt shows the term as its first line,
    and [!1] in the next search explores the same address and writes the
    same file. *)
Theorem search_is_remembered (catches : bool) (file : option string)
    (t : string) :
  one_line t = true -> strip t = t -> t <> "" ->
  recalls t = false -> filter_match t = None ->
  let url :=
    "https://www.youtube.com/results?search_query=" ++ quote t
    ++ "&sp=" ++ default_sp in
  let before :=
    match file with
    | Some text => history_lines text
    | None => []
    end in
  let written := saved_history file t in
  search catches "true" file t = Explore url (Some written)
  /\ history_lines written
     = (filter (fun l => negb (String.eqb l t)) before ++ [t])%list
  /\ hd_error (shown_history written) = Some t
  /\ search catches "true" (Some written) "!1" = Explore url (Some written).
Proof.
  intros Hone Hstrip Hne Hrec Hfil url before written.
  assert (Hw : written
               = join nl (filter (fun l => negb (String.eqb l t)) before
                          ++ [t])%list ++ nl)
    by (subst written before; destruct file; reflexivity).
  assert (Hlines : history_lines written
                   = (filter (fun l => negb (String.eqb l t)) before
                      ++ [t])%list).
  { rewrite Hw.
    apply history_lines_written; [now destruct (filter _ _) |].
    apply Forall_app. split; [| now repeat constructor].
    subst before. destruct file as [text|]; [| constructor].
    apply Forall_forall. intros l Hl. apply filter_In in Hl.
    destruct Hl as [Hl _].
    exact (proj1 (Forall_forall _ _) (history_lines_clean text) l Hl). }
  assert (Hshown : hd_error (shown_history written) = Some t).
  { unfold shown_history. rewrite slice_last_ten, Hlines.
    set (old := filter _ before).
    assert (E : exists q, skipn (List.length (old ++ [t]) - 10) (old ++ [t])
                          = (q ++ [t])%list).
    { rewrite length_app. cbn [List.length].
      exists (skipn (List.length old + 1 - 10) old).
      rewrite skipn_app.
      replace (List.length old + 1 - 10 - List.length old)%nat with 0%nat
        by lia.
      reflexivity. }
    destruct E as (q & ->). now rewrite rev_app_distr. }
  assert (Hfirst : search catches "true" file t = Explore url (Some written)).
  { unfold search, recall, filtered. rewrite Hrec, Hfil.
    apply eqb_false_of_neq in Hne. rewrite Hne. reflexivity. }
  split; [exact Hfirst |]. split; [exact Hlines |]. split; [exact Hshown |].
  assert (Hrecall : recall catches (Some written) "!1" = Term t).
  { unfold recall. change (recalls "!1") with true.
    change (Py.int (drop 1 "!1")) with (Some 1). cbv beta iota.
    rewrite Hlines. set (old := filter _ before).
    rewrite length_app. cbn [List.length].
    replace (Nat.eqb (List.length old + 1) 0) with false
      by (symmetry; apply Nat.eqb_neq; lia).
    cbn [negb andb Z.leb Z.compare].
    change (- (1)) with (- Z.of_nat 1).
    rewrite index_from_the_end by (rewrite length_app; cbn; lia).
    rewrite length_app. cbn [List.length].
    replace (List.length old + 1 - 1)%nat with (List.length old + 0)%nat
      by lia.
    rewrite nth_error_app2 by lia.
    replace (List.length old + 0 - List.length old)%nat with 0%nat by lia.
    reflexivity. }
  unfold search. rewrite Hrecall.
  apply eqb_false_of_neq in Hne. rewrite Hne.
  unfold filtered. rewrite Hfil. decide_eqb. cbv beta iota.
  fold url. f_equal. f_equal.
  unfold saved_history at 1. rewrite Hlines, Hw. f_equal. f_equal. f_equal.
  rewrite filter_app. cbn [filter]. rewrite String.eqb_refl. cbn [negb].
  rewrite app_nil_r. apply filter_twice.
Qed.

End HistoryFacts.

(** The newer of two remembered searches is number one. *)
Lemma shown_number_recalls_its_line_sample :
  nth_error (Searching.shown_history Cases.history) 0 = Some "dogs"
  /\ nth_error
       (Searching.enumerate_from 0 (Searching.shown_history Cases.history)) 0
     = Some "1. dogs"
  /\ Searching.recall false (Some Cases.history) "!1" = Searching.Term "dogs".
Proof.
  assert (H : nth_error (Searching.shown_history Cases.history) 0 = Some "dogs")
    by reflexivity.
  split; [exact H |].
  exact (shown_number_recalls_its_line false Cases.history 0 "dogs" H).
Defined.

(** [!0] and [!5] on a history of two lines. *)
Lemma recall_at_the_edges_sample :
  Searching.history_lines Cases.history <> []
  /\ (List.length (Searching.history_lines Cases.history) < 5 <= 10)%nat
  /\ Searching.recall true (Some Cases.history) "!0" = Searching.Term "cats"
  /\ Searching.recall false (Some Cases.history) "!5"
     = Searching.Fails Searching.IndexError
  /\ Searching.recall true (Some Cases.history) "!5" = Searching.Term "!5".
Proof.
  assert (H1 : Searching.history_lines Cases.history <> []) by discriminate.
  assert (H2 : (List.length (Searching.history_lines Cases.history) < 5
                <= 10)%nat) by (vm_compute; lia).
  destruct (recall_at_the_edges Cases.history 5 H1) as (A & B & _).
  split; [exact H1 |]. split; [exact H2 |].
  split; [exact (A true) |]. exact (B H2).
Defined.

(** A search for cats on a history that has it already. *)
Lemma search_is_remembered_sample :
  (Builtins.one_line "cats" = true /\ Py.strip "cats" = "cats"
   /\ "cats" <> "" /\ Searching.recalls "cats" = false
   /\ Searching.filter_match "cats" = None)
  /\ Searching.search false "true" (Some Cases.history) "cats"
     = Searching.Explore
         "https://www.youtube.com/results?search_query=cats&sp=EgIQAQ%253D%253D"
         (Some ("dogs" ++ Py.nl ++ "cats" ++ Py.nl))
  /\ Searching.history_lines ("dogs" ++ Py.nl ++ "cats" ++ Py.nl)
     = ["dogs"; "cats"]
  /\ hd_error (Searching.shown_history ("dogs" ++ Py.nl ++ "cats" ++ Py.nl))
     = Some "cats"
  /\ Searching.search false "true" (Some ("dogs" ++ Py.nl ++ "cats" ++ Py.nl))
       "!1"
     = Searching.Explore
         "https://www.youtube.com/results?search_query=cats&sp=EgIQAQ%253D%253D"
         (Some ("dogs" ++ Py.nl ++ "cats" ++ Py.nl)).
Proof.
  assert (H1 : Builtins.one_line "cats" = true) by reflexivity.
  assert (H2 : Py.strip "cats" = "cats") by reflexivity.
  assert (H3 : "cats" <> "") by discriminate.
  assert (H4 : Searching.recalls "cats" = false) by reflexivity.
  assert (H5 : Searching.filter_match "cats" = None) by reflexivity.
  split; [repeat split; assumption |].
  exact (search_is_remembered false (Some Cases.history) "cats"
           H1 H2 H3 H4 H5).
Defined.

(** ** The filter and the address of a search *)

Section FilterFacts.

Import Py Builtins Searching.

Lemma space_not_lower (c : ascii) : is_space c = true -> is_lower c = false.
Proof.
  destruct c as [[] [] [] [] [] [] [] []]; vm_compute; congruence.
Qed.

Lemma space_or_feed (c : ascii) :
  is_space c = false -> Ascii.eqb c line_feed = false.
Proof.
  destruct c as [[] [] [] [] [] [] [] []]; vm_compute; congruence.
Qed.

Lemma span_lower_word (word rest : string) (x : ascii) :
  every is_lower word = true -> is_lower x = false ->
  span_lower (word ++ String x rest) = (word, String x rest).
Proof.
  intros Hw Hx. induction word as [|c word IH]; cbn [append span_lower].
  - now rewrite Hx.
  - cbn [every] in Hw. apply andb_prop in Hw. destruct Hw as [Hc Hw].
    now rewrite Hc, (IH Hw).
Qed.

Lemma until_line_feed_fixed (s : string) :
  every (fun c => negb (Ascii.eqb c line_feed)) s = true ->
  until_line_feed s = s.
Proof.
  induction s as [|c s IH]; intros H; [reflexivity |].
  cbn [every] in H. apply andb_prop in H. destruct H as [Hc Hs].
  apply negb_true_iff in Hc. cbn [until_line_feed].
  now rewrite Hc, (IH Hs).
Qed.

Lemma gap_then_rest_gap (gap : string) (c : ascii) (r : string) :
  gap <> "" -> every is_space gap = true -> is_space c = false ->
  gap_then_rest (gap ++ String c r) = Some (until_line_feed (String c r)).
Proof.
  intros Hne Hg Hc. induction gap as [|x gap IH]; [now contradiction Hne |].
  cbn [every] in Hg. apply andb_prop in Hg. destruct Hg as [Hx Hg].
  cbn [append gap_then_rest]. rewrite Hx.
  destruct gap as [|y gap].
  - cbn [append gap_then_rest]. rewrite Hc, (space_or_feed c Hc).
    reflexivity.
  - rewrite IH by (discriminate || exact Hg). reflexivity.
Qed.

(** X22.  The time filter of a search: a colon, a word of small
    letters, white space and a term that opens with no white space and has
    no line feed are taken apart into the word, which picks the value of
    [sp], and the term.  A word that names no filter still goes, with the
    default [sp]; and it is the term without the filter that is written to
    the history. *)
Theorem filter_is_split_off (catches : bool) (file : option string)
    (word gap : string) (c : ascii) (r : string) :
  word <> "" -> every is_lower word = true ->
  gap <> "" -> every is_space gap = true ->
  is_space c = false ->
  every (fun c => negb (Ascii.eqb c line_feed)) (String c r) = true ->
  let typed := ":" ++ word ++ gap ++ String c r in
  let term := String c r in
  filter_match typed = Some (":" ++ word, term)
  /\ search catches "true" file typed
     = Explore ("https://www.youtube.com/results?search_query="
                ++ quote term ++ "&sp=" ++ sp_of (":" ++ word))
         (Some (saved_history file term))
  /\ (~ In word ["hour"; "today"; "week"; "month"; "year"] ->
      sp_of (":" ++ word) = default_sp).
Proof.
  intros Hw Hlow Hg Hsp Hc Hr typed term.
  assert (Hm : filter_match typed = Some (":" ++ word, term)).
  { subst typed term. cbn [append filter_match].
    destruct gap as [|x gap]; [now contradiction Hg |].
    assert (Hx : is_lower x = false).
    { cbn [every] in Hsp. apply andb_prop in Hsp.
      now apply space_not_lower. }
    change (String x gap ++ String c r) with (String x (gap ++ String c r)).
    rewrite (span_lower_word word _ x Hlow Hx).
    destruct word as [|a word]; [now contradiction Hw |].
    change (String x (gap ++ String c r)) with (String x gap ++ String c r).
    rewrite (gap_then_rest_gap _ c r Hg Hsp Hc).
    now rewrite (until_line_feed_fixed _ Hr). }
  split; [exact Hm |]. split.
  - unfold search, recall, filtered.
    change (recalls typed) with false. cbv beta iota.
    change (String.eqb typed "") with false. cbv beta iota.
    rewrite Hm. reflexivity.
  - intros Hn. unfold sp_of. cbn [In] in Hn.
    repeat match goal with
           | |- context [String.eqb (":" ++ word) (String ":" ?k)] =>
               destruct (String.eqb_spec (":" ++ word) (String ":" k))
                 as [E|_];
               [injection E as E; subst word; tauto |]
           end.
    reflexivity.
Qed.

Lemma percent_safe (c : ascii) :
  every (fun x => unreserved x || Ascii.eqb x "%")%bool
    (if Nat.ltb (code c) 128 then
       if unreserved c then String c "" else percent (code c)
     else percent (192 + code c / 64) ++ percent (128 + code c mod 64))
  = true.
Proof.
  destruct c as [[] [] [] [] [] [] [] []]; vm_compute; reflexivity.
Qed.

(** X23.  [urllib.parse.quote] as the search uses it: what it returns
    is made of letters, digits, the characters [_ . - ~ /] and percent
    signs only, so no blank, [&], [=], [?] or [#] of a search term reaches
    the address, and a term made of the characters it leaves alone comes
    back as it is. *)
Theorem quote_is_address_safe (s : string) :
  every (fun x => unreserved x || Ascii.eqb x "%")%bool (quote s) = true
  /\ (every unreserved s = true -> quote s = s).
Proof.
  split.
  - induction s as [|c s IH]; [reflexivity |].
    cbn [quote]. rewrite every_app, IH, percent_safe. reflexivity.
  - induction s as [|c s IH]; intros H; [reflexivity |].
    cbn [every] in H. apply andb_prop in H. destruct H as [Hc Hs].
    cbn [quote]. rewrite (IH Hs), Hc.
    destruct (Nat.ltb (code c) 128) eqn:E; [reflexivity |].
    exfalso. revert Hc E.
    destruct c as [[] [] [] [] [] [] [] []]; vm_compute; congruence.
Qed.

End FilterFacts.

(** A search of the last week, and one with a word that names no
    filter. *)
Lemma filter_is_split_off_sample :
  ("week" <> "" /\ Builtins.every Searching.is_lower "week" = true
   /\ " " <> "" /\ Builtins.every Py.is_space " " = true
   /\ Py.is_space "c" = false
   /\ Builtins.every (fun c => negb (Ascii.eqb c Builtins.line_feed)) "cats"
      = true)
  /\ Searching.filter_match ":week cats" = Some (":week", "cats")
  /\ Searching.search false "true" (Some Cases.history) ":week cats"
     = Searching.Explore
         ("https://www.youtube.com/results?search_query=cats"
          ++ "&sp=EgIIAw%253D%253D")
         (Some ("dogs" ++ Py.nl ++ "cats" ++ Py.nl)).
Proof.
  assert (H1 : "week" <> "") by discriminate.
  assert (H2 : Builtins.every Searching.is_lower "week" = true) by reflexivity.
  assert (H3 : " " <> "") by discriminate.
  assert (H4 : Builtins.every Py.is_space " " = true) by reflexivity.
  assert (H5 : Py.is_space "c" = false) by reflexivity.
  assert (H6 : Builtins.every
                 (fun c => negb (Ascii.eqb c Builtins.line_feed)) "cats"
               = true) by reflexivity.
  split; [repeat split; assumption |].
  destruct (filter_is_split_off false (Some Cases.history) "week" " " "c"
              "ats" H1 H2 H3 H4 H5 H6) as (A & B & _).
  split; [exact A | exact B].
Defined.

(** A term with a blank, an ampersand and a letter beyond ASCII. *)
Lemma quote_is_address_safe_sample :
  Builtins.every Searching.unreserved "a/b.c" = true
  /\ Searching.quote "a/b.c" = "a/b.c"
  /\ Searching.quote "tom & jerry" = "tom%20%26%20jerry".
Proof.
  assert (H : Builtins.every Searching.unreserved "a/b.c" = true)
    by reflexivity.
  split; [exact H |].
  split; [exact (proj2 (quote_is_address_safe "a/b.c") H) | reflexivity].
Defined.

(** ** The configuration file *)

Section ConfigFacts.

Import Py Builtins Config.

Lemma split_at_step (a b c d : ascii) (r : string) :
  split_at a b (String c (String d r))
  = if (Ascii.eqb c a && Ascii.eqb d b)%bool then Some ("", r)
    else match split_at a b (String d r) with
         | Some (key, value) => Some (String c key, value)
         | None => None
         end.
Proof. reflexivity. Qed.

Lemma not_comment (a : ascii) (r : string) :
  a <> "#"%char -> String.prefix "#" (String a r) = false.
Proof.
  intros H. cbn [String.prefix].
  destruct (ascii_dec "#" a) as [E|_]; [now contradiction H | reflexivity].
Qed.

Lemma rstrip_trailing (s : string) (x : ascii) :
  is_space x = true -> rstrip (s ++ String x "") = rstrip s.
Proof.
  intros H. unfold rstrip. rewrite rev_app.
  change (rev (String x "")) with (String x ""). cbn [append lstrip].
  now rewrite H.
Qed.

Lemma split_at_colon (s : string) :
  split_at ":" " " s = None -> split_at ":" " " (s ++ ":") = None.
Proof.
  induction s as [|c s IH]; intros H; [reflexivity |].
  destruct s as [|d s].
  - cbn [append]. rewrite split_at_step.
    change (Ascii.eqb ":" " ") with false. now rewrite andb_false_r.
  - change (String c (String d s) ++ ":")
      with (String c (String d (s ++ ":"))).
    rewrite split_at_step in H |- *.
    destruct (Ascii.eqb c ":" && Ascii.eqb d " ")%bool; [discriminate H |].
    destruct (split_at ":" " " (String d s)) as [[k v]|] eqn:E;
      [discriminate H |].
    change (String d (s ++ ":")) with (String d s ++ ":").
    now rewrite IH.
Qed.

Lemma is_comment (r : string) : String.prefix "#" (String "#" r) = true.
Proof.
  cbn [String.prefix]. destruct (ascii_dec "#" "#") as [_|E];
    [now destruct r | now contradiction E].
Qed.

Lemma split_at_found (key value : string) :
  split_at ":" " " key = None ->
  split_at ":" " " (key ++ ": " ++ value) = Some (key, value).
Proof.
  induction key as [|c key IH]; intros H; [reflexivity |].
  destruct key as [|d key].
  - cbn [append split_at]. change (Ascii.eqb ":" " ") with false.
    rewrite andb_false_r. reflexivity.
  - change (String c (String d key) ++ ": " ++ value)
      with (String c (String d (key ++ ": " ++ value))).
    rewrite split_at_step in H |- *.
    destruct (Ascii.eqb c ":" && Ascii.eqb d " ")%bool; [discriminate H |].
    destruct (split_at ":" " " (String d key)) as [[k v]|] eqn:E;
      [discriminate H |].
    change (String d (key ++ ": " ++ value))
      with (String d key ++ ": " ++ value).
    now rewrite IH.
Qed.

(** X24.  A line [key: value] of the configuration file sets
    [CONFIG[key]] to the value and nothing else, when the key opens with
    neither white space nor [#] and holds no colon followed by a blank, and
    the value ends with no white space; the value may hold [": "] itself.
    A line that ends after the blank assigns nothing, so no key can be
    given the empty value, and a line that opens with [#] assigns
    nothing. *)
Theorem config_line_sets_its_key (CONFIG : dict) (a : ascii)
    (key value : string) (z : ascii) (k : string) :
  is_space a = false -> a <> "#"%char ->
  split_at ":" " " (String a key) = None ->
  is_space z = false ->
  let line := String a key ++ ": " ++ value ++ String z "" in
  read_line CONFIG line k
  = (if String.eqb k (String a key) then Some (value ++ String z "")
     else CONFIG k)
  /\ read_line CONFIG (String a key ++ ": ") = CONFIG
  /\ read_line CONFIG ("#" ++ line) = CONFIG.
Proof.
  intros Ha Hh Hk Hz line.
  assert (Hstrip : strip line = line).
  { subst line.
    change (String a key ++ ": " ++ value ++ String z "")
      with (String a (key ++ ": " ++ value ++ String z "")).
    apply (strip_fixed a z _ (String a key ++ ": " ++ value)); try assumption.
    cbn [append]. now rewrite !append_assoc. }
  split; [| split].
  - unfold read_line, assignment. rewrite Hstrip.
    subst line.
    change (String a key ++ ": " ++ value ++ String z "")
      with (String a (key ++ ": " ++ value ++ String z "")) at 1 2.
    rewrite (not_comment a _ Hh). cbn [String.eqb orb].
    rewrite (split_at_found _ _ Hk). reflexivity.
  - unfold read_line, assignment.
    assert (E : strip (String a key ++ ": ") = String a key ++ ":").
    { unfold strip.
      change (String a key ++ ": ") with (String a (key ++ ": ")).
      rewrite lstrip_fixed by exact Ha.
      change (String a (key ++ ": ")) with (String a key ++ ":" ++ " ").
      rewrite <- append_assoc, rstrip_trailing by reflexivity.
      now apply rstrip_fixed. }
    rewrite E.
    change (String a key ++ ":") with (String a (key ++ ":")).
    rewrite (not_comment a _ Hh). cbn [String.eqb orb].
    change (String a (key ++ ":")) with (String a key ++ ":").
    now rewrite (split_at_colon _ Hk).
  - unfold read_line, assignment.
    assert (E : strip ("#" ++ line) = String "#" line).
    { apply (strip_fixed "#" z line
               ("#" ++ String a key ++ ": " ++ value));
        [| reflexivity | exact Hz].
      subst line. cbn [append]. now rewrite !append_assoc. }
    rewrite E, is_comment. reflexivity.
Qed.

(** What reading lines makes of a key depends on what the key held
    only. *)
Lemma read_lines_at (lines : list string) :
  forall (c1 c2 : dict) (k : string),
    c1 k = c2 k ->
    fold_left read_line lines c1 k = fold_left read_line lines c2 k.
Proof.
  induction lines as [|line lines IH]; intros c1 c2 k H; [exact H |].
  cbn [fold_left]. apply IH. unfold read_line.
  destruct (assignment line) as [[key value]|]; [| exact H].
  unfold set. now destruct (String.eqb k key).
Qed.

Lemma read_line_at (c : dict) (line k : string) :
  read_line c line k
  = match assignment line with
    | Some (key, value) => if String.eqb k key then Some value else c k
    | None => c k
    end.
Proof.
  unfold read_line. now destruct (assignment line) as [[key value]|].
Qed.

Lemma read_lines_last (lines : list string) (line : string) (c : dict) :
  fold_left read_line (lines ++ [line]) c
  = read_line (fold_left read_line lines c) line.
Proof. now rewrite fold_left_app. Qed.

(** X25.  [load_config] reads the file on top of what [CONFIG]
    holds.  It never removes a key, so the keys of the defaults stay; a key
    that no line of the file assigns keeps the value it had, so a setting
    whose line was deleted stays in force when the file is read again after
    Edit Config; and reading the same file twice gives what reading it once
    gives. *)
Theorem reload_reads_on_top (text : string) (CONFIG : dict) (k : string) :
  (CONFIG k <> None -> read_file text CONFIG k <> None)
  /\ ((forall line key value,
          In line (file_lines text) ->
          assignment line = Some (key, value) -> key <> k) ->
      read_file text CONFIG k = CONFIG k)
  /\ read_file text (read_file text CONFIG) k = read_file text CONFIG k.
Proof.
  unfold read_file. generalize (file_lines text) as lines. intros lines.
  split; [| split].
  - revert CONFIG. induction lines as [|line lines IH]; intros c H;
      [exact H |].
    cbn [fold_left]. apply IH. unfold read_line.
    destruct (assignment line) as [[key value]|]; [| exact H].
    unfold set. destruct (String.eqb k key); [discriminate | exact H].
  - revert CONFIG. induction lines as [|line lines IH]; intros c H;
      [reflexivity |].
    cbn [fold_left]. rewrite IH by (intros; eapply H; [right |]; eauto).
    unfold read_line.
    destruct (assignment line) as [[key value]|] eqn:E; [| reflexivity].
    unfold set. destruct (String.eqb_spec k key) as [-> |_]; [| reflexivity].
    now contradiction (H line key value (or_introl eq_refl) E).
  - revert CONFIG. induction lines as [|line lines IH] using rev_ind;
      intros c; [reflexivity |].
    rewrite !read_lines_last.
    set (d := fold_left read_line lines c).
    rewrite (read_line_at _ line k), (read_line_at d line k).
    destruct (assignment line) as [[key value]|] eqn:Ea.
    + destruct (String.eqb k key) eqn:E; [reflexivity |].
      subst d. transitivity
        (fold_left read_line lines (fold_left read_line lines c) k);
        [| apply IH].
      apply read_lines_at. now rewrite read_line_at, Ea, E.
    + replace (read_line d line) with d
        by (unfold read_line; now rewrite Ea).
      apply IH.
Qed.



End ConfigFacts.

(** The line that sets the player, the same line cut after its blank, and
    the line as a comment. *)
Lemma config_line_sets_its_key_sample :
  (Py.is_space "P" = false /\ "P"%char <> "#"%char
   /\ Builtins.split_at ":" " " "PLAYER" = None /\ Py.is_space "c" = false)
  /\ Config.read_line (fun _ => None) "PLAYER: vlc" "PLAYER" = Some "vlc"
  /\ Config.read_line (fun _ => None) "PLAYER: " = (fun _ => None)
  /\ Config.read_line (fun _ => None) "#PLAYER: vlc" = (fun _ => None).
Proof.
  assert (H1 : Py.is_space "P" = false) by reflexivity.
  assert (H2 : "P"%char <> "#"%char) by discriminate.
  assert (H3 : Builtins.split_at ":" " " "PLAYER" = None) by reflexivity.
  assert (H4 : Py.is_space "c" = false) by reflexivity.
  split; [repeat split; assumption |].
  exact (config_line_sets_its_key (fun _ => None) "P" "LAYER" "vl" "c"
           "PLAYER" H1 H2 H3 H4).
Defined.

(** A file that sets the player, read over defaults that name a selector. *)
Lemma reload_reads_on_top_sample :
  (Config.set "PREFERRED_SELECTOR" "fzf" (fun _ => None) "PREFERRED_SELECTOR"
   <> None)
  /\ Config.read_file ("PLAYER: vlc" ++ Py.nl)
       (Config.set "PREFERRED_SELECTOR" "fzf" (fun _ => None))
       "PREFERRED_SELECTOR"
     <> None.
Proof.
  assert (H : Config.set "PREFERRED_SELECTOR" "fzf" (fun _ => None)
                "PREFERRED_SELECTOR" <> None) by discriminate.
  split; [exact H |].
  exact (proj1 (reload_reads_on_top ("PLAYER: vlc" ++ Py.nl)
                  (Config.set "PREFERRED_SELECTOR" "fzf" (fun _ => None))
                  "PREFERRED_SELECTOR") H).
Defined.


(** ** The preview text *)

Section PreviewFacts.

Import Py Preview.


End PreviewFacts.


(** ** fibonacci.py: the input loop *)

Section AskingFacts.

Import Py Fibonacci Asking.

Lemma accepted_positive (n : Z) : 1 <= n -> accepted (str n) = Some n.
Proof.
  intros Hn. unfold accepted, isdecimal.
  destruct (str_opens_with_digit n) as (c & r & E & _); [lia |].
  rewrite str_all_digits, int_str by lia.
  rewrite E. cbn [String.eqb negb andb].
  destruct (Z.eqb_spec n 0); [lia | reflexivity].
Qed.

Lemma digit_value_range (c : ascii) :
  is_digit c = true -> 0 <= digit_value c <= 9.
Proof.
  destruct c as [[] [] [] [] [] [] [] []]; vm_compute; intuition congruence.
Qed.

Lemma digits_nonnegative (s : string) :
  forall (acc : Z) (seen : bool) (v : Z),
    0 <= acc -> digits acc seen s = Some v -> 0 <= v.
Proof.
  induction s as [|c s IH]; intros acc seen v Hacc H; cbn [digits] in H.
  - destruct seen; [injection H as <-; exact Hacc | discriminate].
  - destruct (is_digit c) eqn:Hc.
    + pose proof (digit_value_range c Hc) as Hr.
      apply (IH (10 * acc + digit_value c) true v); [lia | exact H].
    + destruct (Ascii.eqb c "_" && seen)%bool; [| discriminate].
      apply (IH _ _ _ Hacc H).
Qed.

(** X28.  The input loop lets a response through only as a number
    of at least one, read from decimal digits alone: a sign, a blank, an
    underscore or no digit at all are turned down, and so is zero however
    it is written; and the decimal writing of every number from one on is
    let through as that number. *)
Theorem accepted_is_a_positive_number (response : string) (n : Z) :
  (accepted response = Some n ->
   1 <= n /\ response <> "" /\ all_digits response = true)
  /\ (1 <= n -> accepted (str n) = Some n).
Proof.
  split.
  - unfold accepted, isdecimal. intros H.
    destruct (String.eqb_spec response "") as [E|E]; [discriminate H |].
    cbn [negb andb] in H.
    destruct (all_digits response) eqn:Hd; [| discriminate H].
    rewrite (int_digits _ Hd) in H.
    destruct (digits 0 false response) as [v|] eqn:Hv; [| discriminate H].
    apply digits_nonnegative in Hv; [| lia].
    destruct (Z.eqb_spec v 0); [discriminate H |].
    injection H as <-. repeat split; [lia | exact E].
  - apply accepted_positive.
Qed.

(** X29.  The input loop of the program: it goes round, with the same
    lines and one refusal each time, for every response that is neither
    the word quit in small letters nor a number of at least one, and stops
    at the first response that is one of the two; QUIT in capitals, as the
    banner spells it, is turned down like any other text. *)
Theorem asking_stops_at_the_first_answer (turned later : list string)
    (n : Z) :
  Forall (fun response => response <> "quit" /\ accepted response = None)
    turned ->
  1 <= n ->
  ask (turned ++ str n :: later)
  = (turned_down (List.length turned) ++ banner, Nth n)
  /\ ask (turned ++ "quit" :: later)
     = (turned_down (List.length turned) ++ banner
        ++ "Thanks for playing!" ++ nl, Quit)
  /\ ask turned = (turned_down (List.length turned) ++ banner, Pending)
  /\ accepted "QUIT" = None.
Proof.
  intros Ht Hn.
  assert (Hacc : accepted (str n) = Some n)
    by now apply accepted_positive.
  assert (Hq : String.eqb (str n) "quit" = false).
  { destruct (str_opens_with_digit n) as (c & r & E & Hc); [lia |].
    rewrite E. cbn [String.eqb].
    destruct (Ascii.eqb_spec c "q") as [-> |_]; [discriminate Hc |].
    reflexivity. }
  split; [| split; [| split; [| reflexivity]]].
  - induction Ht as [|x turned (Hx & Ha) _ IH]; cbn [app ask List.length].
    + now rewrite Hq, Hacc.
    + apply eqb_false_of_neq in Hx. rewrite Hx, Ha, IH.
      cbn [turned_down]. now rewrite !append_assoc.
  - induction Ht as [|x turned (Hx & Ha) _ IH]; cbn [app ask List.length].
    + reflexivity.
    + apply eqb_false_of_neq in Hx. rewrite Hx, Ha, IH.
      cbn [turned_down]. now rewrite !append_assoc.
  - induction Ht as [|x turned (Hx & Ha) _ IH]; cbn [app ask List.length].
    + reflexivity.
    + apply eqb_false_of_neq in Hx. rewrite Hx, Ha, IH.
      cbn [turned_down]. now rewrite !append_assoc.
Qed.

End AskingFacts.

(** The responses 007 and 12. *)
Lemma accepted_is_a_positive_number_sample :
  (Fibonacci.accepted "007" = Some 7 /\ 1 <= 12)
  /\ (1 <= 7 /\ "007" <> "" /\ Py.all_digits "007" = true)
  /\ Fibonacci.accepted (Py.str 12) = Some 12.
Proof.
  assert (H1 : Fibonacci.accepted "007" = Some 7) by reflexivity.
  assert (H2 : 1 <= 12) by lia.
  split; [split; assumption |].
  split.
  - exact (proj1 (accepted_is_a_positive_number "007" 7) H1).
  - exact (proj2 (accepted_is_a_positive_number "007" 12) H2).
Defined.

(** Four responses that are turned down, then 5. *)
Lemma asking_stops_at_the_first_answer_sample :
  (Forall (fun response =>
             response <> "quit" /\ Fibonacci.accepted response = None)
     ["QUIT"; "0"; "-1"; "five"]
   /\ 1 <= 5)
  /\ Asking.ask ["QUIT"; "0"; "-1"; "five"; "5"; "quit"]
     = (Asking.turned_down 4 ++ Asking.banner, Asking.Nth 5).
Proof.
  assert (H1 : Forall (fun response =>
                         response <> "quit"
                         /\ Fibonacci.accepted response = None)
                 ["QUIT"; "0"; "-1"; "five"])
    by (repeat constructor; discriminate).
  assert (H2 : 1 <= 5) by lia.
  split; [split; assumption |].
  exact (proj1 (asking_stops_at_the_first_answer
                  ["QUIT"; "0"; "-1"; "five"] ["quit"] 5 H1 H2)).
Defined.

(** ** What [launcher] returns *)

Section LauncherFacts.

Import Py Builtins Browser Nav.

Variable cfg : config.

Lemma rev_every (p : ascii -> bool) (s : string) :
  every p s = true -> every p (rev s) = true.
Proof. intros H. now rewrite every_rev. Qed.

(** The lines of [splitlines] hold no line boundary. *)
Lemma splitlines_from_lines (n : nat) :
  forall (s cur : string),
    (String.length s <= n)%nat ->
    every (fun c => negb (is_linebreak c)) cur = true ->
    Forall (fun l => every (fun c => negb (is_linebreak c)) l = true)
      (splitlines_from cur s).
Proof.
  induction n as [|n IH]; intros s cur Hn Hcur.
  - destruct s; [| cbn [String.length] in Hn; lia].
    cbn [splitlines_from]. destruct (String.eqb cur ""); repeat constructor.
    now apply rev_every.
  - destruct s as [|c r].
    + cbn [splitlines_from].
      destruct (String.eqb cur ""); repeat constructor.
      now apply rev_every.
    + cbn [String.length] in Hn. cbn [splitlines_from].
      destruct (is_linebreak c) eqn:Hc.
      * destruct r as [|d r'].
        -- repeat constructor. now apply rev_every.
        -- cbn [String.length] in Hn.
           destruct (Nat.eqb (code c) 13 && Nat.eqb (code d) 10)%bool;
             (constructor; [now apply rev_every |]);
             apply IH; try reflexivity; cbn [String.length]; lia.
      * apply IH; [lia |]. cbn [every]. now rewrite Hc, Hcur.
Qed.

(** X13.  What [launcher] hands to the menus.  With rofi it is never
    empty and has no white space at either end, the word Exit standing for
    a selector that printed nothing; with fzf it is one line of the
    selector's output, without a line boundary in it, and empty only when
    the selector printed no line or an empty one. *)
Theorem launcher_answers (preview_mode : option string) (w : world)
    (s : string) :
  answer cfg preview_mode w = Some s ->
  (tool cfg = "rofi" ->
   s <> "" /\ strip s = s
   /\ (strip (selector_stdout w) = "" -> s = "Exit"))
  /\ (tool cfg = "fzf" ->
      every (fun c => negb (is_linebreak c)) s = true
      /\ In s ("" :: splitlines (selector_stdout w))).
Proof.
  unfold answer, tool, Browser.launcher.
  destruct (String.eqb (lower (PREFERRED_SELECTOR cfg)) "rofi").
  - destruct (ROFI_THEME cfg); run_m; [| discriminate].
    destruct (which w "rofi"); [| discriminate].
    intros H. injection H as <-. split; [| discriminate].
    intros _.
    destruct (strip_shape (selector_stdout w))
      as [E | (c & r & m & d & E & Em & Hc & Hd)]; rewrite E.
    + cbn [String.eqb]. split; [discriminate |].
      split; reflexivity.
    + cbn [String.eqb]. split; [discriminate |].
      split; [now apply (strip_fixed c d r m) | discriminate].
  - run_m. destruct (which w "fzf"); [| discriminate].
    intros H. split; [discriminate |]. intros _.
    pose proof (splitlines_from_lines (String.length (selector_stdout w))
                  (selector_stdout w) "" (le_n _) eq_refl) as Hl.
    fold (splitlines (selector_stdout w)) in Hl.
    destruct (splitlines (selector_stdout w)) as [|first [|second rest]];
      injection H as <-.
    + split; [reflexivity | now left].
    + split; [exact (Forall_inv Hl) | right; now left].
    + destruct (mode_given preview_mode).
      * split; [exact (Forall_inv (Forall_inv_tail Hl)) |].
        right. right. now left.
      * split; [exact (Forall_inv Hl) | right; now left].
Qed.

End LauncherFacts.

(** The answer of rofi to a cancelled menu, and of fzf to a pick. *)
Lemma launcher_answers_sample :
  (Nav.answer Sample.cfg_rofi None Sample.cancels = Some "Exit"
   /\ Nav.tool Sample.cfg_rofi = "rofi")
  /\ "Exit" <> "" /\ Py.strip "Exit" = "Exit"
  /\ (Py.strip (Browser.selector_stdout Sample.cancels) = "" ->
      "Exit" = "Exit").
Proof.
  assert (H1 : Nav.answer Sample.cfg_rofi None Sample.cancels = Some "Exit")
    by (vm_compute; reflexivity).
  assert (H2 : Nav.tool Sample.cfg_rofi = "rofi") by reflexivity.
  split; [split; assumption |].
  exact (proj1 (launcher_answers Sample.cfg_rofi None Sample.cancels "Exit"
                  H1) H2).
Defined.

(** ** yt-browser4.py: the playlists of a channel *)

Section PlaylistFacts.

Import Py Builtins Browser Nav Playlists.

Variable cfg : config.

Lemma contains_here (needle s : string) :
  String.prefix needle s = true -> contains needle s = true.
Proof. intros H. destruct s; cbn [contains]; now rewrite H. Qed.

Lemma contains_later (needle : string) (c : ascii) (s : string) :
  contains needle s = true -> contains needle (String c s) = true.
Proof.
  intros H. cbn [contains].
  now destruct (String.prefix needle (String c s)).
Qed.

Lemma contains_after (needle p s : string) :
  contains needle s = true -> contains needle (p ++ s) = true.
Proof.
  intros H. induction p as [|c p IH]; [exact H |].
  cbn [append]. now apply contains_later.
Qed.

(** A needle is not found sooner where its first character does not
    occur. *)
Lemma contains_skip (n0 : ascii) (nr p s : string) :
  every (fun c => negb (Ascii.eqb c n0)) p = true ->
  contains (String n0 nr) (p ++ s) = contains (String n0 nr) s.
Proof.
  induction p as [|c p IH]; intros H; [reflexivity |].
  cbn [every] in H. apply andb_prop in H. destruct H as [Hc Hp].
  apply negb_true_iff in Hc. cbn [append contains String.prefix].
  destruct (ascii_dec n0 c) as [-> |_];
    [now rewrite Ascii.eqb_refl in Hc | now apply IH].
Qed.

Lemma digits_every (p : ascii -> bool) (s : string) :
  (forall c, is_digit c = true -> p c = true) ->
  all_digits s = true -> every p s = true.
Proof.
  intros Hp. induction s as [|c s IH]; intros H; [reflexivity |].
  cbn [all_digits] in H. apply andb_prop in H. destruct H as [Hc Hs].
  cbn [every]. now rewrite (Hp c Hc), IH.
Qed.

Lemma digit_is_not (k : ascii) (c : ascii) :
  is_digit k = false -> is_digit c = true -> negb (Ascii.eqb c k) = true.
Proof.
  intros Hk Hc. destruct (Ascii.eqb_spec c k) as [-> |_];
    [congruence | reflexivity].
Qed.

(** A word that opens with a letter is in a label exactly when it is in
    the title. *)
Lemma contains_in_label (n0 : ascii) (nr : string) (count i : nat)
    (t : string) :
  is_digit n0 = false -> n0 <> " "%char ->
  contains (String n0 nr) (num count i ++ " " ++ t)
  = contains (String n0 nr) t.
Proof.
  intros Hd Hb. rewrite <- append_assoc. apply contains_skip.
  rewrite every_app. cbn [every].
  rewrite (digits_every _ _ (fun c => digit_is_not n0 c Hd)
             (num_all_digits count i)).
  destruct (Ascii.eqb_spec " " n0) as [E|_]; [now contradiction Hb |].
  reflexivity.
Qed.

Lemma number_all_nth (count k : nat) (es : list entry) (i : nat)
    (e : entry) :
  nth_error es i = Some e ->
  nth_error (number_all count k es) i
  = Some {| title := num count (k + i) ++ " " ++ title e;
            entry_url := entry_url e; entry_id := entry_id e |}.
Proof.
  revert k i. induction es as [|x es IH]; intros k i H.
  - destruct i; discriminate.
  - destruct i as [|i]; cbn [number_all nth_error] in *.
    + injection H as ->. now rewrite Nat.add_0_r.
    + rewrite (IH (S k) i H). now rewrite <- plus_n_Sm.
Qed.

(** Two labels with the same text carry the same number. *)
Lemma label_number (count i j : nat) (t u : string) :
  num count i ++ " " ++ t = num count j ++ " " ++ u -> i = j.
Proof.
  intros H.
  pose proof (first_word (num count i) t (num_all_digits count i)) as Hi.
  pose proof (first_word (num count j) u (num_all_digits count j)) as Hj.
  rewrite H, Hj in Hi.
  pose proof (int_num count i) as Ni. pose proof (int_num count j) as Nj.
  rewrite <- Hi, Nj in Ni. injection Ni as Ni. lia.
Qed.

(** The first entry with the label of position [k + i] is that entry. *)
Lemma find_label (count : nat) (es : list entry) :
  forall (k i : nat) (e : entry),
    nth_error es i = Some e ->
    find (fun x => String.eqb (title x)
                     (num count (k + i) ++ " " ++ title e))
      (number_all count k es)
    = Some {| title := num count (k + i) ++ " " ++ title e;
              entry_url := entry_url e; entry_id := entry_id e |}.
Proof.
  induction es as [|x es IH]; intros k i e H.
  - destruct i; discriminate.
  - destruct i as [|i]; cbn [number_all nth_error find title] in *.
    + injection H as ->. now rewrite Nat.add_0_r, String.eqb_refl.
    + destruct (String.eqb_spec (num count k ++ " " ++ title x)
                  (num count (k + S i) ++ " " ++ title e)) as [E|_].
      * apply label_number in E. lia.
      * replace (k + S i)%nat with (S k + i)%nat by lia. now apply IH.
Qed.

(** X18.  [playlists_explorer], the menu of a channel's playlists,
    looks for the words Back and Exit anywhere in the selection.  When the
    selector returns the label of a playlist whose title holds the word
    Back, the loop ends as if Back had been chosen, and when the title
    holds Exit and not Back the browser ends; only a playlist whose title
    holds neither is fetched, by its own address and with the window as it
    is, and handed to [playlist_explorer]. *)
Theorem playlist_titles_with_back_or_exit (es : list entry) (i : nat)
    (e : entry) (m : string) (d : ascii) (w : world) (b : window) :
  nth_error es i = Some e ->
  title e = m ++ String d "" -> is_space d = false ->
  let entries := number_all (List.length es) 0 es in
  let label := num (List.length es) i ++ " " ++ title e in
  answer cfg (playlist_mode cfg) w = Some label ->
  fetch_starts w = true ->
  In label (map title entries)
  /\ turn cfg entries w b
     = if contains "Back" (title e) then
         (b, Playlists.menu_log cfg entries, inr Leave)
       else if contains "Exit" (title e) then
         (b, (Playlists.menu_log cfg entries ++ farewell4 cfg)%list,
          inl (SysExit 0))
       else
         (b,
          (Playlists.menu_log cfg entries
           ++ fetch_log w (fetch_command cfg (entry_url e) b)
           ++ fetch_notice w)%list,
          inr (Open (entry_url e) (fetched w))).
Proof.
  intros Hi Ht Hd entries label Ha Hf.
  pose proof (number_all_nth (List.length es) 0 es i e Hi) as Hnth.
  cbn [Nat.add] in Hnth. fold label in Hnth. fold entries in Hnth.
  split.
  { apply in_map_iff. eexists. split; [| exact (nth_error_In _ _ Hnth)].
    reflexivity. }
  destruct (num_opens_with_digit (List.length es) i) as (c & r & En & Hc).
  assert (El : label = String c (r ++ " " ++ title e))
    by (unfold label; rewrite En; reflexivity).
  assert (Hsel : strip (Re.sub_label label) = label).
  { rewrite El, sub_label_digit by exact Hc.
    apply (strip_fixed c d _ (num (List.length es) i ++ " " ++ m));
      [| now apply digit_no_space | exact Hd].
    rewrite <- El. unfold label. now rewrite Ht, !append_assoc. }
  assert (Hback : contains "Back" label = contains "Back" (title e))
    by (apply contains_in_label; [reflexivity | discriminate]).
  assert (Hexit : contains "Exit" label = contains "Exit" (title e))
    by (apply contains_in_label; [reflexivity | discriminate]).
  assert (Hne : String.eqb label "" = false) by now rewrite El.
  unfold turn, V4.launcher, V4.run_yt_dlp, V4.byebye, Playlists.menu_log,
    playlist_mode, farewell4 in *.
  run_m.
  rewrite (launcher_answer cfg _ _ _ w b label Ha). cbv beta iota.
  rewrite Hsel, Hback, Hexit, Hne.
  destruct (contains "Back" (title e)); cbn [orb]; cbv beta iota;
    [close_log |].
  destruct (contains "Exit" (title e)); cbv beta iota; [close_log |].
  pose proof (find_label (List.length es) es 0 i e Hi) as Hfind.
  cbn [Nat.add] in Hfind. fold label in Hfind. fold entries in Hfind.
  rewrite Hfind. cbv beta iota. cbn [entry_url].
  rewrite (run_yt_dlp_found cfg _ _ w _ Hf). close_log.
Qed.

End PlaylistFacts.

(** A playlist named Back to the 80s cannot be opened. *)
Lemma playlist_titles_with_back_or_exit_sample :
  (nth_error Cases.playlists 1 = Some Cases.eighties
   /\ Browser.title Cases.eighties = "Back to the 80" ++ "s"
   /\ Py.is_space "s" = false
   /\ Nav.answer Sample.cfg (Playlists.playlist_mode Sample.cfg)
        (Sample.picks "02 Back to the 80s")
      = Some "02 Back to the 80s"
   /\ Nav.fetch_starts (Sample.picks "02 Back to the 80s") = true)
  /\ In "02 Back to the 80s" ["01 Road trip"; "02 Back to the 80s"]
  /\ Playlists.turn Sample.cfg (Playlists.number_all 2 0 Cases.playlists)
       (Sample.picks "02 Back to the 80s") (Browser.first_page 30)
     = (Browser.first_page 30,
        Playlists.menu_log Sample.cfg
          (Playlists.number_all 2 0 Cases.playlists),
        inr Playlists.Leave).
Proof.
  assert (H1 : nth_error Cases.playlists 1 = Some Cases.eighties)
    by reflexivity.
  assert (H2 : Browser.title Cases.eighties = "Back to the 80" ++ "s")
    by reflexivity.
  assert (H3 : Py.is_space "s" = false) by reflexivity.
  assert (H4 : Nav.answer Sample.cfg (Playlists.playlist_mode Sample.cfg)
                 (Sample.picks "02 Back to the 80s")
               = Some "02 Back to the 80s") by (vm_compute; reflexivity).
  assert (H5 : Nav.fetch_starts (Sample.picks "02 Back to the 80s") = true)
    by reflexivity.
  split; [repeat split; assumption |].
  exact (playlist_titles_with_back_or_exit Sample.cfg Cases.playlists 1
           Cases.eighties "Back to the 80" "s"
           (Sample.picks "02 Back to the 80s") (Browser.first_page 30)
           H1 H2 H3 H4 H5).
Defined.

(** ** yt-browser4.py: the entries of the action menu without a branch *)

Section IdleActions.

Import Py Browser Nav Actions.

Variable cfg : config.
Variable generate_sha256 : string -> string.
Variables CLI_AUTO_GEN_PLAYLISTS CLI_HEADER CLI_NAME : string.

(** X8.  yt-browser4.py: a selection of the action menu that is none
    of the thirteen texts the loop compares it with does nothing: no
    process, no file, no change of the window or of the call, and the same
    menu again.  Six of the eighteen entries of the menu are of that
    kind: Play All, Listen To All, Save Playlist, Subscribe To Channel,
    Download All and Download All (Audio Only). *)
Theorem actions_without_a_branch (f : V4.frame) (video : entry)
    (t : string) (w : world) (b : window) (s : string) :
  action cfg w = Some s ->
  member s handled = false ->
  V4.item_actions cfg generate_sha256 CLI_AUTO_GEN_PLAYLISTS CLI_HEADER
    CLI_NAME f video t w b
  = (b, actions4_log cfg, inr (V4.Continue f))
  /\ idle
     = ["Play All"; "Listen To All"; "Save Playlist";
        "Subscribe To Channel"; "Download All"; "Download All (Audio Only)"].
Proof.
  intros Hs Hm. split; [| reflexivity].
  unfold handled, member, existsb in Hm.
  repeat (apply orb_false_elim in Hm; destruct Hm as [?H Hm]).
  assert (Hf : V4.Continue
                 {| V4.search_results := V4.search_results f;
                    V4.url := V4.url f; V4.urlForAll := V4.urlForAll f;
                    V4.download_images := V4.download_images f;
                    V4.enumerate_playlist := V4.enumerate_playlist f;
                    V4.position_of := V4.position_of f |}
               = V4.Continue f) by (destruct f; reflexivity).
  unfold V4.item_actions, V4.launcher, V4.byebye, actions4_log.
  run_m. action_answered cfg w b Hs. rewrite Hs.
  unfold member, existsb.
  repeat match goal with
         | H : String.eqb _ _ = false |- _ => rewrite H; clear H
         end.
  cbn [orb]. cbv beta iota. rewrite Hf. close_log.
Qed.

End IdleActions.

(** Play All on the first video of the sample page. *)
Lemma actions_without_a_branch_sample :
  (Nav.action Sample.cfg (Sample.picks "x  Play All") = Some "Play All"
   /\ Browser.member "Play All" Actions.handled = false)
  /\ V4.item_actions Sample.cfg Sample.sha
       "/home/user/.cache/yt-browser/playlists" "" "yt-browser"
       Cases.at_actions4 Sample.numbered1 "First video"
       (Sample.picks "x  Play All") Sample.page2
     = (Sample.page2, Nav.actions4_log Sample.cfg,
        inr (V4.Continue Cases.at_actions4)).
Proof.
  assert (H1 : Nav.action Sample.cfg (Sample.picks "x  Play All")
               = Some "Play All") by (vm_compute; reflexivity).
  assert (H2 : Browser.member "Play All" Actions.handled = false)
    by reflexivity.
  split; [split; assumption |].
  exact (proj1 (actions_without_a_branch Sample.cfg Sample.sha
                  "/home/user/.cache/yt-browser/playlists" "" "yt-browser"
                  Cases.at_actions4 Sample.numbered1 "First video"
                  (Sample.picks "x  Play All") Sample.page2 "Play All"
                  H1 H2)).
Defined.

(** ** When the page menu fetches *)

Section QuietMenu.

Import Py Browser Nav.

Variable cfg : config.





End QuietMenu.


(** ** yt-browser4.py: Watch on an entry of a mix *)

Section MixWatch.

Import Py Browser Nav Players.

Variable cfg : config.
Variable generate_sha256 : string -> string.
Variables CLI_AUTO_GEN_PLAYLISTS CLI_HEADER CLI_NAME : string.

(** X6.  yt-browser4.py: Watch on an entry whose address names a
    mix plays the cached playlist of the mix with mpv whatever [PLAYER]
    says, and when the playlist is cached it fetches nothing and writes no
    file; the video is recorded as recently played when mpv was found. *)
Theorem watch_on_a_mix_uses_mpv (f : V4.frame) (video : entry) (t : string)
    (w : world) (b : window) :
  action cfg w = Some "Watch" ->
  contains "list=RD" (entry_url video) = true ->
  playlist_cached w = true ->
  let cached_pl :=
    path_join CLI_AUTO_GEN_PLAYLISTS
      (generate_sha256 (V4.mix_of (remove2 "R" "D" (entry_id video)))
       ++ ".m3u8") in
  let played :=
    [Print ("Now watching: " ++ t);
     Popen ["mpv"; cached_pl] (V4.disown cfg)] in
  V4.item_actions cfg generate_sha256 CLI_AUTO_GEN_PLAYLISTS CLI_HEADER
    CLI_NAME f video t w b
  = if which w "mpv" then
      (b, (actions4_log cfg ++ played ++ recent_log cfg video)%list,
       inr (V4.Continue f))
    else
      (b, (actions4_log cfg ++ played)%list, inl (Raise FileNotFoundError)).
Proof.
  intros Hs Hm Hc cached_pl played. subst cached_pl played.
  assert (Hf : V4.Continue
                 {| V4.search_results := V4.search_results f;
                    V4.url := V4.url f; V4.urlForAll := V4.urlForAll f;
                    V4.download_images := V4.download_images f;
                    V4.enumerate_playlist := V4.enumerate_playlist f;
                    V4.position_of := V4.position_of f |}
               = V4.Continue f) by (destruct f; reflexivity).
  unfold V4.item_actions, V4.watch, V4.update_recent, V4.update_json_list,
    V4.launcher, V4.byebye, actions4_log, recent_log.
  run_m. action_answered cfg w b Hs. rewrite Hs.
  unfold member, existsb. decide_eqb. cbn [orb]. cbv beta iota.
  rewrite Hm, Hc. cbn [hd]. cbv beta iota.
  destruct (which w "mpv"); cbv beta iota; [| close_log].
  destruct (String.eqb (UPDATE_RECENT cfg) "true"); cbn [negb];
    cbv beta iota; rewrite Hf; close_log.
Qed.

End MixWatch.

(** Watch on an entry of a mix with vlc as the player. *)
Lemma watch_on_a_mix_uses_mpv_sample :
  (Nav.action (Sample.with_player "vlc" Sample.cfg) Cases.cached
   = Some "Watch"
   /\ Py.contains "list=RD" (Browser.entry_url Cases.mix_video) = true
   /\ Browser.playlist_cached Cases.cached = true)
  /\ Nav.popens
       (snd (fst (V4.item_actions (Sample.with_player "vlc" Sample.cfg)
                    Sample.sha "/home/user/.cache/yt-browser/playlists" ""
                    "yt-browser" Cases.at_actions4 Cases.mix_video
                    "First of the mix" Cases.cached Sample.page2)))
     = [["mpv";
         "/home/user/.cache/yt-browser/playlists/"
         ++ "https://www.youtube.com/watch?v=a1&list=RDa1.m3u8"]].
Proof.
  assert (H1 : Nav.action (Sample.with_player "vlc" Sample.cfg) Cases.cached
               = Some "Watch") by (vm_compute; reflexivity).
  assert (H2 : Py.contains "list=RD" (Browser.entry_url Cases.mix_video)
               = true) by reflexivity.
  assert (H3 : Browser.playlist_cached Cases.cached = true) by reflexivity.
  split; [repeat split; assumption |].
  rewrite (watch_on_a_mix_uses_mpv (Sample.with_player "vlc" Sample.cfg)
             Sample.sha "/home/user/.cache/yt-browser/playlists" ""
             "yt-browser" Cases.at_actions4 Cases.mix_video
             "First of the mix" Cases.cached Sample.page2 H1 H2 H3).
  reflexivity.
Defined.

(** ** Previous in the two browsers *)

(** X12.  The Previous step is written with two different tests in
    the two browsers, [PLAYLIST_END <= P] in one and [PLAYLIST_END < P] in
    the other; they compute the same window from every window and every
    page size. *)
Theorem previous_pages_agree (P : Z) (b : Browser.window) :
  V4.previous_page P b = V2.previous_page P b.
Proof.
  unfold V4.previous_page, V2.previous_page. cbv zeta.
  destruct (Z.leb_spec (Browser.PLAYLIST_END b - P) P);
    destruct (Z.ltb_spec (Browser.PLAYLIST_END b - P) P);
    try reflexivity; try lia.
  f_equal. lia.
Qed.
